(** * ENT handover tracker: record store, audit trail and derived views

    A shallow embedding of [src/App.py].  The program is a Streamlit script
    that keeps the patient table in a module-level pandas DataFrame [p_df],
    persists it either to local CSV files or to two Google worksheets, and
    appends one row to an audit log for every mutation.

    Python strings are sequences of Unicode code points; cells of a
    DataFrame are strings, missing values (NaN), timestamps or NaT; a
    [dict] with string keys is a [gmap string _]; global state, the clock
    and the uuid generator are threaded through a small state monad. *)

From Stdlib Require Import ZArith NArith Ascii String List Bool Lia.
From Stdlib Require Import Permutation Sorted.
From stdpp Require Import base option list gmap strings.

Open Scope string_scope.
Open Scope list_scope.

(** ** Python strings *)

Module Py.

Abbreviation str := (list N).

(** A literal of the source, read as its code points. *)
Definition lit (s : string) : str :=
  (fix go (s : string) : list N :=
     match s with
     | EmptyString => []
     | String a s' => N_of_ascii a :: go s'
     end) s.

(** [str.isspace] on one code point: the characters Python's [strip]
    removes when called without argument. *)
Definition isspace (c : N) : bool :=
  ((9 <=? c) && (c <=? 13) || (28 <=? c) && (c <=? 32)
   || (c =? 133) || (c =? 160) || (c =? 5760)
   || (8192 <=? c) && (c <=? 8202)
   || (c =? 8232) || (c =? 8233) || (c =? 8239) || (c =? 8287)
   || (c =? 12288))%N.

(** The line boundaries of [str.splitlines]. *)
Definition islinebreak (c : N) : bool :=
  ((10 <=? c) && (c <=? 13) || (28 <=? c) && (c <=? 30)
   || (c =? 133) || (c =? 8232) || (c =? 8233))%N.

Fixpoint lstrip (s : str) : str :=
  match s with
  | c :: s' => if isspace c then lstrip s' else s
  | [] => []
  end.

Definition rstrip (s : str) : str := rev (lstrip (rev s)).

Definition strip (s : str) : str := rstrip (lstrip s).

Fixpoint startswith (s p : str) : bool :=
  match p, s with
  | [], _ => true
  | a :: p', b :: s' => (a =? b)%N && startswith s' p'
  | _ :: _, [] => false
  end.

(** [s.splitlines()]: [cur] is the line being read.  A carriage return
    followed by a line feed is one boundary; the text after the last
    boundary is a line only when it is not empty. *)
Fixpoint splitlines_from (cur : str) (s : str) : list str :=
  match s with
  | [] => match cur with [] => [] | _ :: _ => [cur] end
  | c :: rest =>
      if islinebreak c then
        match rest with
        | d :: rest' =>
            if ((c =? 13) && (d =? 10))%N
            then cur :: splitlines_from [] rest'
            else cur :: splitlines_from [] rest
        | [] => cur :: splitlines_from [] rest
        end
      else splitlines_from (cur ++ [c]) rest
  end.

Definition splitlines (s : str) : list str := splitlines_from [] s.

(** Truth value of a string: empty is false. *)
Definition truthy (s : str) : bool :=
  match s with [] => false | _ :: _ => true end.

(** [s[:n]] and [s[n:]]. *)
Definition upto (n : nat) (s : str) : str := take n s.
Definition from (n : nat) (s : str) : str := drop n s.

(** [sub in s], that is [s.find(sub) >= 0]. *)
Fixpoint contains (s sub : str) : bool :=
  startswith s sub
  || match s with
     | [] => false
     | _ :: s' => contains s' sub
     end.

(** The code points below 128, and what [str.lower] does to one of them. *)
Definition is_ascii (c : N) : bool := (c <? 128)%N.

Definition ascii_lower (c : N) : N :=
  if ((65 <=? c) && (c <=? 90))%N then (c + 32)%N else c.

End Py.

Arguments Py.lit : simpl never.

Abbreviation pystr := Py.str.
Notation "'py' s" := (Py.lit s) (at level 9, s at level 0, format "'py'  s").

(** ** Constants and columns (lines 27-55 of the source) *)

Definition PATIENT_COLUMNS : list string :=
  [ "uid"; "Patient Name"; "Hospital Number"; "NHS Number"; "Date of Birth";
    "Ward/Bed"; "Reason for Admission"; "PMH/PSH/DH"; "Progress"; "Jobs";
    "Priority"; "Assigned To"; "Status"; "Last Updated" ].

Definition AUDIT_COLUMNS : list string :=
  [ "timestamp"; "user_role"; "user_initials"; "action"; "uid";
    "patient_name"; "details" ].

Definition DEFAULT_PRIORITY : pystr := py "Medium".
Definition DEFAULT_STATUS : pystr := py "Active".

(** ** Cells, rows and frames *)

(** What a cell of a DataFrame holds in this program: a string, the missing
    value of an object column, a timestamp (as a number of seconds), or the
    missing value of a datetime column. *)
Inductive value : Type :=
| Str (s : pystr)
| NaN
| Timestamp (t : Z)
| NaT.

#[global] Instance value_eq_dec : EqDecision value.
Proof. solve_decision. Defined.

(** The cells of a datetime column. *)
Definition is_datetime (v : value) : bool :=
  match v with Timestamp _ | NaT => true | Str _ | NaN => false end.

(** Python's [==] on two cells, as numpy applies it element by element:
    a missing value is equal to nothing, not even to itself. *)
Definition value_eqb (a b : value) : bool :=
  match a, b with
  | Str s, Str s' => bool_decide (s = s')
  | Timestamp t, Timestamp t' => bool_decide (t = t')
  | _, _ => false
  end.

(** [x in arr] for a numpy array: some element is [==] to [x]. *)
Definition isin (x : value) (arr : list value) : bool :=
  existsb (fun y => value_eqb y x) arr.

(** A row maps the labels of its frame to cells.  A label with no entry
    reads as the missing value. *)
Abbreviation row := (gmap string value).

Definition cell (r : row) (c : string) : value := default NaN (r !! c).

Record DataFrame : Type := mkDataFrame {
  columns : list string;
  rows : list row
}.

(** [df.empty]: one of the two axes has length zero. *)
Definition empty (df : DataFrame) : bool :=
  match columns df, rows df with
  | [], _ | _, [] => true
  | _ :: _, _ :: _ => false
  end.

(** [df[c].values] *)
Definition values (c : string) (df : DataFrame) : list value :=
  map (fun r => cell r c) (rows df).

(** One record laid out on the labels [cols]; a label the record lacks
    gets the missing value. *)
Definition reindex (cols : list string) (d : row) : row :=
  list_to_map (map (fun c => (c, cell d c)) cols).

(** [pd.DataFrame(records, columns=cols)] for a list of dicts. *)
Definition DataFrame_of_records (records : list row) (cols : list string)
  : DataFrame :=
  mkDataFrame cols (map (reindex cols) records).

(** [df[c] = v] with a scalar [v]: the column is overwritten, or added
    after the existing ones. *)
Definition set_column (c : string) (v : value) (df : DataFrame) : DataFrame :=
  mkDataFrame
    (if bool_decide (c ∈ columns df) then columns df else columns df ++ [c])
    (map (fun r => <[c := v]> r) (rows df)).

(** [df[c] = series] for a series on the index of [df]: the cell of each
    row is the value of the series at that row, the missing value where the
    series has none. *)
Definition assign_column (c : string) (series : list value) (df : DataFrame)
  : DataFrame :=
  mkDataFrame
    (if bool_decide (c ∈ columns df) then columns df else columns df ++ [c])
    (imap (fun i r => <[c := default NaN (series !! i)]> r) (rows df)).

(** [df[cols]]: the listed columns, in the listed order. *)
Definition select (cols : list string) (df : DataFrame) : DataFrame :=
  mkDataFrame cols (map (reindex cols) (rows df)).

(** [pd.concat([a, b], ignore_index=True)]: the rows of [a] then those of
    [b], on the labels of [a] followed by the labels only [b] has. *)
Definition concat (a b : DataFrame) : DataFrame :=
  mkDataFrame
    (columns a ++ filter (fun c => c ∉ columns a) (columns b))
    (rows a ++ rows b).

(** [df.index[mask][0]] for the mask [df[c] == x]: the label of the first
    row whose cell equals [x].  The index is the default range index, so
    the label is the position. *)
Fixpoint first_index (c : string) (x : value) (rs : list row) : option nat :=
  match rs with
  | [] => None
  | r :: rs' =>
      if value_eqb (cell r c) x then Some 0
      else S <$> first_index c x rs'
  end.

(** ** Column dtypes *)

(** pandas keeps a dtype for every column.  Two dtypes besides [object]
    matter to this program, and both can be read off the cells of the
    tables it builds.  [datetime64]: line 185 converts Last Updated of a
    table that has rows, and the column keeps that dtype as long as all its
    cells are timestamps or NaT; the program converts no other column.
    [float64]: a column of a table that has rows and that holds missing
    values only, as [pd.read_csv] and [pd.DataFrame(records)] give it for a
    column without any value. *)
Inductive dtype : Type := object | float64 | datetime64.

Definition dtype_of (c : string) (df : DataFrame) : dtype :=
  match values c df with
  | [] => object
  | vs =>
      if bool_decide (c = "Last Updated") && forallb is_datetime vs
      then datetime64
      else if forallb (fun v => bool_decide (v = NaN)) vs
      then float64
      else object
  end.

(** ** Persistence media *)

(** A worksheet: its first row, and the rows below it. *)
Record Worksheet : Type := mkWorksheet {
  ws_header : list string;
  ws_body : list (list value)
}.

(** [ws.get_all_records()]: one dict per row below the header, keyed by the
    header; a cell past the end of a short row reads as the empty string. *)
Definition get_all_records (ws : Worksheet) : list row :=
  map (fun cells =>
         list_to_map
           (imap (fun i k => (k, default (Str []) (cells !! i))) (ws_header ws)))
      (ws_body ws).

(** [ws.resize(rows=n)] for [n] = 1: only the header row is kept. *)
Definition resize_rows_1 (ws : Worksheet) : Worksheet :=
  mkWorksheet (ws_header ws) [].

(** [ws.append_row(cells)] *)
Definition append_row (cells : list value) (ws : Worksheet) : Worksheet :=
  mkWorksheet (ws_header ws) (ws_body ws ++ [cells]).

(** What is found at the path of a CSV file.  [Table df] is the file that
    [df.to_csv(path, index=False)] writes; its text is not modelled.
    Reading is idealised: [pd.read_csv] is taken to give back the frame
    that was written, cell for cell.  The types [read_csv] infers column
    by column (an empty cell read as a missing value, digits read as a
    number) are outside this model; what is stated of the table in memory
    and of the table written to the medium does not rest on it. *)
Inductive CsvFile : Type :=
| Absent                  (* no file, or a file of size zero *)
| Unreadable              (* a file [pd.read_csv] raises on *)
| Table (df : DataFrame). (* the file [to_csv] writes for [df] *)

(** The dict [_init_backend] returns, with the medium each entry names. *)
Inductive Backend : Type :=
| sheets (p_ws a_ws : Worksheet)
| csv (patients_path audit_path : CsvFile).

(** ** Global state and effects *)

(** The module-level state of the script, together with what the outside
    world will answer: [uuid4 n] is the string the [n]-th call of
    [uuid.uuid4()] yields and [now n] the [n]-th reading of the clock in
    ISO format. *)
Record World : Type := mkWorld {
  backend : Backend;
  p_df : DataFrame;
  uuid4 : nat -> pystr;
  uuid_calls : nat;
  now : nat -> pystr;
  now_calls : nat
}.

Inductive exn : Type := IndexError | AttributeError | TypeError.

Inductive result (A : Type) : Type :=
| Ok (a : A)
| Raise (e : exn).
Arguments Ok {A} a.
Arguments Raise {A} e.

(** Computations that read and write the world and may raise. *)
Definition M (A : Type) : Type := World -> result A * World.

Definition ret {A} (a : A) : M A := fun w => (Ok a, w).

Definition bind {A B} (m : M A) (k : A -> M B) : M B :=
  fun w =>
    match m w with
    | (Ok a, w') => k a w'
    | (Raise e, w') => (Raise e, w')
    end.

Definition raise {A} (e : exn) : M A := fun w => (Raise e, w).

Notation "'do' x <- m ; k" := (bind m (fun x => k))
  (at level 10, x name, m at level 100, k at level 200,
   format "'[v' 'do'  x  <-  m ; '/' k ']'").
Notation "'exec' m ; k" := (bind m (fun _ => k))
  (at level 10, m at level 100, k at level 200,
   format "'[v' 'exec'  m ; '/' k ']'").

Definition get_backend : M Backend := fun w => (Ok (backend w), w).

Definition set_backend (b : Backend) : M unit :=
  fun w => (Ok tt, mkWorld b (p_df w) (uuid4 w) (uuid_calls w) (now w) (now_calls w)).

Definition get_p_df : M DataFrame := fun w => (Ok (p_df w), w).

Definition set_p_df (df : DataFrame) : M unit :=
  fun w => (Ok tt, mkWorld (backend w) df (uuid4 w) (uuid_calls w) (now w) (now_calls w)).

(** [_now_iso()] (lines 241-242) *)
Definition _now_iso : M pystr :=
  fun w => (Ok (now w (now_calls w)),
            mkWorld (backend w) (p_df w) (uuid4 w) (uuid_calls w) (now w) (S (now_calls w))).

(** [_new_uid()] (lines 245-246) *)
Definition _new_uid : M pystr :=
  fun w => (Ok (uuid4 w (uuid_calls w)),
            mkWorld (backend w) (p_df w) (uuid4 w) (S (uuid_calls w)) (now w) (now_calls w)).

(** A concrete label is one of the columns. *)
Ltac in_columns := repeat constructor.

(** ** Values of the configuration *)

(** What the configuration code handles: [None], a string, or some other
    object (a table of the secrets file, a parsed JSON document). *)
Inductive pyvalue (pyobj : Type) : Type :=
| PyNone
| PyStr (s : pystr)
| PyObj (o : pyobj).
Arguments PyNone {pyobj}.
Arguments PyStr {pyobj} s.
Arguments PyObj {pyobj} o.

(** How the header check of a worksheet (lines 140-143) ends; the program
    passes over an exception of its calls (lines 144-145). *)
Inductive header_check : Type :=
| CallsReturn     (* [row_values], [delete_rows] and [insert_row] return *)
| CheckRaises     (* [row_values] raises, or [delete_rows] does *)
| InsertRaises.   (* [delete_rows] returns and [insert_row] raises *)

(** ** Example data *)

Module Example.

(** A [pd.to_datetime] that finds no date, and a printer of timestamps. *)
Definition no_dates : list value -> list value := map (fun _ => NaT).
Definition stamp : Z -> pystr := fun _ => py "2024-01-01 00:00:00".

Definition uuids (n : nat) : pystr :=
  match n with 0 => py "uuid-0" | _ => py "uuid-n" end.

Definition clock (n : nat) : pystr :=
  match n with
  | 0 => py "2024-05-01T10:00:00"
  | 1 => py "2024-05-01T10:00:01"
  | _ => py "2024-05-01T10:00:02"
  end.

(** The readings of [clock] as pandas reads them, in seconds since the
    epoch, and the text pandas prints for these instants. *)
Definition isoparse (s : pystr) : option Z :=
  if bool_decide (s = py "2024-05-01T10:00:00") then Some 1714557600%Z
  else if bool_decide (s = py "2024-05-01T10:00:01") then Some 1714557601%Z
  else if bool_decide (s = py "2024-05-01T10:00:02") then Some 1714557602%Z
  else None.

Definition isoformat (t : Z) : pystr :=
  if bool_decide (t = 1714557600%Z) then py "2024-05-01 10:00:00"
  else if bool_decide (t = 1714557601%Z) then py "2024-05-01 10:00:01"
  else if bool_decide (t = 1714557602%Z) then py "2024-05-01 10:00:02"
  else py "1970-01-01 00:01:40".

(** A patient row with every column. *)
Definition patient (uid name priority status jobs : string) (updated : value)
  : row :=
  list_to_map
    [ ("uid", Str (py uid)); ("Patient Name", Str (py name));
      ("Hospital Number", Str (py "")); ("NHS Number", Str (py ""));
      ("Date of Birth", Str (py "")); ("Ward/Bed", Str (py ""));
      ("Reason for Admission", Str (py "")); ("PMH/PSH/DH", Str (py ""));
      ("Progress", Str (py "")); ("Jobs", Str (py jobs));
      ("Priority", Str (py priority)); ("Assigned To", Str (py ""));
      ("Status", Str (py status)); ("Last Updated", updated) ].

Definition ann : row := patient "u1" "Ann" "Low" "Active" "" (Timestamp 100).
Definition bob : row := patient "u2" "Bob" "High" "Active" "" (Timestamp 50).
Definition cyd : row := patient "u3" "Cyd" "Medium" "Active" "" NaT.

(** A patient saved in this run: Last Updated is the ISO string. *)
Definition dee : row :=
  patient "u4" "Dee" "High" "Active" "" (Str (py "2024-05-01T10:00:00")).

(** A fresh installation on CSV files: no file yet, nothing in memory. *)
Definition fresh : World :=
  mkWorld (csv Absent Absent) (mkDataFrame PATIENT_COLUMNS []) uuids 0 clock 0.

(** The same with one patient in memory. *)
Definition with_ann : World :=
  mkWorld (csv Absent Absent) (mkDataFrame PATIENT_COLUMNS [ann]) uuids 0 clock 0.

(** One patient in memory, on worksheets with their headers in place. *)
Definition with_ann_on_sheets : World :=
  mkWorld
    (sheets (mkWorksheet PATIENT_COLUMNS []) (mkWorksheet AUDIT_COLUMNS []))
    (mkDataFrame PATIENT_COLUMNS [ann]) uuids 0 clock 0.

(** A record with a name and nothing else; one with an empty name; one that
    carries a uid. *)
Definition named : gmap string pystr := {[ "Patient Name" := py "Dee" ]}.
Definition unnamed : gmap string pystr := {[ "Patient Name" := py "" ]}.
Definition with_uid_u1 : gmap string pystr :=
  <["uid" := py "u1"]> (<["Ward/Bed" := py "B2"]> {[ "Patient Name" := py "Ann" ]}).
Definition with_uid_x9 : gmap string pystr :=
  <["uid" := py "x9"]> {[ "Patient Name" := py "Eve" ]}.

(** A CSV table without the Priority and Status columns. *)
Definition old_table : DataFrame :=
  mkDataFrame ["uid"; "Patient Name"]
    [ list_to_map [("uid", Str (py "u1")); ("Patient Name", Str (py "Ann"))] ].

(** A checklist: an open item, a done item, a note. *)
Definition checklist : pystr :=
  py "- [ ] open task" ++ [10%N] ++ py "- [x] done task" ++ [10%N] ++ py "call family".

Definition with_jobs : row := <["Jobs" := Str checklist]> ann.

(** A [str.lower] and a [str.upper] that know the ASCII letters only. *)
Definition lower : pystr -> pystr := map Py.ascii_lower.
Definition upper : pystr -> pystr :=
  map (fun c => if ((97 <=? c) && (c <=? 122))%N then (c - 32)%N else c).

(** A ward filter that lets every row pass. *)
Definition any_ward : pystr -> value -> bool := fun _ _ => true.

(** Objects of the configuration: only their truth value matters here. *)
Definition a_dict : pyvalue bool := PyObj true.
Definition json_is_a_dict : pystr -> option (pyvalue bool) :=
  fun s => match s with [] => None | _ :: _ => Some a_dict end.

(** A spreadsheet that holds a patients sheet whose first row is not the
    expected header, and no audit sheet. *)
Definition stale_sheet : Worksheet :=
  mkWorksheet ["Name"; "Ward"] [[Str (py "Ann"); Str (py "B2")]].
Definition spreadsheet : gmap string Worksheet := {[ "patients" := stale_sheet ]}.

(** A spreadsheet whose calls all return; cells read as the keys of a
    first row keep no text. *)
Definition calls_return : string -> header_check := fun _ => CallsReturn.
Definition blank_keys : list value -> list string := map (fun _ => EmptyString).

(** An environment with the two variables of the remote backend; the
    JSON text is [{'k':1}] with double quotes, given by its code points. *)
Definition creds_json : pystr := [123; 34; 107; 34; 58; 49; 125]%N.
Definition remote_env : gmap pystr pystr :=
  <[py "SPREADSHEET_URL" := py "https://sheet"]>
    {[ py "GCP_SERVICE_ACCOUNT_JSON" := creds_json ]}.

(** Two patients of the same name. *)
Definition ann2 : row := patient "u9" "Ann" "High" "Active" "" (Timestamp 7).
Definition namesakes : DataFrame := mkDataFrame PATIENT_COLUMNS [ann; bob; ann2].

End Example.

Section Store.

(** Two functions of pandas the program relies on: [pd.to_datetime] with
    [errors="coerce"] on a column, and [str] of a timestamp.  Of the first
    only this is used: it gives one cell per cell, and every cell it gives
    is a timestamp or NaT. *)
Variable pd_to_datetime : list value -> list value.
Variable timestamp_str : Z -> pystr.

(** A third one: the instant pandas reads in a string that is assigned to
    a cell of a datetime64 column, [None] for a string it reads no date
    in.  The strings of [_now_iso] are all read as dates. *)
Variable pd_Timestamp : pystr -> option Z.

Hypothesis pd_to_datetime_length :
  forall series, length (pd_to_datetime series) = length series.
Hypothesis pd_to_datetime_coerce :
  forall series, Forall (fun v => is_datetime v = true) (pd_to_datetime series).

(** What [df.loc[idx, c] = v] stores in the cell: a string assigned to a
    datetime64 column is stored as the timestamp pandas reads in it (a
    string that is no date stays a string, and the column is an object
    column from then on); any other assignment stores the value itself. *)
Definition setitem_value (c : string) (df : DataFrame) (v : value) : value :=
  match v with
  | Str s =>
      match dtype_of c df with
      | datetime64 =>
          match pd_Timestamp s with
          | Some t => Timestamp t
          | None => v
          end
      | object | float64 => v
      end
  | NaN | Timestamp _ | NaT => v
  end.

(** [df.loc[idx, c] = v] *)
Definition loc_set (idx : nat) (c : string) (v : value) (df : DataFrame)
  : DataFrame :=
  mkDataFrame (columns df)
    (alter (fun r => <[c := setitem_value c df v]> r) idx (rows df)).

(** [df.loc[idx, cols] = vals], one assignment to the cells of a row, the
    two lists read side by side: each value is stored as the dtype of its
    column has it. *)
Definition loc_set_many (idx : nat) (cols : list string) (vals : list value)
  (df : DataFrame) : DataFrame :=
  mkDataFrame (columns df)
    (alter
       (fun r =>
          fold_left (fun (r : row) cv => <[cv.1 := setitem_value cv.1 df cv.2]> r)
            (zip cols vals) r)
       idx (rows df)).

(** [df.loc[idx, c]] *)
Definition loc_get (idx : nat) (c : string) (df : DataFrame) : value :=
  match rows df !! idx with
  | Some r => cell r c
  | None => NaN
  end.

(** [str(v)], which [astype(str)] applies to every cell. *)
Definition astype_str (v : value) : pystr :=
  match v with
  | Str s => s
  | NaN => py "nan"
  | Timestamp t => timestamp_str t
  | NaT => py "NaT"
  end.

(** [_load_csv] (lines 161-172).  [pd.read_csv] gives the frame of the
    file as it was written (see [CsvFile]). *)
Definition _load_csv (path : CsvFile) (cols : list string) : DataFrame :=
  match path with
  | Table df =>
      let df :=
        fold_left
          (fun df c =>
             if bool_decide (c ∈ columns df) then df
             else set_column c (Str (py "")) df)
          cols df in
      select cols df
  | Absent | Unreadable => mkDataFrame cols []
  end.

(** [load_data] (lines 175-186), as a function of the backend *)
Definition load_data (b : Backend) : DataFrame * DataFrame :=
  let '(p_df, a_df) :=
    match b with
    | sheets p_ws a_ws =>
        let patients := get_all_records p_ws in
        let audit := get_all_records a_ws in
        (DataFrame_of_records patients PATIENT_COLUMNS,
         DataFrame_of_records audit AUDIT_COLUMNS)
    | csv patients_path audit_path =>
        (_load_csv patients_path PATIENT_COLUMNS,
         _load_csv audit_path AUDIT_COLUMNS)
    end in
  let p_df :=
    if negb (empty p_df) then
      assign_column "Last Updated"
        (pd_to_datetime (values "Last Updated" p_df)) p_df
    else p_df in
  (p_df, a_df).

(** [_write_patients] (lines 189-201).  The worksheet is written column by
    column from cell A2; read row by row, the rows below the header are
    the rows of [df] with every cell turned into its string.  On the
    CSV backend the file is the one [to_csv] writes for [df]. *)
Definition _write_patients (df : DataFrame) : M unit :=
  do b <- get_backend;
  match b with
  | sheets p_ws a_ws =>
      let ws := resize_rows_1 p_ws in
      let ws :=
        if negb (empty df) then
          mkWorksheet (ws_header ws)
            (map (fun r => map (fun col => Str (astype_str (cell r col))) (columns df))
                 (rows df))
        else ws in
      set_backend (sheets ws a_ws)
  | csv patients_path audit_path =>
      set_backend (csv (Table df) audit_path)
  end.

(** [row.get(c, "")] *)
Definition get_or_empty (d : row) (c : string) : value :=
  default (Str (py "")) (d !! c).

(** [_append_audit] (lines 204-210) *)
Definition _append_audit (row : row) : M unit :=
  do b <- get_backend;
  match b with
  | sheets p_ws a_ws =>
      set_backend
        (sheets p_ws (append_row (map (get_or_empty row) AUDIT_COLUMNS) a_ws))
  | csv patients_path audit_path =>
      let df := _load_csv audit_path AUDIT_COLUMNS in
      let df :=
        mkDataFrame (columns df)
          (rows df ++
           [list_to_map (zip (columns df) (map (get_or_empty row) AUDIT_COLUMNS))]) in
      set_backend (csv patients_path (Table df))
  end.

(** The dict of one audit event, as both mutations build it. *)
Definition audit_event (timestamp user_role user_initials action : pystr)
  (uid patient_name : value) (details : pystr) : row :=
  <["timestamp" := Str timestamp]>
  (<["user_role" := Str user_role]>
  (<["user_initials" := Str user_initials]>
  (<["action" := Str action]>
  (<["uid" := uid]>
  (<["patient_name" := patient_name]>
  (<["details" := Str details]> ∅)))))).

(** [rec[c]] once every column has an entry. *)
Definition getitem (rec : gmap string pystr) (c : string) : pystr :=
  default [] (rec !! c).

(** [upsert_patient] (lines 249-278).  The two callers build [record] from
    the text of the form fields, so its entries are strings. *)
Definition upsert_patient (record : gmap string pystr)
  (editor_role editor_initials : pystr) : M pystr :=
  let rec := record in
  do rec <-
    (if negb (Py.truthy (default [] (rec !! "uid")))
     then do u <- _new_uid; ret (<["uid" := u]> rec)
     else ret rec);
  do t <- _now_iso;
  let rec := <["Last Updated" := t]> rec in
  let rec :=
    fold_left
      (fun rec c => if bool_decide (is_Some (rec !! c)) then rec
                    else <[c := py ""]> rec)
      PATIENT_COLUMNS rec in
  do df <- get_p_df;
  do action <-
    (if negb (empty df) && isin (Str (getitem rec "uid")) (values "uid" df)
     then
       match first_index "uid" (Str (getitem rec "uid")) (rows df) with
       | Some idx =>
           exec set_p_df
             (loc_set_many idx PATIENT_COLUMNS
                (map (fun c => Str (getitem rec c)) PATIENT_COLUMNS) df);
           ret (py "update")
       | None => raise IndexError
       end
     else
       let new_row := DataFrame_of_records [Str <$> rec] PATIENT_COLUMNS in
       exec set_p_df (concat df new_row);
       ret (py "create"));
  do df <- get_p_df;
  exec _write_patients df;
  do ts <- _now_iso;
  exec _append_audit
    (audit_event ts editor_role editor_initials action
       (Str (getitem rec "uid"))
       (Str (default (py "") (rec !! "Patient Name")))
       (action ++ py " by " ++ editor_initials));
  ret (getitem rec "uid").

(** [discharge_patient] (lines 281-298) *)
Definition discharge_patient (uid : pystr)
  (editor_role editor_initials : pystr) : M bool :=
  do df <- get_p_df;
  if empty df || negb (isin (Str uid) (values "uid" df)) then ret false
  else
    match first_index "uid" (Str uid) (rows df) with
    | None => raise IndexError
    | Some idx =>
        exec set_p_df (loc_set idx "Status" (Str (py "Discharged")) df);
        do t <- _now_iso;
        do df <- get_p_df;
        exec set_p_df (loc_set idx "Last Updated" (Str t) df);
        do df <- get_p_df;
        exec _write_patients df;
        do ts <- _now_iso;
        do df <- get_p_df;
        exec _append_audit
          (audit_event ts editor_role editor_initials (py "discharge")
             (Str uid) (loc_get idx "Patient Name" df)
             (py "discharged by " ++ editor_initials));
        ret true
    end.

(** What a form handler shows when it is done. *)
Inductive notice : Type :=
| st_error (msg : pystr)
| st_success (msg : pystr).

(** [initials or role[:2]] *)
Definition initials_or_role (initials role : pystr) : pystr :=
  if Py.truthy initials then initials else Py.upto 2 role.

(** The [if submitted:] branch of the edit form (lines 436-457): [rec] is
    the record the form was opened on, the other arguments are the contents
    of the widgets, [role] and [initials] come from the sidebar. *)
Definition edit_form_submitted (rec : gmap string pystr)
  (name hosp nhs dob ward assigned priority status : pystr)
  (pmhpshdh reason progress jobs : pystr) (role initials : pystr) : M notice :=
  if negb (Py.truthy (Py.strip name)) then
    ret (st_error (py "Patient name is required."))
  else
    do last_updated <- _now_iso;
    let new_rec : gmap string pystr :=
      <["uid" := default (py "") (rec !! "uid")]>
      (<["Patient Name" := Py.strip name]>
      (<["Hospital Number" := Py.strip hosp]>
      (<["NHS Number" := Py.strip nhs]>
      (<["Date of Birth" := Py.strip dob]>
      (<["Ward/Bed" := Py.strip ward]>
      (<["Reason for Admission" := Py.strip reason]>
      (<["PMH/PSH/DH" := Py.strip pmhpshdh]>
      (<["Progress" := Py.strip progress]>
      (<["Jobs" := Py.strip jobs]>
      (<["Priority" := priority]>
      (<["Assigned To" := Py.strip assigned]>
      (<["Status" := status]>
      (<["Last Updated" := last_updated]> ∅))))))))))))) in
    do uid <- upsert_patient new_rec role (initials_or_role initials role);
    ret (st_success (py "Saved.")).

(** ** The sorted view (lines 365-368) *)

(** [priority_rank.get(str(x), 99)] *)
Definition priority_rank (x : value) : nat :=
  let s := astype_str x in
  if bool_decide (s = py "High") then 0
  else if bool_decide (s = py "Medium") then 1
  else if bool_decide (s = py "Low") then 2
  else 99.

(** The helper column [_prio] is only a sort key; it is read off the row
    instead of being stored in it. *)
Definition _prio (r : row) : nat := priority_rank (cell r "Priority").

Definition missing (v : value) : bool :=
  match v with NaN | NaT => true | Str _ | Timestamp _ => false end.

(** The order of the second key, [ascending=False] with the default
    [na_position="last"]: larger values first, missing values after all
    others.  Strings compare as Python compares them, code point by code
    point.  In a column that holds strings and timestamps together (the
    rows written in this run carry the ISO string of the clock, the rows
    loaded before carry timestamps) pandas ranks every timestamp below
    every string, so that in descending order the strings come first. *)
Definition later_first (a b : value) : bool :=
  match a, b with
  | Timestamp t, Timestamp t' => (t' <=? t)%Z
  | Str s, Str s' =>
      match list_compare N.compare s s' with Lt => false | _ => true end
  | Str _, Timestamp _ => true
  | Timestamp _, Str _ => false
  | _, (NaN | NaT) => true
  | (NaN | NaT), (Str _ | Timestamp _) => false
  end.

(** [r1] may stand before [r2] in the sorted view. *)
Definition before (r1 r2 : row) : bool :=
  Nat.ltb (_prio r1) (_prio r2)
  || Nat.eqb (_prio r1) (_prio r2)
     && later_first (cell r1 "Last Updated") (cell r2 "Last Updated").

(** pandas sorts on several keys with a stable sort of the rows; it is
    modelled by insertion at the first place that keeps the order. *)
Fixpoint insert_sorted (r : row) (rs : list row) : list row :=
  match rs with
  | [] => [r]
  | r' :: rs' =>
      if before r r' then r :: r' :: rs' else r' :: insert_sorted r rs'
  end.

Definition stable_sort (rs : list row) : list row :=
  foldr insert_sorted [] rs.

Definition is_str (v : value) : bool :=
  match v with Str _ => true | _ => false end.

(** [view_df.sort_values(["_prio", "Last Updated"], ascending=[True, False])]
    on the rows of the view.  The sort on two keys returns for every
    column of these cells, also for one that holds strings and timestamps
    together. *)
Definition sort_values (rs : list row) : result (list row) :=
  Ok (stable_sort rs).

(** ** Pending jobs (lines 470-491) *)

(** [parse_jobs] (lines 470-478) *)
Definition parse_jobs (jtxt : pystr) : list (pystr * bool) :=
  fold_left
    (fun items line =>
       let line := Py.strip line in
       if Py.startswith line (py "- [x]") || Py.startswith line (py "- [X]")
       then items ++ [(Py.strip (Py.from 5 line), true)]
       else if Py.startswith line (py "- [ ]")
       then items ++ [(Py.strip (Py.from 5 line), false)]
       else items)
    (Py.splitlines (if Py.truthy jtxt then jtxt else py ""))
    [].

(** One entry of [pending]. *)
Definition pending_entry (r : row) (task : pystr) : row :=
  <["Patient" := cell r "Patient Name"]>
  (<["Ward/Bed" := cell r "Ward/Bed"]>
  (<["Priority" := cell r "Priority"]>
  (<["Task" := Str task]>
  (<["Assigned To" := cell r "Assigned To"]>
  (<["Last Updated" := cell r "Last Updated"]> ∅))))).

(** The body of the loop over the rows of the view, for one row.  A cell
    that is not a string is true and has no [splitlines]: the call raises. *)
Definition pending_of_row (pending : list row) (r : row) : result (list row) :=
  match cell r "Jobs" with
  | Str jtxt =>
      Ok (fold_left
            (fun pending item =>
               if negb item.2 then pending ++ [pending_entry r item.1]
               else pending)
            (parse_jobs jtxt) pending)
  | NaN | Timestamp _ | NaT => Raise AttributeError
  end.

(** The loop of lines 480-491 over the rows of the view. *)
Fixpoint pending_loop (pending : list row) (view : list row)
  : result (list row) :=
  match view with
  | [] => Ok pending
  | r :: view' =>
      match pending_of_row pending r with
      | Ok pending' => pending_loop pending' view'
      | Raise e => Raise e
      end
  end.

(** ** Secrets and environment (lines 67-103) *)

(** Python and library functions the configuration code calls:
    [isinstance(_, dict)] and the truth value of an object that is not a
    string, [json.loads] ([None] when it raises), [str.upper], and the
    calls of lines 124-136 that are not guarded by a [try] of their own:
    the three that open the spreadsheet and, for a worksheet that does not
    exist yet, [add_worksheet] and [append_row].  [open_by_url] gives the
    worksheets the spreadsheet holds by title, or [None] when one of these
    calls raises. *)
Variable pyobj : Type.
Variable isinstance_dict : pyobj -> bool.
Variable obj_truthy : pyobj -> bool.
Variable json_loads : pystr -> option (pyvalue pyobj).
Variable str_upper : pystr -> pystr.
Variable open_by_url :
  pyvalue pyobj -> pyvalue pyobj -> option (gmap string Worksheet).

(** How the header check of a worksheet ends, by its title, and a row of
    cells read as the first row of a sheet. *)
Variable header_calls : string -> header_check.
Variable row_as_keys : list value -> list string.

(** Truth value of a configuration value. *)
Definition truthy (v : pyvalue pyobj) : bool :=
  match v with
  | PyNone => false
  | PyStr s => Py.truthy s
  | PyObj o => obj_truthy o
  end.

(** [a or b] for two results of [os.getenv]. *)
Definition getenv_or (a b : option pystr) : option pystr :=
  match a with
  | Some s => if Py.truthy s then Some s else b
  | None => b
  end.

(** [safe_get_secret] (lines 67-82).  [secrets] is [None] when reading
    [st.secrets] raises; [environ] is the process environment. *)
Definition safe_get_secret (secrets : option (gmap pystr (pyvalue pyobj)))
  (environ : gmap pystr pystr) (key : pystr) (default : pyvalue pyobj)
  : pyvalue pyobj :=
  let from_secrets :=
    match secrets with
    | Some st_secrets => st_secrets !! key
    | None => None
    end in
  match from_secrets with
  | Some v => v
  | None =>
      let env_val := getenv_or (environ !! key) (environ !! str_upper key) in
      match env_val with
      | Some s => PyStr s
      | None => default
      end
  end.

(** [load_service_account_from_sources] (lines 85-103) *)
Definition load_service_account_from_sources
  (secrets : option (gmap pystr (pyvalue pyobj)))
  (environ : gmap pystr pystr) : pyvalue pyobj :=
  let from_secrets :=
    match secrets with
    | Some st_secrets =>
        match st_secrets !! py "gcp_service_account" with
        | Some (PyObj o) => if isinstance_dict o then Some (PyObj o) else None
        | Some (PyStr val) =>
            if Py.truthy (Py.strip val) then json_loads val else None
        | Some PyNone | None => None
        end
    | None => None
    end in
  match from_secrets with
  | Some v => v
  | None =>
      match environ !! py "GCP_SERVICE_ACCOUNT_JSON" with
      | Some env_json =>
          if Py.truthy env_json then
            match json_loads env_json with
            | Some v => v
            | None => PyNone
            end
          else PyNone
      | None => PyNone
      end
  end.

(** ** The choice of the backend (lines 108-158) *)

(** [ws.delete_rows(1)]: the row below the first row becomes the first. *)
Definition delete_rows_1 (ws : Worksheet) : Worksheet :=
  match ws_body ws with
  | [] => mkWorksheet [] []
  | r :: body => mkWorksheet (row_as_keys r) body
  end.

(** [get_or_create_ws] (lines 132-146).  A worksheet that does not exist is
    added and receives the header as its first row.  Then the first row is
    checked: a first row that differs from the header is deleted and the
    header inserted in its place.  When a call of the check raises, the
    worksheet is returned as the calls before have left it. *)
Definition get_or_create_ws (sh : gmap string Worksheet) (title : string)
  (header : list string) : Worksheet :=
  let ws :=
    match sh !! title with
    | Some ws => ws
    | None => mkWorksheet header []
    end in
  match header_calls title with
  | CheckRaises => ws
  | CallsReturn =>
      if bool_decide (ws_header ws = header) then ws
      else mkWorksheet header (ws_body ws)
  | InsertRaises =>
      if bool_decide (ws_header ws = header) then ws
      else delete_rows_1 ws
  end.

(** [_init_backend] (lines 109-155).  [gspread] tells whether the two
    optional imports succeed; the last two arguments are what lies at the
    two local paths. *)
Definition _init_backend (gspread : bool)
  (secrets : option (gmap pystr (pyvalue pyobj)))
  (environ : gmap pystr pystr)
  (LOCAL_PATIENTS_CSV LOCAL_AUDIT_CSV : CsvFile) : Backend :=
  let creds_info := load_service_account_from_sources secrets environ in
  let sheet_url := safe_get_secret secrets environ (py "SPREADSHEET_URL") PyNone in
  if gspread && truthy creds_info && truthy sheet_url then
    match open_by_url creds_info sheet_url with
    | Some sh =>
        let p_ws := get_or_create_ws sh "patients" PATIENT_COLUMNS in
        let a_ws := get_or_create_ws sh "audit_log" AUDIT_COLUMNS in
        sheets p_ws a_ws
    | None => csv LOCAL_PATIENTS_CSV LOCAL_AUDIT_CSV
    end
  else csv LOCAL_PATIENTS_CSV LOCAL_AUDIT_CSV.

(** ** Quick add (lines 313-341) *)

(** The [if submit_qa:] branch.  [qa_dob] is the date of the widget as
    [strftime] prints it. *)
Definition quick_add_submitted
  (qa_name qa_hosp qa_nhs qa_dob qa_reason role initials : pystr) : M notice :=
  if negb (Py.truthy (Py.strip qa_name)) then
    ret (st_error (py "Name is required."))
  else
    do uid <- _new_uid;
    do last_updated <- _now_iso;
    let rec : gmap string pystr :=
      <["uid" := uid]>
      (<["Patient Name" := Py.strip qa_name]>
      (<["Hospital Number" := Py.strip qa_hosp]>
      (<["NHS Number" := Py.strip qa_nhs]>
      (<["Date of Birth" := qa_dob]>
      (<["Ward/Bed" := py ""]>
      (<["Reason for Admission" := Py.strip qa_reason]>
      (<["PMH/PSH/DH" := py ""]>
      (<["Progress" := py ""]>
      (<["Jobs" := py ""]>
      (<["Priority" := DEFAULT_PRIORITY]>
      (<["Assigned To" := py ""]>
      (<["Status" := DEFAULT_STATUS]>
      (<["Last Updated" := last_updated]> ∅))))))))))))) in
    exec upsert_patient rec role (initials_or_role initials role);
    ret (st_success (py "Patient added.")).

(** ** The filters of the view (lines 351-363) *)

(** [str.lower], and [Series.str.contains(pat, case=False, na=False)] on
    one cell, which treats [pat] as a regular expression. *)
Variable str_lower : pystr -> pystr.
Variable str_contains : pystr -> value -> bool.

(** Python lowers a string of ASCII characters character by character. *)
Hypothesis str_lower_ascii :
  forall s, Forall (fun c => Py.is_ascii c = true) s ->
            str_lower s = map Py.ascii_lower s.

Definition SEARCH_COLUMNS : list string :=
  [ "Patient Name"; "NHS Number"; "Hospital Number"; "Ward/Bed";
    "Reason for Admission"; "Assigned To" ].

(** The lambda of line 355 on one row. *)
Definition matches_query (ql : pystr) (r : row) : bool :=
  existsb (fun c => Py.contains (str_lower (astype_str (cell r c))) ql)
    SEARCH_COLUMNS.

(** One cell of [view_df["Status"].fillna("").str.lower() == "active"]:
    a missing value is filled with the empty string, a cell that is not a
    string has no lower case and compares unequal. *)
Definition is_active (v : value) : bool :=
  match v with
  | Str s => bool_decide (str_lower s = py "active")
  | NaN | NaT => bool_decide (str_lower (py "") = py "active")
  | Timestamp _ => false
  end.

(** One cell of [view_df["Priority"].isin(priority_filter)]. *)
Definition priority_isin (priority_filter : list pystr) (v : value) : bool :=
  match v with
  | Str s => bool_decide (s ∈ priority_filter)
  | NaN | Timestamp _ | NaT => false
  end.

(** Lines 352-363: the rows of [view_df] before the sort. *)
Definition filtered_view (q : pystr) (only_active : bool)
  (priority_filter : list pystr) (ward_filter : pystr) (df : DataFrame)
  : list row :=
  let view_df := rows df in
  let view_df :=
    if Py.truthy q then
      let ql := str_lower q in List.filter (matches_query ql) view_df
    else view_df in
  let view_df :=
    if only_active then
      List.filter (fun r => is_active (cell r "Status")) view_df
    else view_df in
  let view_df :=
    match priority_filter with
    | _ :: _ =>
        List.filter (fun r => priority_isin priority_filter (cell r "Priority"))
          view_df
    | [] => view_df
    end in
  let view_df :=
    if Py.truthy ward_filter then
      List.filter (fun r => str_contains ward_filter (cell r "Ward/Bed")) view_df
    else view_df in
  view_df.

(** Whether line 363 raises: the [.str] accessor is refused by a column
    that is not an object column.  In [filtered_view] the rows are chosen
    as if the accessor had answered. *)
Definition ward_filter_raises (ward_filter : pystr) (df : DataFrame) : bool :=
  Py.truthy ward_filter
  && match dtype_of "Ward/Bed" df with
     | object => false
     | float64 | datetime64 => true
     end.

(** Lines 352-368: the filters, then the sort. *)
Definition board (q : pystr) (only_active : bool)
  (priority_filter : list pystr) (ward_filter : pystr) (df : DataFrame)
  : result (list row) :=
  if ward_filter_raises ward_filter df then Raise AttributeError
  else sort_values (filtered_view q only_active priority_filter ward_filter df).

(** ** The record opened in the edit form (line 401) *)

(** [p_df[p_df["Patient Name"] == selection].iloc[0].to_dict()] *)
Definition selected_record (selection : pystr) (df : DataFrame) : result row :=
  match
    List.filter (fun r => value_eqb (cell r "Patient Name") (Str selection))
      (rows df)
  with
  | r :: _ => Ok r
  | [] => Raise IndexError
  end.

(** ** The script as a sequence of interactions *)

(** Line 235, which every run of the script executes first:
    [p_df, a_df = load_data()]. *)
Definition reload : M unit :=
  do b <- get_backend;
  set_p_df (load_data b).1.

(** What one interaction asks of the store. *)
Inductive op : Type :=
| Upsert (record : gmap string pystr) (editor_role editor_initials : pystr)
| Discharge (uid : pystr) (editor_role editor_initials : pystr)
| Reload.

Definition run_op (o : op) (w : World) : World :=
  match o with
  | Upsert record role initials => (upsert_patient record role initials w).2
  | Discharge uid role initials => (discharge_patient uid role initials w).2
  | Reload => (reload w).2
  end.

Definition run_ops (os : list op) (w : World) : World :=
  fold_left (fun w o => run_op o w) os w.

(** ** Vocabulary of the statements *)

(** World after a step that only replaced the backend. *)
Definition with_backend (b : Backend) (w : World) : World :=
  mkWorld b (p_df w) (uuid4 w) (uuid_calls w) (now w) (now_calls w).

(** The audit log as [load_data] reads it from the backend. *)
Definition audit_log (b : Backend) : list row := rows (load_data b).2.

(** The patient table as it lies on the medium, row by row and cell by
    cell in the order of the columns. *)
Definition stored_patients (b : Backend) : list (list value) :=
  match b with
  | sheets p_ws _ => ws_body p_ws
  | csv (Table df) _ => map (fun r => map (cell r) (columns df)) (rows df)
  | csv _ _ => []
  end.

(** A cell as the medium holds it.  The worksheet receives a text for
    every cell: a string as it is, a timestamp as its date and time, [nan]
    for a missing value and [NaT] for a missing date.  The CSV table holds
    the cell itself. *)
Definition medium_cell (b : Backend) (v : value) : value :=
  match b with
  | sheets _ _ =>
      match v with
      | Str s => Str s
      | NaN => Str (py "nan")
      | Timestamp t => Str (timestamp_str t)
      | NaT => Str (py "NaT")
      end
  | csv _ _ => v
  end.

(** The Last Updated cell of a row of [df] once the clock reading [t] has
    been assigned to it: in a datetime64 column the timestamp pandas reads
    in [t], in any other column [t] itself. *)
Definition clock_cell (df : DataFrame) (t : pystr) : value :=
  match dtype_of "Last Updated" df, pd_Timestamp t with
  | datetime64, Some ts => Timestamp ts
  | _, _ => Str t
  end.

(** A sequence of operations of one run of the script: no reload. *)
Definition one_run (os : list op) : Prop := Forall (fun o => o <> Reload) os.

(** The headers [_init_backend] leaves on the two worksheets. *)
Definition backend_ready (b : Backend) : Prop :=
  match b with
  | sheets p_ws a_ws =>
      ws_header p_ws = PATIENT_COLUMNS /\ ws_header a_ws = AUDIT_COLUMNS
  | csv _ _ => True
  end.

(** The in-memory table has the patient columns, as every table that
    [load_data] returns has. *)
Definition store_ready (w : World) : Prop :=
  columns (p_df w) = PATIENT_COLUMNS /\ backend_ready (backend w).

(** The uid [upsert_patient] settles on for [record] in the world [w]: the
    one of the record, or the next one of the generator when the record
    has none. *)
Definition resolved_uid (record : gmap string pystr) (w : World) : pystr :=
  match record !! "uid" with
  | Some u => if Py.truthy u then u else uuid4 w (uuid_calls w)
  | None => uuid4 w (uuid_calls w)
  end.

(** The rows of [df] whose uid is [u]. *)
Definition with_uid (u : pystr) (df : DataFrame) : list row :=
  filter (fun r => value_eqb (cell r "uid") (Str u) = true) (rows df).

(** No two cells of a column are equal. *)
Definition distinct (vs : list value) : Prop :=
  forall i j a b,
    vs !! i = Some a -> vs !! j = Some b -> value_eqb a b = true -> i = j.

(** No two rows of [df] carry the same uid. *)
Definition unique_uids (df : DataFrame) : Prop := distinct (values "uid" df).

(** The uids of [df] are strings, and no two rows carry the same one. *)
Definition uids_ok (df : DataFrame) : Prop :=
  unique_uids df /\ Forall (fun v => is_str v = true) (values "uid" df).

(** The two markers of a checklist line, looked for after stripping. *)
Definition is_open_line (line : pystr) : bool :=
  Py.startswith (Py.strip line) (py "- [ ]").

Definition is_done_line (line : pystr) : bool :=
  Py.startswith (Py.strip line) (py "- [x]")
  || Py.startswith (Py.strip line) (py "- [X]").

(** The text of a checklist line after its marker. *)
Definition task_of_line (line : pystr) : pystr :=
  Py.strip (Py.from 5 (Py.strip line)).

(** The second sort key of a row. *)
Definition last_updated (r : row) : value := cell r "Last Updated".

(** Two rows the sort does not tell apart. *)
Definition same_keys (r1 r2 : row) : bool :=
  before r1 r2 && before r2 r1.

(** * Properties *)


(** ** Frames *)

Lemma isin_first_index c x rs :
  isin x (map (fun r => cell r c) rs) = true <-> is_Some (first_index c x rs).
Proof.
  induction rs as [|r rs IH]; simpl.
  - split; [discriminate | intros [? ?]; discriminate].
  - destruct (value_eqb (cell r c) x); simpl.
    + split; eauto.
    + rewrite IH. rewrite fmap_is_Some. reflexivity.
Qed.

Lemma first_index_Some c x rs i :
  first_index c x rs = Some i ->
  exists r, rs !! i = Some r /\ value_eqb (cell r c) x = true
            /\ forall j r', j < i -> rs !! j = Some r' ->
                            value_eqb (cell r' c) x = false.
Proof.
  revert i. induction rs as [|r rs IH]; simpl; intros i H; [discriminate|].
  destruct (value_eqb (cell r c) x) eqn:E.
  - inversion H; subst. exists r. repeat split; auto. intros j r' Hj. lia.
  - destruct (first_index c x rs) as [k|] eqn:F; simpl in H; [|discriminate].
    inversion H; subst. destruct (IH k eq_refl) as (r0 & H1 & H2 & H3).
    exists r0. repeat split; auto.
    intros [|j] r' Hj Hl; simpl in Hl.
    + inversion Hl; subst; auto.
    + apply (H3 j); auto. lia.
Qed.

Lemma first_index_None c x rs :
  first_index c x rs = None ->
  Forall (fun r => value_eqb (cell r c) x = false) rs.
Proof.
  induction rs as [|r rs IH]; simpl; intros H; [constructor|].
  destruct (value_eqb (cell r c) x) eqn:E; [discriminate|].
  destruct (first_index c x rs); [discriminate|]. constructor; auto.
Qed.

Lemma value_eqb_Str s s' : value_eqb (Str s) (Str s') = true <-> s = s'.
Proof. simpl. apply bool_decide_eq_true. Qed.

Lemma value_eqb_true a b : value_eqb a b = true -> a = b.
Proof.
  destruct a, b; simpl; try discriminate;
    intros H; apply bool_decide_eq_true in H; congruence.
Qed.

Lemma value_eqb_sym a b : value_eqb a b = value_eqb b a.
Proof.
  destruct a, b; simpl; try reflexivity;
    apply bool_decide_ext; split; congruence.
Qed.

Lemma with_uid_nil u df :
  with_uid u df = [] <-> isin (Str u) (values "uid" df) = false.
Proof.
  unfold with_uid, values. induction (rows df) as [|r rs IH]; simpl.
  - split; reflexivity.
  - rewrite filter_cons. destruct (value_eqb (cell r "uid") (Str u)) eqn:E.
    + rewrite decide_True by reflexivity. simpl. split; discriminate.
    + rewrite decide_False by discriminate. simpl. exact IH.
Qed.

Lemma bool_decide_elem_of_cons_ne (a k : string) (ks : list string) :
  a ≠ k -> bool_decide (k ∈ a :: ks) = bool_decide (k ∈ ks).
Proof.
  intros Hne. apply bool_decide_ext. rewrite elem_of_cons.
  split; [intros [->|H]; [congruence | exact H] | auto].
Qed.

Lemma lookup_reindex cols d c :
  reindex cols d !! c = if bool_decide (c ∈ cols) then Some (cell d c) else None.
Proof.
  unfold reindex. induction cols as [|k cols IH]; simpl.
  - rewrite lookup_empty. reflexivity.
  - rewrite lookup_insert. destruct (decide (k = c)) as [->|Hne].
    + rewrite bool_decide_eq_true_2 by constructor. reflexivity.
    + rewrite IH, (bool_decide_elem_of_cons_ne k c cols) by exact Hne.
      reflexivity.
Qed.

Lemma cell_reindex cols d c : c ∈ cols -> cell (reindex cols d) c = cell d c.
Proof.
  intros H. unfold cell at 1. rewrite lookup_reindex.
  rewrite bool_decide_eq_true_2 by exact H. reflexivity.
Qed.

Lemma reindex_idem cols d : reindex cols (reindex cols d) = reindex cols d.
Proof.
  apply map_eq. intros c. rewrite !lookup_reindex.
  destruct (bool_decide (c ∈ cols)) eqn:E; [|reflexivity].
  apply bool_decide_eq_true in E. rewrite cell_reindex by exact E. reflexivity.
Qed.

(** ** Dtypes and assignments *)

Lemma dtype_of_same_values c df df' :
  values c df' = values c df -> dtype_of c df' = dtype_of c df.
Proof. intros E. unfold dtype_of. rewrite E. reflexivity. Qed.

Lemma setitem_value_other c df v :
  c <> "Last Updated" -> setitem_value c df v = v.
Proof.
  intros Hne. destruct v; try reflexivity. unfold setitem_value, dtype_of.
  destruct (values c df) as [|v0 vs]; [reflexivity|].
  rewrite bool_decide_eq_false_2 by exact Hne. cbn [andb].
  destruct (forallb _ _); reflexivity.
Qed.

Lemma setitem_value_clock df t :
  setitem_value "Last Updated" df (Str t) = clock_cell df t.
Proof. reflexivity. Qed.

Lemma values_loc_set_ne idx c c' v df :
  c <> c' -> values c' (loc_set idx c v df) = values c' df.
Proof.
  intros Hne. unfold values, loc_set. cbn [rows]. apply list_eq. intros j.
  rewrite !list_lookup_fmap. destruct (decide (j = idx)) as [->|Hj].
  - rewrite list_lookup_alter_eq. destruct (rows df !! idx) as [r|]; [|reflexivity].
    cbn. unfold cell. rewrite lookup_insert_ne by exact Hne. reflexivity.
  - rewrite list_lookup_alter_ne by congruence. reflexivity.
Qed.

Lemma medium_cell_sheets p_ws a_ws v :
  medium_cell (sheets p_ws a_ws) v = Str (astype_str v).
Proof. destruct v; reflexivity. Qed.

Lemma clock_cell_same_values df df' t :
  values "Last Updated" df' = values "Last Updated" df ->
  clock_cell df' t = clock_cell df t.
Proof.
  intros E. unfold clock_cell. rewrite (dtype_of_same_values _ _ _ E). reflexivity.
Qed.

Lemma loc_set_other idx c v df :
  c <> "Last Updated" ->
  loc_set idx c v df
  = mkDataFrame (columns df) (alter (fun r => <[c := v]> r) idx (rows df)).
Proof. intros Hne. unfold loc_set. rewrite setitem_value_other by exact Hne. reflexivity. Qed.

Lemma alter_alter {A} (f g : A -> A) (i : nat) (l : list A) :
  alter f i (alter g i l) = alter (fun x => f (g x)) i l.
Proof.
  apply list_eq. intros j. destruct (decide (j = i)) as [->|Hj].
  - rewrite !list_lookup_alter_eq. destruct (l !! i); reflexivity.
  - rewrite !list_lookup_alter_ne by congruence. reflexivity.
Qed.

(** The table [discharge_patient] leaves in memory. *)
Lemma discharge_frame idx t df :
  loc_set idx "Last Updated" (Str t)
    (loc_set idx "Status" (Str (py "Discharged")) df)
  = mkDataFrame (columns df)
      (alter (fun r => <["Last Updated" := clock_cell df t]>
                         (<["Status" := Str (py "Discharged")]> r))
         idx (rows df)).
Proof.
  unfold loc_set at 1. rewrite setitem_value_clock.
  rewrite (clock_cell_same_values df) by (apply values_loc_set_ne; discriminate).
  rewrite loc_set_other by discriminate. cbn [columns rows].
  rewrite alter_alter. reflexivity.
Qed.

Lemma dtype_of_datetime64 df :
  dtype_of "Last Updated" df = datetime64
  <-> rows df <> []
      /\ Forall (fun r => is_datetime (cell r "Last Updated") = true) (rows df).
Proof.
  unfold dtype_of, values.
  destruct (rows df) as [|r rs].
  - cbn [map]. split; [discriminate | intros [H _]; congruence].
  - cbn [map]. rewrite bool_decide_eq_true_2 by reflexivity. cbn [andb].
    change (cell r "Last Updated" :: map (fun r0 : row => cell r0 "Last Updated") rs)
      with (map (fun r0 : row => cell r0 "Last Updated") (r :: rs)).
    destruct (forallb is_datetime
                (map (fun r0 : row => cell r0 "Last Updated") (r :: rs))) eqn:E.
    + split; [|reflexivity]. intros _. split; [discriminate|].
      rewrite forallb_forall in E. apply Forall_forall. intros x Hx.
      apply E. apply (in_map (fun r0 : row => cell r0 "Last Updated")).
      apply list_elem_of_In. exact Hx.
    + split.
      * intros H. destruct (forallb _ _) in H; discriminate H.
      * intros [_ H]. exfalso.
        assert (forallb is_datetime
                  (map (fun r0 : row => cell r0 "Last Updated") (r :: rs)) = true)
          as E'; [|congruence].
        apply forallb_forall. intros v Hv. apply in_map_iff in Hv as (x & <- & Hx).
        rewrite Forall_forall in H. apply H. apply list_elem_of_In. exact Hx.
Qed.

(** The clock reading as it is stored, case by case. *)
Lemma clock_cell_cases df t :
  rows df <> [] ->
  (Forall (fun r => is_datetime (cell r "Last Updated") = true) (rows df) ->
   forall ts, pd_Timestamp t = Some ts -> clock_cell df t = Timestamp ts)
  /\ (Forall (fun r => is_datetime (cell r "Last Updated") = true) (rows df) ->
      pd_Timestamp t = None -> clock_cell df t = Str t)
  /\ (~ Forall (fun r => is_datetime (cell r "Last Updated") = true) (rows df) ->
      clock_cell df t = Str t).
Proof.
  intros Hne. unfold clock_cell. split; [|split].
  - intros H ts E. rewrite (proj2 (dtype_of_datetime64 df) (conj Hne H)), E.
    reflexivity.
  - intros H E. rewrite (proj2 (dtype_of_datetime64 df) (conj Hne H)), E.
    reflexivity.
  - intros H. destruct (dtype_of "Last Updated" df) eqn:E; try reflexivity.
    apply dtype_of_datetime64 in E as [_ E]. contradiction.
Qed.

Arguments setitem_value : simpl never.
Arguments dtype_of : simpl never.
Arguments clock_cell : simpl never.

(** ** Loading *)

Lemma fill_columns_id cols df :
  Forall (fun c => c ∈ columns df) cols ->
  fold_left
    (fun df c => if bool_decide (c ∈ columns df) then df
                 else set_column c (Str (py "")) df) cols df = df.
Proof.
  induction 1 as [|c cols Hc _ IH]; simpl; [reflexivity|].
  rewrite bool_decide_eq_true_2 by exact Hc. exact IH.
Qed.

Lemma load_csv_own_table cols rs :
  _load_csv (Table (mkDataFrame cols rs)) cols
  = mkDataFrame cols (map (reindex cols) rs).
Proof.
  unfold _load_csv. rewrite fill_columns_id; [reflexivity|].
  simpl. apply Forall_forall. auto.
Qed.

Lemma load_csv_columns path cols : columns (_load_csv path cols) = cols.
Proof. destruct path; reflexivity. Qed.

Lemma load_csv_rows_reindexed path cols :
  map (reindex cols) (rows (_load_csv path cols)) = rows (_load_csv path cols).
Proof.
  destruct path; simpl; try reflexivity.
  rewrite map_map. apply map_ext. intros r. apply reindex_idem.
Qed.

Lemma audit_log_sheets p_ws a_ws :
  audit_log (sheets p_ws a_ws)
  = map (reindex AUDIT_COLUMNS) (get_all_records a_ws).
Proof. reflexivity. Qed.

Lemma audit_log_csv patients_path audit_path :
  audit_log (csv patients_path audit_path)
  = rows (_load_csv audit_path AUDIT_COLUMNS).
Proof.
  unfold audit_log, load_data.
  destruct (negb (empty (_load_csv patients_path PATIENT_COLUMNS))); reflexivity.
Qed.

(** ** The two writes *)

Lemma load_data_columns b : columns (load_data b).1 = PATIENT_COLUMNS.
Proof.
  unfold load_data. destruct b as [p_ws a_ws | pp ap]; cbn [fst].
  - destruct (negb (empty (DataFrame_of_records (get_all_records p_ws) PATIENT_COLUMNS)));
      reflexivity.
  - destruct (negb (empty (_load_csv pp PATIENT_COLUMNS)));
      cbn [assign_column columns]; rewrite load_csv_columns; reflexivity.
Qed.

Lemma rows_assign_column c series df i :
  rows (assign_column c series df) !! i
  = (fun r => <[c := default NaN (series !! i)]> r) <$> rows df !! i.
Proof. unfold assign_column. cbn [rows]. rewrite list_lookup_imap. reflexivity. Qed.

Lemma values_assign_column c c' series df :
  c <> c' -> values c (assign_column c' series df) = values c df.
Proof.
  intros Hne. unfold values. apply list_eq. intros i.
  rewrite !list_lookup_fmap, rows_assign_column.
  destruct (rows df !! i) as [r|]; [|reflexivity]. cbn.
  unfold cell. rewrite lookup_insert_ne by congruence. reflexivity.
Qed.

Lemma values_to_datetime_or_not c (b : bool) series df :
  c <> "Last Updated" ->
  values c (if b then assign_column "Last Updated" series df else df)
  = values c df.
Proof. intros Hne. destruct b; [apply values_assign_column; congruence | reflexivity]. Qed.

(** The uid column of the table a reload would give, after [df] has been
    written to the medium. *)
Lemma uids_after_write_sheets p_ws a_ws df :
  ws_header p_ws = PATIENT_COLUMNS ->
  columns df = PATIENT_COLUMNS ->
  values "uid"
    (load_data
       (sheets
          (if negb (empty df) then
             mkWorksheet (ws_header (resize_rows_1 p_ws))
               (map (fun r => map (fun col => Str (astype_str (cell r col))) (columns df))
                    (rows df))
           else resize_rows_1 p_ws) a_ws)).1
  = map (fun v => Str (astype_str v)) (values "uid" df).
Proof.
  intros Hh Hc. unfold load_data. cbn [fst].
  rewrite values_to_datetime_or_not by discriminate.
  unfold values, DataFrame_of_records. cbn [rows]. rewrite !map_map.
  unfold empty. rewrite Hc. unfold get_all_records.
  destruct (rows df) as [|r0 rs] eqn:Hrows; [reflexivity|].
  cbn [negb ws_body ws_header resize_rows_1 PATIENT_COLUMNS].
  rewrite Hh. rewrite !map_map. apply map_ext. intros r.
  rewrite cell_reindex by in_columns. reflexivity.
Qed.

Lemma uids_after_write_csv df ap :
  columns df = PATIENT_COLUMNS ->
  values "uid" (load_data (csv (Table df) ap)).1 = values "uid" df.
Proof.
  intros Hc. unfold load_data. cbn [fst].
  rewrite values_to_datetime_or_not by discriminate.
  destruct df as [cols rs]. cbn in Hc. subst cols.
  rewrite load_csv_own_table. unfold values. cbn [rows]. rewrite map_map.
  apply map_ext. intros r. apply cell_reindex. in_columns.
Qed.

Lemma write_patients_spec df w :
  exists b',
    _write_patients df w = (Ok tt, with_backend b' w)
    /\ audit_log b' = audit_log (backend w)
    /\ (columns df <> [] ->
        stored_patients b'
        = map (fun r => map (fun c => medium_cell (backend w) (cell r c))
                          (columns df)) (rows df))
    /\ (backend_ready (backend w) -> backend_ready b')
    /\ (forall v, medium_cell b' v = medium_cell (backend w) v)
    /\ (backend_ready (backend w) -> columns df = PATIENT_COLUMNS ->
        values "uid" (load_data b').1
        = map (medium_cell (backend w)) (values "uid" df)).
Proof.
  unfold _write_patients, bind, get_backend.
  destruct (backend w) as [p_ws a_ws | pp ap] eqn:Hb.
  - eexists. split; [reflexivity|]. split; [reflexivity|].
    split; [|split; [|split]].
    + intros Hc.
      assert (forall rs : list row,
                map (fun r => map (fun c => medium_cell (sheets p_ws a_ws) (cell r c))
                                  (columns df)) rs
                = map (fun r => map (fun c => Str (astype_str (cell r c)))
                                    (columns df)) rs) as E.
      { intros rs. apply map_ext. intros r. apply map_ext. intros c.
        apply medium_cell_sheets. }
      rewrite E. unfold empty. destruct (columns df); [congruence|].
      destruct (rows df); reflexivity.
    + intros [Hp Ha]. split; [|exact Ha].
      destruct (negb (empty df)); exact Hp.
    + reflexivity.
    + intros [Hp _] Hc.
      rewrite (map_ext _ _ (medium_cell_sheets p_ws a_ws)).
      apply uids_after_write_sheets; assumption.
  - cbn [medium_cell]. eexists. split; [reflexivity|]. split; [|split; [|split; [|split]]].
    + rewrite !audit_log_csv. reflexivity.
    + intros _. reflexivity.
    + auto.
    + reflexivity.
    + intros _ Hc. rewrite map_id. apply uids_after_write_csv. exact Hc.
Qed.

Lemma append_audit_spec d w :
  exists b' e,
    _append_audit d w = (Ok tt, with_backend b' w)
    /\ audit_log b' = audit_log (backend w) ++ [e]
    /\ stored_patients b' = stored_patients (backend w)
    /\ (backend_ready (backend w) ->
        backend_ready b'
        /\ forall c, c ∈ AUDIT_COLUMNS -> cell e c = get_or_empty d c)
    /\ (forall v, medium_cell b' v = medium_cell (backend w) v)
    /\ (load_data b').1 = (load_data (backend w)).1.
Proof.
  unfold _append_audit, bind, get_backend.
  destruct (backend w) as [p_ws a_ws | pp ap] eqn:Hb; cbn [medium_cell].
  - eexists _, _. split; [reflexivity|].
    split; [|split; [reflexivity|split; [|split; reflexivity]]].
    + rewrite !audit_log_sheets. unfold get_all_records, append_row.
      cbn [ws_body ws_header].
      rewrite !map_app. cbn [map]. reflexivity.
    + intros [Hp Ha]. split; [split; assumption|].
      intros c Hc. rewrite Ha.
      rewrite cell_reindex by exact Hc.
      unfold cell, get_or_empty.
      repeat (apply elem_of_cons in Hc as [->|Hc]; [reflexivity|]).
      inversion Hc.
  - eexists _, _. split; [reflexivity|].
    split; [|split; [reflexivity|split; [|split; reflexivity]]].
    + rewrite !audit_log_csv. rewrite load_csv_columns.
      rewrite load_csv_own_table. cbn [rows]. rewrite map_app.
      rewrite load_csv_rows_reindexed. cbn [map]. reflexivity.
    + intros _. split; [exact I|]. intros c Hc.
      rewrite cell_reindex by exact Hc.
      unfold cell, get_or_empty.
      repeat (apply elem_of_cons in Hc as [->|Hc]; [reflexivity|]).
      inversion Hc.
Qed.

Arguments _write_patients : simpl never.
Arguments _append_audit : simpl never.

(** ** Discharge *)

Lemma discharge_unknown (w : World) (uid role initials : pystr) :
  with_uid uid (p_df w) = [] ->
  discharge_patient uid role initials w = (Ok false, w).
Proof.
  intros H. apply with_uid_nil in H.
  unfold discharge_patient, bind, get_p_df. rewrite H.
  rewrite orb_true_r. reflexivity.
Qed.

(** C6: discharging a uid that no row of the store carries returns [False]
    without raising and leaves the whole world as it was: the table in
    memory, the stored table and the audit log. *)
Theorem discharge_unknown_uid (w : World) (uid role initials : pystr) :
  with_uid uid (p_df w) = [] ->
  discharge_patient uid role initials w = (Ok false, w)
  /\ audit_log (backend (discharge_patient uid role initials w).2)
     = audit_log (backend w)
  /\ p_df (discharge_patient uid role initials w).2 = p_df w
  /\ stored_patients (backend (discharge_patient uid role initials w).2)
     = stored_patients (backend w).
Proof.
  intros H. rewrite (discharge_unknown w uid role initials H). auto.
Qed.

Lemma with_uid_not_nil u df :
  isin (Str u) (values "uid" df) = true -> with_uid u df <> [].
Proof. intros H E. apply with_uid_nil in E. congruence. Qed.

Lemma with_uid_first_index u df :
  with_uid u df <> [] ->
  exists idx r,
    first_index "uid" (Str u) (rows df) = Some idx
    /\ rows df !! idx = Some r /\ cell r "uid" = Str u
    /\ forall j r', j < idx -> rows df !! j = Some r' -> cell r' "uid" <> Str u.
Proof.
  intros H.
  assert (isin (Str u) (values "uid" df) = true) as Hin.
  { destruct (isin (Str u) (values "uid" df)) eqn:E; [reflexivity|].
    apply with_uid_nil in E. contradiction. }
  apply isin_first_index in Hin as [idx Hidx].
  destruct (first_index_Some _ _ _ _ Hidx) as (r & Hr & Hu & Hfirst).
  exists idx, r. repeat split; auto.
  - apply value_eqb_true. exact Hu.
  - intros j r' Hj Hl Heq. specialize (Hfirst j r' Hj Hl).
    rewrite Heq in Hfirst. simpl in Hfirst.
    rewrite bool_decide_eq_true_2 in Hfirst by reflexivity. discriminate.
Qed.

Lemma not_empty_with_uid u df :
  columns df <> [] -> with_uid u df <> [] -> empty df = false.
Proof.
  intros Hc Hu. unfold empty. destruct (columns df); [congruence|].
  unfold with_uid in Hu. destruct (rows df); [contradiction|reflexivity].
Qed.

(** What one call of [discharge_patient] does to a uid of the store. *)
Lemma discharge_spec (w : World) (uid role initials : pystr) :
  store_ready w ->
  with_uid uid (p_df w) <> [] ->
  exists idx r w',
    discharge_patient uid role initials w = (Ok true, w')
    /\ rows (p_df w) !! idx = Some r
    /\ cell r "uid" = Str uid
    /\ (forall j r0, j < idx -> rows (p_df w) !! j = Some r0 ->
                     cell r0 "uid" <> Str uid)
    /\ rows (p_df w') !! idx
       = Some (<["Last Updated" := clock_cell (p_df w) (now w (now_calls w))]>
                 (<["Status" := Str (py "Discharged")]> r))
    /\ (forall j, j <> idx -> rows (p_df w') !! j = rows (p_df w) !! j)
    /\ length (rows (p_df w')) = length (rows (p_df w))
    /\ columns (p_df w') = columns (p_df w)
    /\ stored_patients (backend w')
       = map (fun r => map (fun c => medium_cell (backend w) (cell r c))
                         PATIENT_COLUMNS) (rows (p_df w'))
    /\ exists e,
         audit_log (backend w') = audit_log (backend w) ++ [e]
         /\ cell e "action" = Str (py "discharge")
         /\ cell e "uid" = Str uid
         /\ cell e "patient_name" = cell r "Patient Name"
         /\ cell e "timestamp" = Str (now w (S (now_calls w)))
         /\ cell e "user_role" = Str role
         /\ cell e "user_initials" = Str initials
         /\ cell e "details" = Str (py "discharged by " ++ initials)
         /\ backend_ready (backend w')
         /\ (forall v, medium_cell (backend w') v = medium_cell (backend w) v)
         /\ values "uid" (load_data (backend w')).1
            = map (medium_cell (backend w)) (values "uid" (p_df w')).
Proof.
  intros [Hcols Hb] Hu.
  destruct (with_uid_first_index _ _ Hu) as (idx & r & Hidx & Hr & Hruid & Hfirst).
  assert (empty (p_df w) = false) as Hne
    by (apply (not_empty_with_uid uid); [rewrite Hcols; discriminate | exact Hu]).
  assert (isin (Str uid) (values "uid" (p_df w)) = true) as Hin
    by (apply isin_first_index; rewrite Hidx; eauto).
  unfold discharge_patient, bind at 1, get_p_df at 1.
  rewrite Hne, Hin, Hidx. cbn [orb negb].
  unfold bind, set_p_df, _now_iso, get_p_df, ret.
  cbn [now now_calls backend p_df uuid4 uuid_calls].
  rewrite discharge_frame.
  match goal with
  | |- context [_write_patients ?df ?w0] =>
      destruct (write_patients_spec df w0) as (b1 & E1 & Ha1 & Hs1 & Hr1 & Hm1 & Hl1);
      rewrite E1
  end.
  cbn [with_backend now now_calls backend p_df uuid4 uuid_calls columns rows] in *.
  match goal with
  | |- context [_append_audit ?d ?w0] =>
      destruct (append_audit_spec d w0) as (b2 & e & E2 & Ha2 & Hs2 & Hr2 & Hm2 & Hl2);
      rewrite E2
  end.
  cbn [with_backend now now_calls backend p_df uuid4 uuid_calls columns rows] in *.
  destruct (Hr2 (Hr1 Hb)) as [_ He].
  eexists idx, r, _. split; [reflexivity|].
  cbn [with_backend now now_calls backend p_df uuid4 uuid_calls columns rows].
  split; [exact Hr|]. split; [exact Hruid|]. split; [exact Hfirst|].
  split.
  { rewrite list_lookup_alter_eq, Hr. reflexivity. }
  split.
  { intros j Hj. rewrite list_lookup_alter_ne by congruence. reflexivity. }
  split; [rewrite length_alter; reflexivity|].
  split; [reflexivity|].
  split.
  { rewrite Hs2, Hs1 by (rewrite Hcols; discriminate).
    rewrite Hcols. reflexivity. }
  exists e. split; [rewrite Ha2, Ha1; reflexivity|].
  match type of E2 with
  | _append_audit (audit_event _ _ _ _ _ ?pn _) _ = _ =>
      assert (pn = cell r "Patient Name") as Hpn
  end.
  { unfold loc_get. cbn [rows]. rewrite list_lookup_alter_eq, Hr. cbn.
    unfold cell. rewrite !lookup_insert_ne by discriminate. reflexivity. }
  split; [rewrite He by in_columns; reflexivity|].
  split; [rewrite He by in_columns; reflexivity|].
  split; [rewrite He by in_columns; exact Hpn|].
  split; [rewrite He by in_columns; reflexivity|].
  split; [rewrite He by in_columns; reflexivity|].
  split; [rewrite He by in_columns; reflexivity|].
  split; [rewrite He by in_columns; reflexivity|].
  split; [apply Hr2, Hr1, Hb|].
  split; [intros v; rewrite Hm2, Hm1; reflexivity|].
  rewrite Hl2. apply Hl1; [exact Hb | exact Hcols].
Qed.

(** C7: discharging a uid the store holds returns [True].  In the first
    row with that uid Status becomes Discharged and Last Updated the
    clock reading; no other cell of that row and no other row changes.
    The clock reading is stored as pandas stores it: in a table whose
    Last Updated cells are all timestamps or NaT, as [load_data] leaves
    them, the column is a datetime column and holds the timestamp read in
    the ISO string; otherwise it holds the string.  The whole table is
    then written to the medium, a worksheet receiving the text of every
    cell, and one event with action [discharge] is added at the end of the
    audit log. *)
Theorem discharge_known_uid (w : World) (uid role initials : pystr) :
  store_ready w ->
  with_uid uid (p_df w) <> [] ->
  exists idx r lu w',
    discharge_patient uid role initials w = (Ok true, w')
    /\ rows (p_df w) !! idx = Some r
    /\ cell r "uid" = Str uid
    /\ (forall j r0, j < idx -> rows (p_df w) !! j = Some r0 ->
                     cell r0 "uid" <> Str uid)
    /\ rows (p_df w') !! idx
       = Some (<["Last Updated" := lu]>
                 (<["Status" := Str (py "Discharged")]> r))
    /\ (Forall (fun r => is_datetime (cell r "Last Updated") = true)
          (rows (p_df w)) ->
        forall t, pd_Timestamp (now w (now_calls w)) = Some t ->
                  lu = Timestamp t)
    /\ (Forall (fun r => is_datetime (cell r "Last Updated") = true)
          (rows (p_df w)) ->
        pd_Timestamp (now w (now_calls w)) = None ->
        lu = Str (now w (now_calls w)))
    /\ (~ Forall (fun r => is_datetime (cell r "Last Updated") = true)
            (rows (p_df w)) ->
        lu = Str (now w (now_calls w)))
    /\ (forall j, j <> idx -> rows (p_df w') !! j = rows (p_df w) !! j)
    /\ length (rows (p_df w')) = length (rows (p_df w))
    /\ columns (p_df w') = columns (p_df w)
    /\ stored_patients (backend w')
       = map (fun r => map (fun c => medium_cell (backend w) (cell r c))
                         PATIENT_COLUMNS) (rows (p_df w'))
    /\ exists e,
         audit_log (backend w') = audit_log (backend w) ++ [e]
         /\ cell e "action" = Str (py "discharge")
         /\ cell e "uid" = Str uid
         /\ cell e "patient_name" = cell r "Patient Name"
         /\ cell e "timestamp" = Str (now w (S (now_calls w)))
         /\ cell e "user_role" = Str role
         /\ cell e "user_initials" = Str initials
         /\ cell e "details" = Str (py "discharged by " ++ initials).
Proof.
  intros Hready Hu.
  destruct (discharge_spec w uid role initials Hready Hu)
    as (idx & r & w' & H1 & H2 & H3 & H4 & H5 & H6 & H7 & H8 & H9 & e & H10).
  assert (rows (p_df w) <> []) as Hne
    by (intros E; rewrite E in H2; discriminate).
  destruct (clock_cell_cases (p_df w) (now w (now_calls w)) Hne) as (K1 & K2 & K3).
  exists idx, r, (clock_cell (p_df w) (now w (now_calls w))), w'.
  repeat (split; [assumption|]).
  exists e. repeat (split; [apply H10|]). apply H10.
Qed.

(** ** Upsert *)

Lemma fill_record_lookup cols (rec : gmap string pystr) c :
  fold_left
    (fun rec c => if bool_decide (is_Some (rec !! c)) then rec
                  else <[c := py ""]> rec) cols rec !! c
  = match rec !! c with
    | Some v => Some v
    | None => if bool_decide (c ∈ cols) then Some (py "") else None
    end.
Proof.
  revert rec. induction cols as [|k cols IH]; intros rec; simpl.
  - destruct (rec !! c); reflexivity.
  - rewrite IH. destruct (bool_decide (is_Some (rec !! k))) eqn:E.
    + apply bool_decide_eq_true in E. destruct (rec !! c) eqn:Hc; [reflexivity|].
      rewrite bool_decide_elem_of_cons_ne; [reflexivity|].
      intros ->. rewrite Hc in E. destruct E; discriminate.
    + apply bool_decide_eq_false in E. rewrite lookup_insert.
      destruct (decide (k = c)) as [->|Hne].
      * rewrite <- eq_None_not_Some in E. rewrite E.
        rewrite bool_decide_eq_true_2 by constructor. reflexivity.
      * rewrite bool_decide_elem_of_cons_ne by exact Hne. reflexivity.
Qed.

Lemma getitem_filled cols (rec : gmap string pystr) c :
  getitem
    (fold_left
       (fun rec c => if bool_decide (is_Some (rec !! c)) then rec
                     else <[c := py ""]> rec) cols rec) c
  = getitem rec c.
Proof.
  unfold getitem. rewrite fill_record_lookup.
  destruct (rec !! c); [reflexivity|].
  destruct (bool_decide (c ∈ cols)); reflexivity.
Qed.

Lemma lookup_filled cols (rec : gmap string pystr) c :
  c ∈ cols ->
  fold_left
    (fun rec c => if bool_decide (is_Some (rec !! c)) then rec
                  else <[c := py ""]> rec) cols rec !! c
  = Some (getitem rec c).
Proof.
  intros H. rewrite fill_record_lookup. unfold getitem.
  destruct (rec !! c); [reflexivity|].
  rewrite bool_decide_eq_true_2 by exact H. reflexivity.
Qed.

Lemma loc_set_many_columns idx cols vals df :
  columns (loc_set_many idx cols vals df) = columns df.
Proof. reflexivity. Qed.

Lemma loc_set_many_rows idx cols vals df j :
  rows (loc_set_many idx cols vals df) !! j
  = if decide (idx = j)
    then fold_left (fun (r : row) cv => <[cv.1 := setitem_value cv.1 df cv.2]> r)
           (zip cols vals) <$> rows df !! j
    else rows df !! j.
Proof.
  unfold loc_set_many. cbn [rows]. destruct (decide (idx = j)) as [->|Hne].
  - rewrite list_lookup_alter_eq. reflexivity.
  - rewrite list_lookup_alter_ne by exact Hne. reflexivity.
Qed.

Lemma loc_set_many_length idx cols vals df :
  length (rows (loc_set_many idx cols vals df)) = length (rows df).
Proof. unfold loc_set_many. cbn [rows]. apply length_alter. Qed.

Lemma lookup_set_cells (h : string -> value -> value) (f : string -> value)
  cols (r : row) c :
  fold_left (fun (r : row) cv => <[cv.1 := h cv.1 cv.2]> r)
    (zip cols (map f cols)) r !! c
  = if bool_decide (c ∈ cols) then Some (h c (f c)) else r !! c.
Proof.
  revert r. induction cols as [|k cols IH]; intros r; simpl; [reflexivity|].
  rewrite IH. destruct (decide (k = c)) as [->|Hne].
  - rewrite (bool_decide_eq_true_2 (c ∈ c :: cols)) by constructor.
    rewrite lookup_insert_eq. destruct (bool_decide (c ∈ cols)); reflexivity.
  - rewrite bool_decide_elem_of_cons_ne by exact Hne.
    rewrite lookup_insert_ne by exact Hne. reflexivity.
Qed.

Lemma resolve_uid_step (record : gmap string pystr) (w : World) :
  (if negb (Py.truthy (default [] (record !! "uid")))
   then do u <- _new_uid; ret (<["uid" := u]> record)
   else ret record) w
  = (Ok (<["uid" := resolved_uid record w]> record),
     mkWorld (backend w) (p_df w) (uuid4 w)
       ((if Py.truthy (default [] (record !! "uid")) then 0 else 1) + uuid_calls w)
       (now w) (now_calls w)).
Proof.
  unfold resolved_uid. destruct (record !! "uid") as [u|] eqn:E; cbn.
  - destruct (Py.truthy u); cbn.
    + unfold ret. rewrite (insert_id record "uid" u E).
      destruct w; reflexivity.
    + reflexivity.
  - reflexivity.
Qed.

Lemma empty_false_iff df :
  columns df <> [] -> empty df = false <-> rows df <> [].
Proof.
  intros Hc. unfold empty. destruct (columns df); [congruence|].
  destruct (rows df); split; congruence.
Qed.

(** What one call of [upsert_patient] does, in both of its branches. *)
Lemma upsert_spec (record : gmap string pystr) (role initials : pystr) (w : World) :
  columns (p_df w) <> [] ->
  let u := resolved_uid record w in
  let rec0 := <["Last Updated" := now w (now_calls w)]> (<["uid" := u]> record) in
  exists w' action r',
    upsert_patient record role initials w = (Ok u, w')
    /\ (forall c, c ∈ PATIENT_COLUMNS ->
          cell r' c
          = match first_index "uid" (Str u) (rows (p_df w)) with
            | Some _ => setitem_value c (p_df w) (Str (getitem rec0 c))
            | None => Str (getitem rec0 c)
            end)
    /\ match first_index "uid" (Str u) (rows (p_df w)) with
       | Some idx =>
           action = py "update"
           /\ (exists r, rows (p_df w) !! idx = Some r
                         /\ forall c, c ∉ PATIENT_COLUMNS -> r' !! c = r !! c)
           /\ rows (p_df w') !! idx = Some r'
           /\ (forall j, j <> idx -> rows (p_df w') !! j = rows (p_df w) !! j)
           /\ length (rows (p_df w')) = length (rows (p_df w))
           /\ columns (p_df w') = columns (p_df w)
       | None =>
           action = py "create"
           /\ rows (p_df w') = rows (p_df w) ++ [r']
           /\ columns (p_df w')
              = columns (p_df w)
                ++ filter (fun c => c ∉ columns (p_df w)) PATIENT_COLUMNS
       end
    /\ stored_patients (backend w')
       = map (fun r => map (fun c => medium_cell (backend w) (cell r c))
                         (columns (p_df w'))) (rows (p_df w'))
    /\ (backend_ready (backend w) -> backend_ready (backend w'))
    /\ (forall v, medium_cell (backend w') v = medium_cell (backend w) v)
    /\ (now_calls w' = S (S (now_calls w)) /\ now w' = now w /\ uuid4 w' = uuid4 w
        /\ uuid_calls w'
           = (if Py.truthy (default [] (record !! "uid")) then 0 else 1)
             + uuid_calls w)
    /\ (backend_ready (backend w) -> columns (p_df w) = PATIENT_COLUMNS ->
        values "uid" (load_data (backend w')).1
        = map (medium_cell (backend w)) (values "uid" (p_df w')))
    /\ exists e,
         audit_log (backend w') = audit_log (backend w) ++ [e]
         /\ (backend_ready (backend w) ->
             cell e "timestamp" = Str (now w (S (now_calls w)))
             /\ cell e "user_role" = Str role
             /\ cell e "user_initials" = Str initials
             /\ cell e "action" = Str action
             /\ cell e "uid" = Str u
             /\ cell e "patient_name" = Str (getitem record "Patient Name")
             /\ cell e "details" = Str (action ++ py " by " ++ initials)).
Proof.
  intros Hcols u rec0.
  unfold upsert_patient, bind at 1. rewrite resolve_uid_step.
  set (k := if Py.truthy (default [] (record !! "uid")) then 0 else 1).
  unfold bind at 1, _now_iso at 1. cbn [now now_calls backend p_df uuid4 uuid_calls].
  fold u. fold rec0.
  set (rec := fold_left _ PATIENT_COLUMNS rec0).
  assert (Hget : forall c, getitem rec c = getitem rec0 c)
    by (intros c; apply getitem_filled).
  assert (Hlk : forall c, c ∈ PATIENT_COLUMNS -> rec !! c = Some (getitem rec0 c))
    by (intros c Hc; apply lookup_filled; exact Hc).
  assert (Huid : getitem rec "uid" = u).
  { rewrite Hget. unfold getitem, rec0.
    rewrite lookup_insert_ne by discriminate. rewrite lookup_insert_eq. reflexivity. }
  assert (Hname : default (py "") (rec !! "Patient Name") = getitem record "Patient Name").
  { rewrite Hlk by in_columns. unfold getitem, rec0. cbn.
    rewrite !lookup_insert_ne by discriminate. reflexivity. }
  unfold bind at 1, get_p_df at 1. cbn [now now_calls backend p_df uuid4 uuid_calls].
  rewrite Huid, Hname. clearbody rec.
  destruct (first_index "uid" (Str u) (rows (p_df w))) as [idx|] eqn:Hidx.
  - (* update *)
    assert (isin (Str u) (values "uid" (p_df w)) = true) as Hin
      by (apply isin_first_index; rewrite Hidx; eauto).
    destruct (first_index_Some _ _ _ _ Hidx) as (r & Hr & _).
    assert (empty (p_df w) = false) as Hne.
    { apply empty_false_iff; [exact Hcols|]. intros E. rewrite E in Hr. discriminate. }
    rewrite Hne, Hin. cbn [negb andb].
    unfold bind, set_p_df, get_p_df, _now_iso, ret.
    cbn [now now_calls backend p_df uuid4 uuid_calls].
    match goal with
    | |- context [_write_patients ?df ?w0] =>
        destruct (write_patients_spec df w0) as (b1 & E1 & Ha1 & Hs1 & Hr1 & Hm1 & Hl1);
        rewrite E1
    end.
    cbn [with_backend now now_calls backend p_df uuid4 uuid_calls] in *.
    match goal with
    | |- context [_append_audit ?d ?w0] =>
        destruct (append_audit_spec d w0) as (b2 & e & E2 & Ha2 & Hs2 & Hr2 & Hm2 & Hl2);
        rewrite E2
    end.
    cbn [with_backend now now_calls backend p_df uuid4 uuid_calls] in *.
    set (vals := map (fun c => Str (getitem rec c)) PATIENT_COLUMNS) in *.
    set (r' := fold_left
                 (fun (r : row) cv => <[cv.1 := setitem_value cv.1 (p_df w) cv.2]> r)
                 (zip PATIENT_COLUMNS vals) r).
    assert (Hr' : forall c, r' !! c
                  = if bool_decide (c ∈ PATIENT_COLUMNS)
                    then Some (setitem_value c (p_df w) (Str (getitem rec c)))
                    else r !! c)
      by (intros c; apply (lookup_set_cells (fun c v => setitem_value c (p_df w) v))).
    eexists _, (py "update"), r'. split; [reflexivity|].
    cbn [with_backend now now_calls backend p_df uuid4 uuid_calls].
    split.
    { intros c Hc. unfold cell. rewrite Hr'.
      rewrite bool_decide_eq_true_2 by exact Hc. cbn. rewrite Hget. reflexivity. }
    split.
    { split; [reflexivity|]. split.
      { exists r. split; [exact Hr|]. intros c Hc. rewrite Hr'.
        rewrite bool_decide_eq_false_2 by exact Hc. reflexivity. }
      split.
      { rewrite loc_set_many_rows. rewrite decide_True by reflexivity.
        rewrite Hr. reflexivity. }
      split.
      { intros j Hj. rewrite loc_set_many_rows.
        rewrite decide_False by congruence. reflexivity. }
      split; [apply loc_set_many_length | apply loc_set_many_columns]. }
    split.
    { rewrite Hs2, Hs1; [reflexivity|]. rewrite loc_set_many_columns. exact Hcols. }
    split; [intros Hb; apply Hr2, Hr1, Hb|].
    split; [intros v; rewrite Hm2, Hm1; reflexivity|].
    split; [split; [reflexivity|split; [reflexivity|split; reflexivity]]|].
    split.
    { intros Hb Hpc. rewrite Hl2. apply Hl1; [exact Hb|].
      rewrite loc_set_many_columns. exact Hpc. }
    exists e. split; [rewrite Ha2, Ha1; reflexivity|].
    intros Hb. destruct (Hr2 (Hr1 Hb)) as [_ He].
    repeat split; (rewrite He by in_columns; reflexivity).
  - (* create *)
    assert (negb (empty (p_df w)) && isin (Str u) (values "uid" (p_df w)) = false) as Hc.
    { destruct (isin (Str u) (values "uid" (p_df w))) eqn:Hin;
        [|apply andb_false_r].
      apply isin_first_index in Hin as [? Hin]. congruence. }
    rewrite Hc.
    unfold bind, set_p_df, get_p_df, _now_iso, ret.
    cbn [now now_calls backend p_df uuid4 uuid_calls].
    match goal with
    | |- context [_write_patients ?df ?w0] =>
        destruct (write_patients_spec df w0) as (b1 & E1 & Ha1 & Hs1 & Hr1 & Hm1 & Hl1);
        rewrite E1
    end.
    cbn [with_backend now now_calls backend p_df uuid4 uuid_calls] in *.
    match goal with
    | |- context [_append_audit ?d ?w0] =>
        destruct (append_audit_spec d w0) as (b2 & e & E2 & Ha2 & Hs2 & Hr2 & Hm2 & Hl2);
        rewrite E2
    end.
    cbn [with_backend now now_calls backend p_df uuid4 uuid_calls] in *.
    eexists _, (py "create"), (reindex PATIENT_COLUMNS (Str <$> rec)).
    split; [reflexivity|].
    cbn [with_backend now now_calls backend p_df uuid4 uuid_calls].
    split.
    { intros c Hc'. rewrite cell_reindex by exact Hc'. unfold cell.
      rewrite lookup_fmap, (Hlk c Hc'). reflexivity. }
    split; [split; [reflexivity|split; reflexivity]|].
    split.
    { rewrite Hs2, Hs1; [reflexivity|]. unfold concat. cbn [columns]. intros E.
      apply app_eq_nil in E as [E _]. contradiction. }
    split; [intros Hb; apply Hr2, Hr1, Hb|].
    split; [intros v; rewrite Hm2, Hm1; reflexivity|].
    split; [split; [reflexivity|split; [reflexivity|split; reflexivity]]|].
    split.
    { intros Hb Hpc. rewrite Hl2. apply Hl1; [exact Hb|].
      unfold concat. cbn [columns DataFrame_of_records]. rewrite Hpc. reflexivity. }
    exists e. split; [rewrite Ha2, Ha1; reflexivity|].
    intros Hb. destruct (Hr2 (Hr1 Hb)) as [_ He].
    repeat split; (rewrite He by in_columns; reflexivity).
Qed.

(** The cells of the row an upsert writes: [found] is the position of the
    row it overwrites, if any. *)
Lemma new_row_fields (record : gmap string pystr) (u t : pystr) (r' : row)
  (found : option nat) (df : DataFrame) :
  (forall c, c ∈ PATIENT_COLUMNS ->
     cell r' c
     = match found with
       | Some _ =>
           setitem_value c df
             (Str (getitem (<["Last Updated" := t]> (<["uid" := u]> record)) c))
       | None =>
           Str (getitem (<["Last Updated" := t]> (<["uid" := u]> record)) c)
       end) ->
  cell r' "uid" = Str u
  /\ cell r' "Last Updated"
     = match found with Some _ => clock_cell df t | None => Str t end
  /\ forall c, c ∈ PATIENT_COLUMNS -> c <> "uid" -> c <> "Last Updated" ->
               cell r' c = Str (default (py "") (record !! c)).
Proof.
  intros H. repeat split.
  - rewrite H by in_columns. unfold getitem.
    rewrite lookup_insert_ne by discriminate. rewrite lookup_insert_eq.
    destruct found; [apply setitem_value_other; discriminate | reflexivity].
  - rewrite H by in_columns. unfold getitem. rewrite lookup_insert_eq.
    destruct found; reflexivity.
  - intros c Hc H1 H2. rewrite H by exact Hc. unfold getitem.
    rewrite !lookup_insert_ne by congruence.
    destruct found; [apply setitem_value_other; exact H2 | reflexivity].
Qed.

Lemma with_uid_nil_first_index u df :
  with_uid u df = [] -> first_index "uid" (Str u) (rows df) = None.
Proof.
  intros H. apply with_uid_nil in H.
  destruct (first_index "uid" (Str u) (rows df)) eqn:E; [|reflexivity].
  assert (isin (Str u) (values "uid" df) = true)
    by (apply isin_first_index; rewrite E; eauto).
  congruence.
Qed.

Lemma resolved_uid_given (record : gmap string pystr) w uid :
  record !! "uid" = Some uid -> Py.truthy uid = true -> resolved_uid record w = uid.
Proof. intros H T. unfold resolved_uid. rewrite H, T. reflexivity. Qed.



(** C10: a record whose uid is not empty and is carried by no row of the
    store is created under that very uid: no identifier is drawn from the
    generator, one row is appended after the existing ones, and the audit
    event says [create]. *)
Theorem upsert_unknown_uid_creates (w : World) (record : gmap string pystr)
  (role initials uid : pystr) :
  store_ready w ->
  record !! "uid" = Some uid ->
  Py.truthy uid = true ->
  with_uid uid (p_df w) = [] ->
  exists w' r' e,
    upsert_patient record role initials w = (Ok uid, w')
    /\ uuid_calls w' = uuid_calls w
    /\ rows (p_df w') = rows (p_df w) ++ [r']
    /\ cell r' "uid" = Str uid
    /\ cell r' "Last Updated" = Str (now w (now_calls w))
    /\ (forall c, c ∈ PATIENT_COLUMNS -> c <> "uid" -> c <> "Last Updated" ->
                  cell r' c = Str (default (py "") (record !! c)))
    /\ audit_log (backend w') = audit_log (backend w) ++ [e]
    /\ cell e "action" = Str (py "create")
    /\ cell e "uid" = Str uid.
Proof.
  intros [Hcols Hb] Huid Htruthy Hnew.
  assert (columns (p_df w) <> []) as Hc by (rewrite Hcols; discriminate).
  destruct (upsert_spec record role initials w Hc)
    as (w' & action & r' & Hrun & Hcells & Hcase & _ & _ & _ & Hworld & _ & e & Hlog & He).
  destruct (He Hb) as (_ & _ & _ & Hact & Heuid & _).
  destruct Hworld as (_ & _ & _ & Hcalls).
  rewrite (resolved_uid_given _ _ _ Huid Htruthy) in *.
  destruct (new_row_fields _ _ _ _ _ _ Hcells) as (F1 & F2 & F3).
  rewrite (with_uid_nil_first_index _ _ Hnew) in Hcase, F2.
  destruct Hcase as (-> & Hrows & _).
  rewrite Huid in Hcalls. cbn in Hcalls. rewrite Htruthy in Hcalls.
  exists w', r', e. repeat split; assumption.
Qed.

(** ** Uniqueness of uids *)

Lemma distinct_app_new vs x :
  distinct vs -> Forall (fun v => value_eqb v x = false) vs -> distinct (vs ++ [x]).
Proof.
  intros Hd Hnew i j a b Hi Hj Hab.
  rewrite Forall_forall in Hnew.
  destruct (decide (i < length vs)) as [Li|Li], (decide (j < length vs)) as [Lj|Lj].
  - rewrite lookup_app_l in Hi, Hj by assumption. eapply Hd; eassumption.
  - rewrite lookup_app_l in Hi by assumption.
    rewrite lookup_app_r in Hj by lia.
    destruct (j - length vs) as [|n] eqn:E; [|destruct n; discriminate].
    inversion Hj; subst b.
    rewrite (Hnew a) in Hab; [discriminate|].
    eapply list_elem_of_lookup_2. exact Hi.
  - rewrite lookup_app_l in Hj by assumption.
    rewrite lookup_app_r in Hi by lia.
    destruct (i - length vs) as [|n] eqn:E; [|destruct n; discriminate].
    inversion Hi; subst a. rewrite value_eqb_sym in Hab.
    rewrite (Hnew b) in Hab; [discriminate|].
    eapply list_elem_of_lookup_2. exact Hj.
  - rewrite lookup_app_r in Hi, Hj by lia.
    destruct (i - length vs) as [|n] eqn:Ei; [|destruct n; discriminate].
    destruct (j - length vs) as [|m] eqn:Ej; [|destruct m; discriminate].
    lia.
Qed.

Lemma distinct_singleton v : distinct [v].
Proof.
  intros [|i] [|j] a b Hi Hj _; try reflexivity; cbn in Hi, Hj;
    try discriminate; destruct i, j; discriminate.
Qed.

Lemma values_after_update c df df' idx r r' :
  rows df !! idx = Some r ->
  rows df' !! idx = Some r' ->
  (forall j, j <> idx -> rows df' !! j = rows df !! j) ->
  cell r' c = cell r c ->
  values c df' = values c df.
Proof.
  intros Hr Hr' Ho Hc. unfold values. apply list_eq. intros j.
  rewrite !list_lookup_fmap. destruct (decide (j = idx)) as [->|Hne].
  - rewrite Hr, Hr'. cbn. rewrite Hc. reflexivity.
  - rewrite Ho by exact Hne. reflexivity.
Qed.


Lemma medium_cell_str b v : is_str v = true -> medium_cell b v = v.
Proof. destruct v; try discriminate. destruct b; reflexivity. Qed.

Lemma map_medium_cell_strs b vs :
  Forall (fun v => is_str v = true) vs -> map (medium_cell b) vs = vs.
Proof.
  induction 1 as [|v vs Hv _ IH]; [reflexivity|].
  cbn [map]. rewrite IH, medium_cell_str by exact Hv. reflexivity.
Qed.

Lemma uids_ok_reloaded b df df' :
  values "uid" df' = map (medium_cell b) (values "uid" df) ->
  uids_ok df -> uids_ok df'.
Proof.
  intros E [Hu Hs]. rewrite (map_medium_cell_strs b _ Hs) in E.
  unfold uids_ok, unique_uids. rewrite E. split; assumption.
Qed.

Lemma uids_ok_same_values df df' :
  values "uid" df' = values "uid" df -> uids_ok df -> uids_ok df'.
Proof. intros E H. unfold uids_ok, unique_uids. rewrite E. exact H. Qed.

(** ** One interaction at a time *)

Lemma upsert_step (record : gmap string pystr) (role initials : pystr) (w : World) :
  store_ready w ->
  store_ready (upsert_patient record role initials w).2
  /\ (exists e, audit_log (backend (upsert_patient record role initials w).2)
                = audit_log (backend w) ++ [e])
  /\ (uids_ok (p_df w) ->
      uids_ok (p_df (upsert_patient record role initials w).2)
      /\ uids_ok (load_data (backend (upsert_patient record role initials w).2)).1).
Proof.
  intros [Hcols Hb].
  assert (columns (p_df w) <> []) as Hc by (rewrite Hcols; discriminate).
  destruct (upsert_spec record role initials w Hc)
    as (w' & action & r' & Hrun & Hcells & Hcase & _ & Hb' & _ & _ & Hload & e & Hlog & _).
  rewrite Hrun. cbn [snd].
  destruct (new_row_fields _ _ _ _ _ _ Hcells) as (Fuid & _ & _).
  set (u := resolved_uid record w) in *.
  assert (columns (p_df w') = PATIENT_COLUMNS
          /\ (uids_ok (p_df w) -> uids_ok (p_df w'))) as [Hcols' Hok].
  { destruct (first_index "uid" (Str u) (rows (p_df w))) as [idx|] eqn:Hidx.
    - destruct Hcase as (_ & _ & Hr' & Hothers & _ & Hsame).
      split; [rewrite Hsame; exact Hcols|].
      destruct (first_index_Some _ _ _ _ Hidx) as (r & Hr & Heq & _).
      apply value_eqb_true in Heq.
      apply uids_ok_same_values.
      apply (values_after_update "uid" _ _ idx r r'); try assumption.
      rewrite Fuid, Heq. reflexivity.
    - destruct Hcase as (_ & Hrows & Hnew).
      split; [rewrite Hnew, Hcols; reflexivity|].
      intros [Hu Hs]. unfold uids_ok, unique_uids, values. rewrite Hrows.
      rewrite map_app. cbn [map]. rewrite Fuid. split.
      + apply distinct_app_new; [exact Hu|].
        apply Forall_fmap. exact (first_index_None _ _ _ Hidx).
      + apply Forall_app. split; [exact Hs|]. repeat constructor. }
  split; [split; [exact Hcols' | apply Hb', Hb]|].
  split; [exists e; exact Hlog|].
  intros Hu. split; [apply Hok, Hu|].
  apply (uids_ok_reloaded (backend w) (p_df w')); [|apply Hok, Hu].
  apply Hload; assumption.
Qed.

Lemma discharge_step (uid role initials : pystr) (w : World) :
  store_ready w ->
  store_ready (discharge_patient uid role initials w).2
  /\ ((discharge_patient uid role initials w).1 = Ok false
      /\ (discharge_patient uid role initials w).2 = w
      \/ (discharge_patient uid role initials w).1 = Ok true
         /\ exists e, audit_log (backend (discharge_patient uid role initials w).2)
                      = audit_log (backend w) ++ [e])
  /\ (uids_ok (p_df w) -> uids_ok (load_data (backend w)).1 ->
      uids_ok (p_df (discharge_patient uid role initials w).2)
      /\ uids_ok (load_data (backend (discharge_patient uid role initials w).2)).1).
Proof.
  intros Hready.
  destruct (with_uid uid (p_df w)) as [|r0 rs] eqn:Hw.
  - rewrite (discharge_unknown w uid role initials Hw). cbn [fst snd].
    split; [exact Hready|]. split; [left; split; reflexivity|]. auto.
  - assert (with_uid uid (p_df w) <> []) as Hne by (rewrite Hw; discriminate).
    destruct (discharge_spec w uid role initials Hready Hne)
      as (idx & r & w' & Hrun & Hr & _ & _ & Hr' & Hothers & _ & Hcols' & _
          & e & Hlog & _ & _ & _ & _ & _ & _ & _ & Hb' & _ & Hload).
    rewrite Hrun. cbn [fst snd]. destruct Hready as [Hcols Hb].
    split; [split; [rewrite Hcols'; exact Hcols | exact Hb']|].
    split; [right; split; [reflexivity | exists e; exact Hlog]|].
    intros Hu _.
    assert (uids_ok (p_df w')) as Hok.
    { apply (uids_ok_same_values (p_df w)); [|exact Hu].
      eapply (values_after_update "uid" _ _ idx r); try eassumption.
      unfold cell. rewrite !lookup_insert_ne by discriminate. reflexivity. }
    split; [exact Hok|].
    apply (uids_ok_reloaded (backend w) (p_df w')); assumption.
Qed.

Lemma reload_step (w : World) :
  (reload w).2
  = mkWorld (backend w) (load_data (backend w)).1
      (uuid4 w) (uuid_calls w) (now w) (now_calls w).
Proof. reflexivity. Qed.

Lemma run_op_step (o : op) (w : World) :
  store_ready w ->
  store_ready (run_op o w)
  /\ (exists es, audit_log (backend (run_op o w)) = audit_log (backend w) ++ es)
  /\ (uids_ok (p_df w) -> uids_ok (load_data (backend w)).1 ->
      uids_ok (p_df (run_op o w)) /\ uids_ok (load_data (backend (run_op o w))).1).
Proof.
  intros Hready. destruct o as [record role initials | uid role initials |];
    cbn [run_op].
  - destruct (upsert_step record role initials w Hready) as (H1 & [e He] & H3).
    split; [exact H1|]. split; [exists [e]; exact He|]. intros Hu _. apply H3, Hu.
  - destruct (discharge_step uid role initials w Hready) as (H1 & H2 & H3).
    split; [exact H1|]. split; [|exact H3].
    destruct H2 as [[_ ->] | [_ [e He]]].
    + exists []. rewrite app_nil_r. reflexivity.
    + exists [e]. exact He.
  - rewrite reload_step. cbn [backend p_df]. destruct Hready as [_ Hb].
    split; [split; [apply load_data_columns | exact Hb]|].
    split; [exists []; rewrite app_nil_r; reflexivity|]. auto.
Qed.

Lemma run_ops_steps (os : list op) (w : World) :
  store_ready w ->
  store_ready (run_ops os w)
  /\ (exists es, audit_log (backend (run_ops os w)) = audit_log (backend w) ++ es)
  /\ (uids_ok (p_df w) -> uids_ok (load_data (backend w)).1 ->
      uids_ok (p_df (run_ops os w))).
Proof.
  revert w. induction os as [|o os IH]; intros w Hready; cbn [run_ops fold_left].
  - split; [exact Hready|]. split; [exists []; rewrite app_nil_r; reflexivity|]. auto.
  - destruct (run_op_step o w Hready) as (H1 & [es1 He1] & H3).
    destruct (IH (run_op o w) H1) as (K1 & [es2 He2] & K3).
    split; [exact K1|]. split.
    + exists (es1 ++ es2). unfold run_ops in He2. rewrite He2, He1, app_assoc.
      reflexivity.
    + intros Hu Hl. destruct (H3 Hu Hl) as [Hu' Hl']. apply K3; assumption.
Qed.

(** ** The audit log *)

(** C3: a call of [upsert_patient] returns normally and leaves the audit
    log one row longer, the earlier rows standing as they were; so does a
    call of [discharge_patient] that returns [True]; and after any sequence
    of upserts, discharges and reloads the log is the old log followed by
    new rows, hence never shorter. *)
Theorem audit_log_append_only (w : World) :
  store_ready w ->
  (forall record role initials,
     exists uid e,
       (upsert_patient record role initials w).1 = Ok uid
       /\ audit_log (backend (upsert_patient record role initials w).2)
          = audit_log (backend w) ++ [e]
       /\ length (audit_log (backend (upsert_patient record role initials w).2))
          = S (length (audit_log (backend w))))
  /\ (forall uid role initials,
        (discharge_patient uid role initials w).1 = Ok true ->
        exists e,
          audit_log (backend (discharge_patient uid role initials w).2)
          = audit_log (backend w) ++ [e]
          /\ length (audit_log (backend (discharge_patient uid role initials w).2))
             = S (length (audit_log (backend w))))
  /\ (forall os,
        exists es,
          audit_log (backend (run_ops os w)) = audit_log (backend w) ++ es
          /\ length (audit_log (backend w))
             <= length (audit_log (backend (run_ops os w)))).
Proof.
  intros Hready. split; [|split].
  - intros record role initials.
    assert (columns (p_df w) <> []) as Hc
      by (destruct Hready as [-> _]; discriminate).
    destruct (upsert_spec record role initials w Hc)
      as (w' & action & r' & Hrun & _ & _ & _ & _ & _ & _ & _ & e & Hlog & _).
    rewrite Hrun. cbn [fst snd]. exists (resolved_uid record w), e.
    split; [reflexivity|]. split; [exact Hlog|].
    rewrite Hlog, length_app. cbn [length]. lia.
  - intros uid role initials Htrue.
    destruct (discharge_step uid role initials w Hready)
      as (_ & [[Hfalse _] | [_ [e He]]] & _).
    + rewrite Hfalse in Htrue. discriminate.
    + exists e. split; [exact He|]. rewrite He, length_app. cbn [length]. lia.
  - intros os. destruct (run_ops_steps os w Hready) as (_ & [es He] & _).
    exists es. split; [exact He|]. rewrite He, length_app. lia.
Qed.

(** ** One row per uid *)

Lemma unique_uids_same_values df df' :
  values "uid" df' = values "uid" df -> unique_uids df -> unique_uids df'.
Proof. intros E H. unfold unique_uids. rewrite E. exact H. Qed.

(** One upsert or discharge: the uid column is kept, a created row adding
    its uid at the end. *)
Lemma mutation_step (o : op) (w : World) :
  store_ready w ->
  o <> Reload ->
  store_ready (run_op o w)
  /\ (exists new,
        values "uid" (p_df (run_op o w)) = values "uid" (p_df w) ++ new)
  /\ (unique_uids (p_df w) -> unique_uids (p_df (run_op o w))).
Proof.
  intros Hready Hmut. pose proof Hready as [Hcols Hb].
  destruct o as [record role initials | uid role initials |]; cbn [run_op];
    [| |congruence].
  - destruct (upsert_step record role initials w Hready) as (Hready' & _).
    assert (columns (p_df w) <> []) as Hc by (rewrite Hcols; discriminate).
    destruct (upsert_spec record role initials w Hc)
      as (w' & action & r' & Hrun & Hcells & Hcase & _).
    rewrite Hrun in *. cbn [snd] in *.
    destruct (new_row_fields _ _ _ _ _ _ Hcells) as (Fuid & _ & _).
    split; [exact Hready'|].
    destruct (first_index "uid" (Str (resolved_uid record w)) (rows (p_df w)))
      as [idx|] eqn:Hidx.
    + destruct Hcase as (_ & _ & Hr' & Hothers & _).
      destruct (first_index_Some _ _ _ _ Hidx) as (r & Hr & Heq & _).
      apply value_eqb_true in Heq.
      assert (values "uid" (p_df w') = values "uid" (p_df w)) as Hsame.
      { apply (values_after_update "uid" _ _ idx r r'); try assumption.
        rewrite Fuid, Heq. reflexivity. }
      split; [exists []; rewrite app_nil_r; exact Hsame|].
      apply unique_uids_same_values. exact Hsame.
    + destruct Hcase as (_ & Hrows & _).
      assert (values "uid" (p_df w')
              = values "uid" (p_df w) ++ [Str (resolved_uid record w)]) as Hnew.
      { unfold values. rewrite Hrows, map_app. cbn [map]. rewrite Fuid. reflexivity. }
      split; [eexists; exact Hnew|].
      intros Hu. unfold unique_uids. rewrite Hnew.
      apply distinct_app_new; [exact Hu|].
      apply Forall_fmap. exact (first_index_None _ _ _ Hidx).
  - destruct (discharge_step uid role initials w Hready) as (Hready' & _).
    split; [exact Hready'|].
    destruct (with_uid uid (p_df w)) as [|r0 rs] eqn:Hw.
    + rewrite (discharge_unknown w uid role initials Hw). cbn [snd].
      split; [exists []; rewrite app_nil_r; reflexivity | auto].
    + assert (with_uid uid (p_df w) <> []) as Hne by (rewrite Hw; discriminate).
      destruct (discharge_spec w uid role initials Hready Hne)
        as (idx & r & w' & Hrun & Hr & _ & _ & Hr' & Hothers & _).
      rewrite Hrun. cbn [snd].
      assert (values "uid" (p_df w') = values "uid" (p_df w)) as Hsame.
      { eapply (values_after_update "uid" _ _ idx r); try eassumption.
        unfold cell. rewrite !lookup_insert_ne by discriminate. reflexivity. }
      split; [exists []; rewrite app_nil_r; exact Hsame|].
      apply unique_uids_same_values. exact Hsame.
Qed.

Lemma one_run_steps (os : list op) (w : World) :
  store_ready w ->
  one_run os ->
  store_ready (run_ops os w)
  /\ (exists new,
        values "uid" (p_df (run_ops os w)) = values "uid" (p_df w) ++ new)
  /\ (unique_uids (p_df w) -> unique_uids (p_df (run_ops os w))).
Proof.
  intros Hready Hrun. revert w Hready.
  induction Hrun as [|o os Ho _ IH]; intros w Hready; cbn [run_ops fold_left].
  - split; [exact Hready|]. split; [exists []; rewrite app_nil_r; reflexivity | auto].
  - destruct (mutation_step o w Hready Ho) as (H1 & [n1 E1] & U1).
    destruct (IH (run_op o w) H1) as (K1 & [n2 E2] & U2).
    split; [exact K1|]. split.
    + exists (n1 ++ n2). unfold run_ops in E2. rewrite E2, E1, app_assoc.
      reflexivity.
    + intros Hu. apply U2, U1, Hu.
Qed.


(** ** Validation of the name *)

(** C2 (amended): [upsert_patient] itself checks nothing: it accepts every
    record, whatever its name and whichever fields it lacks, returns
    normally and adds one audit row.  The name is checked by the submit
    handler of the edit form: a name that is empty once stripped makes it
    show an error and touch nothing (no table write, no audit row, no
    clock reading); any other name makes it call [upsert_patient], which
    saves a row with the stripped name and adds one audit row. *)
Theorem name_is_required_by_the_form (w : World) :
  store_ready w ->
  (forall record role initials,
     exists uid w' e,
       upsert_patient record role initials w = (Ok uid, w')
       /\ audit_log (backend w') = audit_log (backend w) ++ [e])
  /\ (forall rec name hosp nhs dob ward assigned priority status
             pmhpshdh reason progress jobs role initials,
        Py.strip name = [] ->
        edit_form_submitted rec name hosp nhs dob ward assigned priority status
          pmhpshdh reason progress jobs role initials w
        = (Ok (st_error (py "Patient name is required.")), w))
  /\ (forall rec name hosp nhs dob ward assigned priority status
             pmhpshdh reason progress jobs role initials,
        Py.strip name <> [] ->
        exists w' r' e,
          edit_form_submitted rec name hosp nhs dob ward assigned priority status
            pmhpshdh reason progress jobs role initials w
          = (Ok (st_success (py "Saved.")), w')
          /\ r' ∈ rows (p_df w')
          /\ cell r' "Patient Name" = Str (Py.strip name)
          /\ audit_log (backend w') = audit_log (backend w) ++ [e]).
Proof.
  intros Hready.
  assert (columns (p_df w) <> []) as Hc
    by (destruct Hready as [-> _]; discriminate).
  split; [|split].
  - intros record role initials.
    destruct (upsert_spec record role initials w Hc)
      as (w' & action & r' & Hrun & _ & _ & _ & _ & _ & _ & _ & e & Hlog & _).
    exists (resolved_uid record w), w', e. split; assumption.
  - intros rec name hosp nhs dob ward assigned priority status
      pmhpshdh reason progress jobs role initials Hname.
    unfold edit_form_submitted. rewrite Hname. reflexivity.
  - intros rec name hosp nhs dob ward assigned priority status
      pmhpshdh reason progress jobs role initials Hname.
    unfold edit_form_submitted.
    destruct (Py.strip name) as [|a nm] eqn:Hs; [congruence|].
    cbn [Py.truthy negb]. unfold bind at 1, _now_iso at 1. unfold bind at 1.
    match goal with
    | |- context [upsert_patient ?record ?role ?ini ?w1] =>
        destruct (upsert_spec record role ini w1 Hc)
          as (w' & action & r' & Hrun & Hcells & Hcase & _ & _ & _ & _ & _ & e & Hlog & _);
        rewrite Hrun
    end.
    exists w', r', e. split; [reflexivity|]. split; [|split].
    + cbn [p_df] in Hcase.
      match type of Hcase with
      | match ?x with _ => _ end => destruct x as [idx|]
      end.
      * destruct Hcase as (_ & _ & Hr' & _).
        eapply list_elem_of_lookup_2. exact Hr'.
      * destruct Hcase as (_ & -> & _). apply elem_of_app. right. constructor.
    + destruct (new_row_fields _ _ _ _ _ _ Hcells) as (_ & _ & F3).
      rewrite F3 by (try discriminate; in_columns). reflexivity.
    + exact Hlog.
Qed.

(** ** Defaults on load *)

Lemma fill_columns_rows cols df :
  Forall2
    (fun r r' =>
       forall c,
         (c ∈ columns df -> cell r' c = cell r c)
         /\ (c ∉ columns df -> c ∈ cols -> cell r' c = Str (py ""))
         /\ (c ∉ columns df -> c ∉ cols -> cell r' c = cell r c))
    (rows df)
    (rows (fold_left
             (fun df c => if bool_decide (c ∈ columns df) then df
                          else set_column c (Str (py "")) df) cols df)).
Proof.
  revert df. induction cols as [|c0 cols IH]; intros df; cbn [fold_left].
  - apply Forall2_same_length_lookup. split; [reflexivity|].
    intros i r r' Hr Hr'. rewrite Hr in Hr'. inversion Hr'; subst r'.
    intros c. repeat split; auto. intros _ Hc. inversion Hc.
  - destruct (bool_decide (c0 ∈ columns df)) eqn:E.
    + apply bool_decide_eq_true in E.
      eapply Forall2_impl; [apply IH|]. cbn beta.
      intros r r' H c. destruct (H c) as (H1 & H2 & H3).
      split; [exact H1|]. split.
      * intros Hn Hc. apply elem_of_cons in Hc as [->|Hc]; [contradiction|].
        apply H2; assumption.
      * intros Hn Hc. apply H3; [exact Hn|]. intros Hc'. apply Hc.
        apply elem_of_cons. right. exact Hc'.
    + apply bool_decide_eq_false in E.
      specialize (IH (set_column c0 (Str (py "")) df)).
      unfold set_column at 1 in IH. cbn [rows] in IH.
      apply Forall2_fmap_l in IH.
      eapply Forall2_impl; [exact IH|]. cbn beta.
      intros r r' H c. destruct (H c) as (H1 & H2 & H3).
      unfold set_column in H1, H2, H3. cbn [columns] in H1, H2, H3.
      rewrite bool_decide_eq_false_2 in H1, H2, H3 by exact E.
      destruct (decide (c = c0)) as [->|Hne].
      * assert (cell r' c0 = Str (py "")) as Hc0.
        { rewrite H1 by (apply elem_of_app; right; constructor).
          unfold cell. rewrite lookup_insert_eq. reflexivity. }
        split; [intros; contradiction|]. split; [intros; exact Hc0|].
        intros _ Hc. exfalso. apply Hc. constructor.
      * assert (cell (<[c0 := Str (py "")]> r) c = cell r c) as Hsame
          by (unfold cell; rewrite lookup_insert_ne by congruence; reflexivity).
        split; [|split].
        -- intros Hc. rewrite <- Hsame. apply H1. apply elem_of_app. left. exact Hc.
        -- intros Hn Hc. apply H2.
           ++ intros Hin. apply elem_of_app in Hin as [Hin|Hin]; [contradiction|].
              apply list_elem_of_singleton in Hin. contradiction.
           ++ apply elem_of_cons in Hc as [->|Hc]; [congruence | exact Hc].
        -- intros Hn Hc. rewrite <- Hsame. apply H3.
           ++ intros Hin. apply elem_of_app in Hin as [Hin|Hin]; [contradiction|].
              apply list_elem_of_singleton in Hin. contradiction.
           ++ intros Hin. apply Hc. apply elem_of_cons. right. exact Hin.
Qed.

Lemma load_csv_table_rows cols df :
  Forall2
    (fun r r' =>
       forall c, c ∈ cols ->
         cell r' c = if bool_decide (c ∈ columns df) then cell r c else Str (py ""))
    (rows df) (rows (_load_csv (Table df) cols)).
Proof.
  unfold _load_csv, select. cbn [rows]. apply Forall2_fmap_r.
  eapply Forall2_impl; [apply (fill_columns_rows cols df)|]. cbn beta.
  intros r r' H c Hc. rewrite cell_reindex by exact Hc.
  destruct (H c) as (H1 & H2 & _).
  destruct (bool_decide (c ∈ columns df)) eqn:E.
  - apply bool_decide_eq_true in E. apply H1, E.
  - apply bool_decide_eq_false in E. apply H2; assumption.
Qed.

Lemma to_datetime_rows (df : DataFrame) :
  columns df <> [] ->
  Forall2
    (fun r r' =>
       (forall c, c <> "Last Updated" -> cell r' c = cell r c)
       /\ is_datetime (cell r' "Last Updated") = true)
    (rows df)
    (rows (if negb (empty df) then
             assign_column "Last Updated"
               (pd_to_datetime (values "Last Updated" df)) df
           else df)).
Proof.
  intros Hc. unfold empty. destruct (columns df) as [|c0 cs]; [congruence|].
  destruct (rows df) as [|r0 rs] eqn:Hrows; cbn [negb]; [rewrite Hrows; constructor|].
  rewrite <- Hrows. clear Hrows r0 rs.
  set (series := pd_to_datetime (values "Last Updated" df)).
  apply Forall2_same_length_lookup. split.
  { unfold assign_column. cbn [rows]. rewrite length_imap. reflexivity. }
  intros i r r' Hr Hr'. rewrite rows_assign_column, Hr in Hr'.
  inversion Hr'; subst r'. split.
  - intros c Hne. unfold cell. rewrite lookup_insert_ne by congruence. reflexivity.
  - unfold cell. rewrite lookup_insert_eq. cbn.
    assert (i < length series) as Hi.
    { unfold series. rewrite pd_to_datetime_length. unfold values.
      rewrite length_map. eapply lookup_lt_Some. exact Hr. }
    destruct (lookup_lt_is_Some_2 _ _ Hi) as [v Hv]. rewrite Hv. cbn.
    pose proof (pd_to_datetime_coerce (values "Last Updated" df)) as Hall.
    rewrite Forall_forall in Hall. apply Hall.
    eapply list_elem_of_lookup_2. exact Hv.
Qed.

(** C4 (amended): [load_data] gives every record all the patient columns.
    From a CSV file, a column the file lacks is filled with the empty
    string in every record, Priority and Status included: nothing is set
    to Medium or Active on load.  From a worksheet, a column the header
    lacks is the missing value.  Last Updated alone is treated apart: it
    is passed through [pd.to_datetime] and holds a timestamp or NaT.  No
    file, an empty file or an unreadable file give no record. *)
Theorem load_data_fills_missing_columns
  (df : DataFrame) (audit_path : CsvFile) (p_ws a_ws : Worksheet) :
  columns (load_data (csv (Table df) audit_path)).1 = PATIENT_COLUMNS
  /\ Forall2
       (fun r r' =>
          (forall c, c ∈ PATIENT_COLUMNS -> c <> "Last Updated" ->
             cell r' c = if bool_decide (c ∈ columns df) then cell r c
                         else Str (py ""))
          /\ is_datetime (cell r' "Last Updated") = true)
       (rows df) (rows (load_data (csv (Table df) audit_path)).1)
  /\ rows (load_data (csv Absent audit_path)).1 = []
  /\ rows (load_data (csv Unreadable audit_path)).1 = []
  /\ columns (load_data (sheets p_ws a_ws)).1 = PATIENT_COLUMNS
  /\ Forall2
       (fun d r' =>
          (forall c, c ∈ PATIENT_COLUMNS -> c <> "Last Updated" ->
             cell r' c = default NaN (d !! c))
          /\ is_datetime (cell r' "Last Updated") = true)
       (get_all_records p_ws) (rows (load_data (sheets p_ws a_ws)).1).
Proof.
  split; [apply load_data_columns|].
  split.
  { unfold load_data. cbn [fst].
    assert (columns (_load_csv (Table df) PATIENT_COLUMNS) <> []) as Hc
      by (rewrite load_csv_columns; discriminate).
    pose proof (load_csv_table_rows PATIENT_COLUMNS df) as H1.
    pose proof (to_datetime_rows _ Hc) as H2.
    apply Forall2_same_length_lookup.
    split; [rewrite (Forall2_length _ _ _ H1); apply (Forall2_length _ _ _ H2)|].
    intros i r r' Hr Hr'.
    destruct (Forall2_lookup_l _ _ _ _ _ H1 Hr) as (r1 & Hr1 & E1).
    destruct (Forall2_lookup_l _ _ _ _ _ H2 Hr1) as (r2 & Hr2 & E2 & Hdt).
    rewrite Hr' in Hr2. inversion Hr2; subst r2.
    split; [|exact Hdt].
    intros c Hin Hne. rewrite (E2 c Hne), (E1 c Hin). reflexivity. }
  split; [reflexivity|]. split; [reflexivity|].
  split; [apply load_data_columns|].
  unfold load_data. cbn [fst].
  assert (columns (DataFrame_of_records (get_all_records p_ws) PATIENT_COLUMNS) <> [])
    as Hc by discriminate.
  pose proof (to_datetime_rows _ Hc) as H2.
  unfold DataFrame_of_records at 1 in H2. cbn [rows] in H2.
  apply Forall2_fmap_l in H2.
  eapply Forall2_impl; [exact H2|]. cbn beta.
  intros d r' [H Hdt]. split; [|exact Hdt].
  intros c Hin Hne. rewrite (H c Hne), cell_reindex by exact Hin. reflexivity.
Qed.

(** ** The sorted view *)

Lemma N_compare_trans (x y z : N) (c : comparison) :
  N.compare x y = c -> N.compare y z = c -> N.compare x z = c.
Proof.
  destruct c; intros H1 H2.
  - apply N.compare_eq_iff in H1. apply N.compare_eq_iff in H2.
    apply N.compare_eq_iff. congruence.
  - apply N.compare_lt_iff in H1. apply N.compare_lt_iff in H2.
    apply N.compare_lt_iff. eapply N.lt_trans; eassumption.
  - apply N.compare_gt_iff in H1. apply N.compare_gt_iff in H2.
    apply N.compare_gt_iff. eapply N.lt_trans; eassumption.
Qed.

Lemma str_compare_antisym (s s' : pystr) :
  list_compare N.compare s' s = CompOpp (list_compare N.compare s s').
Proof.
  apply list_compare_antisym; [apply N.compare_eq_iff | apply N.compare_antisym].
Qed.

Lemma str_compare_trans (s1 s2 s3 : pystr) (c : comparison) :
  list_compare N.compare s1 s2 = c -> list_compare N.compare s2 s3 = c ->
  list_compare N.compare s1 s3 = c.
Proof.
  apply list_compare_trans;
    [apply N.compare_eq_iff | apply N_compare_trans | apply N.compare_antisym].
Qed.

Lemma str_compare_eq (s s' : pystr) :
  list_compare N.compare s s' = Eq -> s = s'.
Proof. apply list_compare_refl, N.compare_eq_iff. Qed.

Lemma later_first_total a b : later_first a b = true \/ later_first b a = true.
Proof.
  destruct a, b; cbn; auto.
  - rewrite (str_compare_antisym s s0).
    destruct (list_compare N.compare s s0); cbn; auto.
  - destruct (Z.leb_spec t0 t); [auto|]. right. apply Z.leb_le. lia.
Qed.

Lemma later_first_trans a b c :
  later_first a b = true -> later_first b c = true -> later_first a c = true.
Proof.
  destruct a, b, c; cbn; try congruence; try reflexivity.
  - destruct (list_compare N.compare s s0) eqn:E1; try discriminate;
      destruct (list_compare N.compare s0 s1) eqn:E2; try discriminate;
      intros _ _.
    + apply str_compare_eq in E1. subst. rewrite E2. reflexivity.
    + apply str_compare_eq in E1. subst. rewrite E2. reflexivity.
    + apply str_compare_eq in E2. subst. rewrite E1. reflexivity.
    + rewrite (str_compare_trans _ _ _ _ E1 E2). reflexivity.
  - intros H1 H2. apply Z.leb_le in H1. apply Z.leb_le in H2.
    apply Z.leb_le. lia.
Qed.

Lemma before_spec r1 r2 :
  before r1 r2 = true <->
  _prio r1 < _prio r2
  \/ (_prio r1 = _prio r2 /\ later_first (last_updated r1) (last_updated r2) = true).
Proof.
  unfold before, last_updated.
  destruct (Nat.ltb_spec (_prio r1) (_prio r2)) as [Hlt|Hge]; cbn [orb].
  - split; auto.
  - destruct (Nat.eqb_spec (_prio r1) (_prio r2)) as [Heq|Hne]; cbn [andb].
    + split; [auto|]. intros [?|[_ ?]]; [lia | assumption].
    + split; [discriminate|]. intros [?|[? _]]; lia.
Qed.

Lemma before_total r1 r2 : before r1 r2 = true \/ before r2 r1 = true.
Proof.
  rewrite !before_spec.
  destruct (lt_eq_lt_dec (_prio r1) (_prio r2)) as [[?|E]|?]; auto.
  destruct (later_first_total (last_updated r1) (last_updated r2)); auto.
Qed.

Lemma before_trans r1 r2 r3 :
  before r1 r2 = true -> before r2 r3 = true -> before r1 r3 = true.
Proof.
  rewrite !before_spec. intros [H1|[E1 L1]] [H2|[E2 L2]].
  - left. lia.
  - left. lia.
  - left. lia.
  - right. split; [lia|]. eapply later_first_trans; eassumption.
Qed.

Lemma insert_sorted_Permutation r rs : Permutation (r :: rs) (insert_sorted r rs).
Proof.
  induction rs as [|r' rs IH]; cbn [insert_sorted]; [reflexivity|].
  destruct (before r r'); [reflexivity|].
  rewrite perm_swap. apply perm_skip. exact IH.
Qed.

Lemma stable_sort_Permutation rs : Permutation rs (stable_sort rs).
Proof.
  induction rs as [|r rs IH]; cbn [stable_sort foldr]; [reflexivity|].
  rewrite <- insert_sorted_Permutation. apply perm_skip. exact IH.
Qed.

Lemma insert_sorted_StronglySorted r rs :
  StronglySorted (fun a b => before a b = true) rs ->
  StronglySorted (fun a b => before a b = true) (insert_sorted r rs).
Proof.
  induction 1 as [|r' rs Hs IH Hall]; cbn [insert_sorted].
  - repeat constructor.
  - destruct (before r r') eqn:E.
    + constructor; [constructor; assumption|].
      constructor; [exact E|].
      eapply Forall_impl; [exact Hall|]. cbn beta.
      intros x Hx. eapply before_trans; eassumption.
    + constructor; [exact IH|].
      assert (before r' r = true) as E'
        by (destruct (before_total r r'); [congruence | assumption]).
      rewrite <- (insert_sorted_Permutation r rs). constructor; assumption.
Qed.

Lemma stable_sort_StronglySorted rs :
  StronglySorted (fun a b => before a b = true) (stable_sort rs).
Proof.
  induction rs as [|r rs IH]; cbn [stable_sort foldr]; [constructor|].
  apply insert_sorted_StronglySorted. exact IH.
Qed.

Lemma StronglySorted_lookup {A} (R : A -> A -> Prop) (l : list A) i j x y :
  StronglySorted R l -> i < j -> l !! i = Some x -> l !! j = Some y -> R x y.
Proof.
  intros Hs. revert i j. induction Hs as [|a l Hs IH Hall]; intros i j Hij Hi Hj.
  - discriminate.
  - destruct j as [|j]; [lia|]. cbn in Hj. destruct i as [|i]; cbn in Hi.
    + inversion Hi; subst a. rewrite Forall_forall in Hall.
      apply Hall. eapply list_elem_of_lookup_2. exact Hj.
    + apply (IH i j); [lia | assumption | assumption].
Qed.

Lemma same_keys_trans_before k r r' :
  same_keys k r = true -> same_keys k r' = true -> before r r' = true.
Proof.
  unfold same_keys. intros H1 H2.
  apply andb_true_iff in H1 as [_ H1]. apply andb_true_iff in H2 as [H2 _].
  eapply before_trans; eassumption.
Qed.

Lemma insert_sorted_stable k r rs :
  List.filter (same_keys k) (insert_sorted r rs)
  = List.filter (same_keys k) (r :: rs).
Proof.
  induction rs as [|r' rs IH]; cbn [insert_sorted]; [reflexivity|].
  destruct (before r r') eqn:E; [reflexivity|].
  cbn [List.filter] in *. rewrite IH.
  destruct (same_keys k r) eqn:Kr, (same_keys k r') eqn:Kr'; try reflexivity.
  rewrite (same_keys_trans_before k r r' Kr Kr') in E. discriminate.
Qed.

Lemma stable_sort_stable k rs :
  List.filter (same_keys k) (stable_sort rs) = List.filter (same_keys k) rs.
Proof.
  induction rs as [|r rs IH]; cbn [stable_sort foldr]; [reflexivity|].
  rewrite insert_sorted_stable. cbn [List.filter]. rewrite <- IH. reflexivity.
Qed.

(** C5: every view is sorted without error and the result holds the same
    rows.  An earlier row never has a larger priority rank than a later
    one.  Of two rows of equal rank the earlier has the later Last
    Updated: the later timestamp of two timestamps, the larger string of
    two strings; a row that carries a string (the ISO string of a row
    written in this run) stands before every row that carries a timestamp
    (a row loaded before), and a row with a missing Last Updated after
    all others.  Rows that tie on both keys keep their input order.  The
    rank is 0 for High, 1 for Medium, 2 for Low and 99 for anything
    else. *)
Theorem view_is_sorted_stably (rs : list row) :
  exists out,
    sort_values rs = Ok out
    /\ Permutation rs out
    /\ (forall i j ri rj,
          i < j -> out !! i = Some ri -> out !! j = Some rj ->
          _prio ri <= _prio rj
          /\ (_prio ri = _prio rj ->
              match last_updated ri, last_updated rj with
              | Timestamp t, Timestamp t' => (t' <= t)%Z
              | Str s, Str s' => list_compare N.compare s s' <> Lt
              | Timestamp _, Str _ => False
              | (NaN | NaT), (Str _ | Timestamp _) => False
              | _, _ => True
              end))
    /\ (forall k, List.filter (same_keys k) out = List.filter (same_keys k) rs)
    /\ (priority_rank (Str (py "High")) = 0
        /\ priority_rank (Str (py "Medium")) = 1
        /\ priority_rank (Str (py "Low")) = 2
        /\ forall v, astype_str v <> py "High" -> astype_str v <> py "Medium" ->
                     astype_str v <> py "Low" -> priority_rank v = 99).
Proof.
  exists (stable_sort rs).
  split; [reflexivity|].
  split; [apply stable_sort_Permutation|].
  split.
  { intros i j ri rj Hij Hi Hj.
    pose proof (StronglySorted_lookup _ _ i j ri rj
                  (stable_sort_StronglySorted rs) Hij Hi Hj) as Hb.
    apply before_spec in Hb. split; [lia|]. intros Heq.
    destruct Hb as [Hlt|[_ Hl]]; [lia|].
    destruct (last_updated ri) as [s| |t|], (last_updated rj) as [s'| |t'|];
      cbn in Hl; try exact I; try discriminate.
    - intros E. rewrite E in Hl. discriminate.
    - apply Z.leb_le. exact Hl. }
  split; [intros k; apply stable_sort_stable|].
  split; [reflexivity|]. split; [reflexivity|]. split; [reflexivity|].
  intros v H1 H2 H3. unfold priority_rank.
  rewrite !bool_decide_eq_false_2 by assumption. reflexivity.
Qed.

(** ** Pending jobs *)

Lemma open_marker : py "- [ ]" = [45; 32; 91; 32; 93]%N.
Proof. reflexivity. Qed.

Lemma done_marker_lower : py "- [x]" = [45; 32; 91; 120; 93]%N.
Proof. reflexivity. Qed.

Lemma done_marker_upper : py "- [X]" = [45; 32; 91; 88; 93]%N.
Proof. reflexivity. Qed.

Lemma done_line_not_open line :
  is_done_line line = true -> is_open_line line = false.
Proof.
  unfold is_done_line, is_open_line.
  rewrite open_marker, done_marker_lower, done_marker_upper.
  destruct (Py.strip line) as [|a [|b [|c [|d [|e l]]]]]; cbn [Py.startswith];
    try (rewrite ?andb_false_r; discriminate).
  destruct (N.eqb_spec 32 d) as [<-|Hd]; [|rewrite ?andb_false_r; reflexivity].
  cbn. rewrite !andb_false_r. discriminate.
Qed.

Lemma parse_jobs_lines (lines : list pystr) (items : list (pystr * bool)) :
  fold_left
    (fun items line =>
       let line := Py.strip line in
       if Py.startswith line (py "- [x]") || Py.startswith line (py "- [X]")
       then items ++ [(Py.strip (Py.from 5 line), true)]
       else if Py.startswith line (py "- [ ]")
       then items ++ [(Py.strip (Py.from 5 line), false)]
       else items)
    lines items
  = items
    ++ omap (fun line =>
               if is_done_line line then Some (task_of_line line, true)
               else if is_open_line line then Some (task_of_line line, false)
               else None) lines.
Proof.
  revert items. induction lines as [|line lines IH]; intros items; cbn [fold_left omap list_omap].
  - rewrite app_nil_r. reflexivity.
  - rewrite IH. cbn zeta. fold (is_done_line line). fold (is_open_line line).
    fold (task_of_line line).
    destruct (is_done_line line); [rewrite <- app_assoc; reflexivity|].
    destruct (is_open_line line); [rewrite <- app_assoc; reflexivity|].
    reflexivity.
Qed.

Lemma pending_items (r : row) (items : list (pystr * bool)) (pending : list row) :
  fold_left
    (fun pending item =>
       if negb item.2 then pending ++ [pending_entry r item.1] else pending)
    items pending
  = pending
    ++ map (fun item => pending_entry r item.1)
         (List.filter (fun item => negb item.2) items).
Proof.
  revert pending. induction items as [|item items IH]; intros pending;
    cbn [fold_left List.filter].
  - rewrite app_nil_r. reflexivity.
  - rewrite IH. destruct (negb item.2); [|reflexivity].
    cbn [map]. rewrite <- app_assoc. reflexivity.
Qed.

Lemma open_items_of_lines (r : row) (lines : list pystr) :
  map (fun item : pystr * bool => pending_entry r item.1)
    (List.filter (fun item => negb item.2)
       (omap (fun line =>
                if is_done_line line then Some (task_of_line line, true)
                else if is_open_line line then Some (task_of_line line, false)
                else None) lines))
  = map (fun line => pending_entry r (task_of_line line))
      (List.filter is_open_line lines).
Proof.
  induction lines as [|line lines IH]; [reflexivity|].
  cbn [omap list_omap List.filter].
  destruct (is_done_line line) eqn:D.
  - rewrite (done_line_not_open line D). cbn. exact IH.
  - destruct (is_open_line line); cbn; [rewrite IH; reflexivity | exact IH].
Qed.

(** The whole loop, on a view whose Jobs cells are all strings. *)
Lemma pending_loop_open_lines (view : list row) (pending : list row) :
  Forall (fun r => is_str (cell r "Jobs") = true) view ->
  pending_loop pending view
  = Ok (pending
        ++ flat_map
             (fun r =>
                match cell r "Jobs" with
                | Str jtxt =>
                    map (fun line => pending_entry r (task_of_line line))
                      (List.filter is_open_line (Py.splitlines jtxt))
                | _ => []
                end) view).
Proof.
  intros H. revert pending.
  induction H as [|r view Hr _ IH]; intros pending; cbn [pending_loop flat_map].
  - rewrite app_nil_r. reflexivity.
  - unfold pending_of_row. destruct (cell r "Jobs") as [jtxt| | |] eqn:E;
      try discriminate.
    rewrite IH, pending_items, app_assoc. do 3 f_equal.
    assert ((if Py.truthy jtxt then jtxt else py "") = jtxt) as Hor
      by (destruct jtxt; reflexivity).
    unfold parse_jobs. rewrite Hor, parse_jobs_lines. cbn [app].
    apply open_items_of_lines.
Qed.

(** C9: for a row whose Jobs cell is the text [jtxt], the loop adds to
    [pending], without raising, exactly one entry per line of [jtxt] that
    starts (once stripped) with the open marker, in the order of the lines
    and with the text after the marker as its task; lines with the done
    marker and lines with neither marker add nothing.  No line carries
    both markers. *)
Theorem pending_jobs_are_the_open_lines (r : row) (jtxt : pystr) (pending : list row) :
  cell r "Jobs" = Str jtxt ->
  pending_of_row pending r
  = Ok (pending
        ++ map (fun line => pending_entry r (task_of_line line))
             (List.filter is_open_line (Py.splitlines jtxt)))
  /\ length (List.filter (fun item => negb item.2) (parse_jobs jtxt))
     = length (List.filter is_open_line (Py.splitlines jtxt))
  /\ (forall line, is_done_line line = true -> is_open_line line = false).
Proof.
  intros Hjobs.
  assert ((if Py.truthy jtxt then jtxt else py "") = jtxt) as Hor
    by (destruct jtxt; reflexivity).
  assert (parse_jobs jtxt
          = omap (fun line =>
                    if is_done_line line then Some (task_of_line line, true)
                    else if is_open_line line then Some (task_of_line line, false)
                    else None) (Py.splitlines jtxt)) as Hparse.
  { unfold parse_jobs. rewrite Hor. rewrite parse_jobs_lines. reflexivity. }
  split; [|split].
  - unfold pending_of_row. rewrite Hjobs. f_equal.
    rewrite pending_items, Hparse, open_items_of_lines. reflexivity.
  - pose proof (open_items_of_lines r (Py.splitlines jtxt)) as H.
    apply (f_equal (@length row)) in H. rewrite !length_map in H.
    rewrite Hparse. exact H.
  - apply done_line_not_open.
Qed.

(** * Further properties *)

(** ** Stripping and checklist lines *)

Lemma lstrip_head (s : pystr) :
  Py.lstrip s = []
  \/ exists c t, Py.lstrip s = c :: t /\ Py.isspace c = false.
Proof.
  induction s as [|c s IH]; [left; reflexivity|]. cbn [Py.lstrip].
  destruct (Py.isspace c) eqn:E; [exact IH|]. right. exists c, s. auto.
Qed.

Lemma lstrip_blank (s : pystr) :
  Forall (fun c => Py.isspace c = true) s <-> Py.lstrip s = [].
Proof.
  induction s as [|c s IH]; cbn [Py.lstrip].
  - split; [reflexivity | constructor].
  - destruct (Py.isspace c) eqn:E.
    + rewrite <- IH. split; [intros H; inversion H; assumption|].
      intros H. constructor; assumption.
    + split; [|discriminate]. intros H. inversion H. congruence.
Qed.

Lemma lstrip_app_blank (pre s : pystr) :
  Forall (fun c => Py.isspace c = true) pre -> Py.lstrip (pre ++ s) = Py.lstrip s.
Proof.
  induction 1 as [|c pre Hc _ IH]; [reflexivity|].
  cbn [app Py.lstrip]. rewrite Hc. exact IH.
Qed.

Lemma lstrip_app_solid (s t : pystr) :
  Py.lstrip s <> [] -> Py.lstrip (s ++ t) = Py.lstrip s ++ t.
Proof.
  induction s as [|c s IH]; cbn [app Py.lstrip]; [congruence|].
  destruct (Py.isspace c); [exact IH | reflexivity].
Qed.

Lemma lstrip_solid (c : N) (t : pystr) :
  Py.isspace c = false -> Py.lstrip (c :: t) = c :: t.
Proof. intros H. cbn [Py.lstrip]. rewrite H. reflexivity. Qed.

Lemma rstrip_app_blank (s post : pystr) :
  Forall (fun c => Py.isspace c = true) post -> Py.rstrip (s ++ post) = Py.rstrip s.
Proof.
  intros H. unfold Py.rstrip. rewrite rev_app_distr.
  rewrite lstrip_app_blank; [reflexivity|].
  apply Forall_forall. intros c Hc. rewrite Forall_forall in H. apply H.
  apply list_elem_of_In. apply in_rev. apply list_elem_of_In. exact Hc.
Qed.

(** Blanks before and after a text do not change what [strip] gives. *)
Lemma strip_blanks_around (pre s post : pystr) :
  Forall (fun c => Py.isspace c = true) pre ->
  Forall (fun c => Py.isspace c = true) post ->
  Py.strip (pre ++ s ++ post) = Py.strip s.
Proof.
  intros Hpre Hpost. unfold Py.strip. rewrite lstrip_app_blank by exact Hpre.
  destruct (lstrip_head s) as [E|(c & t & E & Hc)].
  - assert (Py.lstrip (s ++ post) = []) as E'.
    { apply lstrip_blank. apply Forall_app. split; [|exact Hpost].
      apply lstrip_blank. exact E. }
    rewrite E, E'. reflexivity.
  - rewrite lstrip_app_solid by (rewrite E; discriminate).
    apply rstrip_app_blank. exact Hpost.
Qed.

Lemma lstrip_before_solid (u : pystr) (c : N) (t : pystr) :
  Py.isspace c = false -> Py.lstrip (u ++ c :: t) = Py.lstrip u ++ c :: t.
Proof.
  intros Hc. induction u as [|a u IH]; cbn [app Py.lstrip].
  - rewrite Hc. reflexivity.
  - destruct (Py.isspace a); [exact IH | reflexivity].
Qed.

Lemma strip_head (s : pystr) :
  Py.strip s = []
  \/ exists c t, Py.strip s = c :: t /\ Py.isspace c = false.
Proof.
  unfold Py.strip, Py.rstrip.
  destruct (lstrip_head s) as [E|(c & t & E & Hc)].
  - left. rewrite E. reflexivity.
  - right. rewrite E. cbn [rev].
    rewrite lstrip_before_solid by exact Hc.
    rewrite rev_app_distr. cbn [rev app]. eauto.
Qed.

Lemma strip_last (s : pystr) :
  Py.lstrip (rev (Py.strip s)) = rev (Py.strip s).
Proof.
  unfold Py.strip, Py.rstrip. rewrite rev_involutive.
  destruct (lstrip_head (rev (Py.lstrip s))) as [E|(c & t & E & Hc)].
  - rewrite E. reflexivity.
  - rewrite E. apply lstrip_solid. exact Hc.
Qed.

Lemma strip_idempotent (s : pystr) : Py.strip (Py.strip s) = Py.strip s.
Proof.
  destruct (strip_head s) as [E|(c & t & E & Hc)].
  - rewrite E. reflexivity.
  - unfold Py.strip at 1. rewrite E, lstrip_solid by exact Hc.
    unfold Py.rstrip. rewrite <- E, strip_last. apply rev_involutive.
Qed.

Lemma parse_jobs_by_line (jtxt : pystr) :
  parse_jobs jtxt
  = omap (fun line =>
            if is_done_line line then Some (task_of_line line, true)
            else if is_open_line line then Some (task_of_line line, false)
            else None) (Py.splitlines jtxt).
Proof.
  assert ((if Py.truthy jtxt then jtxt else py "") = jtxt) as Hor
    by (destruct jtxt; reflexivity).
  unfold parse_jobs. rewrite Hor, parse_jobs_lines. reflexivity.
Qed.

(** X1: the tasks [parse_jobs] returns carry no blank at either end, and
    there are at most as many of them as the text has lines. *)
Theorem parse_jobs_tasks_are_stripped (jtxt : pystr) :
  Forall (fun item : pystr * bool => Py.strip item.1 = item.1) (parse_jobs jtxt)
  /\ length (parse_jobs jtxt) <= length (Py.splitlines jtxt).
Proof.
  rewrite parse_jobs_by_line. split.
  - induction (Py.splitlines jtxt) as [|line lines IH]; cbn [omap list_omap];
      [constructor|].
    destruct (is_done_line line);
      [constructor; [apply strip_idempotent | exact IH]|].
    destruct (is_open_line line);
      [constructor; [apply strip_idempotent | exact IH] | exact IH].
  - induction (Py.splitlines jtxt) as [|line lines IH]; cbn [omap list_omap];
      [reflexivity|].
    destruct (is_done_line line); [cbn [length app]; lia|].
    destruct (is_open_line line); cbn [length app]; lia.
Qed.

Lemma splitlines_from_one_line (cur s : pystr) :
  Forall (fun c => Py.islinebreak c = false) s ->
  Py.splitlines_from cur s
  = match cur ++ s with [] => [] | _ :: _ => [cur ++ s] end.
Proof.
  intros H. revert cur. induction H as [|c s Hc _ IH]; intros cur;
    cbn [Py.splitlines_from].
  - rewrite app_nil_r. destruct cur; reflexivity.
  - rewrite Hc, IH, <- app_assoc. reflexivity.
Qed.

Lemma parse_jobs_one_line (line : pystr) :
  Forall (fun c => Py.islinebreak c = false) line ->
  parse_jobs line
  = if Py.startswith (Py.strip line) (py "- [x]")
       || Py.startswith (Py.strip line) (py "- [X]")
    then [(Py.strip (Py.from 5 (Py.strip line)), true)]
    else if Py.startswith (Py.strip line) (py "- [ ]")
    then [(Py.strip (Py.from 5 (Py.strip line)), false)]
    else [].
Proof.
  intros H. rewrite parse_jobs_by_line. unfold Py.splitlines.
  rewrite splitlines_from_one_line by exact H. cbn [app].
  destruct line as [|c line]; [reflexivity|].
  cbn [omap list_omap]. unfold is_done_line, is_open_line, task_of_line.
  destruct (Py.startswith (Py.strip (c :: line)) (py "- [x]")
            || Py.startswith (Py.strip (c :: line)) (py "- [X]"));
    [reflexivity|].
  destruct (Py.startswith (Py.strip (c :: line)) (py "- [ ]")); reflexivity.
Qed.

(** X2: indentation and trailing blanks do not matter to a checklist
    line: a line without line break is parsed the same with blanks (that
    are not line breaks) put before and after it. *)
Theorem parse_jobs_ignores_blanks_around (pre line post : pystr) :
  Forall (fun c => Py.islinebreak c = false) line ->
  Forall (fun c => Py.isspace c = true /\ Py.islinebreak c = false) pre ->
  Forall (fun c => Py.isspace c = true /\ Py.islinebreak c = false) post ->
  parse_jobs (pre ++ line ++ post) = parse_jobs line.
Proof.
  intros Hline Hpre Hpost.
  assert (Forall (fun c => Py.isspace c = true) pre) as Bpre
    by (eapply Forall_impl; [exact Hpre | intros c [? _]; assumption]).
  assert (Forall (fun c => Py.isspace c = true) post) as Bpost
    by (eapply Forall_impl; [exact Hpost | intros c [? _]; assumption]).
  rewrite !parse_jobs_one_line.
  - rewrite strip_blanks_around by assumption. reflexivity.
  - exact Hline.
  - apply Forall_app. split;
      [eapply Forall_impl; [exact Hpre | intros c [_ ?]; assumption]|].
    apply Forall_app. split; [exact Hline|].
    eapply Forall_impl; [exact Hpost | intros c [_ ?]; assumption].
Qed.

(** ** What the next run reads after a write *)

(** Column by column, Last Updated apart: the table a reload reads once
    [df] has been written holds the cells of [df] as the medium keeps
    them. *)
Lemma write_patients_columns df w :
  exists b',
    _write_patients df w = (Ok tt, with_backend b' w)
    /\ (backend_ready (backend w) -> columns df = PATIENT_COLUMNS ->
        forall c, c ∈ PATIENT_COLUMNS -> c <> "Last Updated" ->
                  values c (load_data b').1
                  = map (medium_cell (backend w)) (values c df)).
Proof.
  unfold _write_patients, bind, get_backend.
  destruct (backend w) as [p_ws a_ws | pp ap] eqn:Hb.
  - eexists. split; [reflexivity|].
    intros [Hh _] Hc c Hin Hne.
    rewrite (map_ext _ _ (medium_cell_sheets p_ws a_ws)).
    unfold load_data. cbn [fst].
    rewrite values_to_datetime_or_not by exact Hne.
    unfold values, DataFrame_of_records. cbn [rows]. rewrite !map_map.
    unfold empty. rewrite Hc. unfold get_all_records.
    destruct (rows df) as [|r0 rs] eqn:Hrows; [reflexivity|].
    cbn [negb ws_body ws_header resize_rows_1 PATIENT_COLUMNS].
    rewrite Hh. rewrite !map_map. apply map_ext. intros r.
    rewrite cell_reindex by exact Hin.
    repeat (apply elem_of_cons in Hin as [->|Hin]; [reflexivity|]).
    inversion Hin.
  - cbn [medium_cell]. eexists. split; [reflexivity|].
    intros _ Hc c Hin Hne. rewrite map_id.
    unfold load_data. cbn [fst].
    rewrite values_to_datetime_or_not by exact Hne.
    destruct df as [cols rs]. cbn in Hc. subst cols.
    rewrite load_csv_own_table. unfold values. cbn [rows]. rewrite map_map.
    apply map_ext. intros r. apply cell_reindex. exact Hin.
Qed.

Lemma discharge_reloaded (w : World) (uid role initials : pystr) :
  store_ready w ->
  with_uid uid (p_df w) <> [] ->
  forall c, c ∈ PATIENT_COLUMNS -> c <> "Last Updated" ->
    values c (load_data (backend (discharge_patient uid role initials w).2)).1
    = map (medium_cell (backend w))
        (values c (p_df (discharge_patient uid role initials w).2)).
Proof.
  intros [Hcols Hb] Hu c Hc Hlu.
  destruct (with_uid_first_index _ _ Hu) as (idx & r & Hidx & _).
  assert (empty (p_df w) = false) as Hne
    by (apply (not_empty_with_uid uid); [rewrite Hcols; discriminate | exact Hu]).
  assert (isin (Str uid) (values "uid" (p_df w)) = true) as Hin
    by (apply isin_first_index; rewrite Hidx; eauto).
  destruct (discharge_patient uid role initials w) as [res w'] eqn:Hrun.
  cbn [snd]. revert Hrun.
  unfold discharge_patient, bind at 1, get_p_df at 1.
  rewrite Hne, Hin, Hidx. cbn [orb negb].
  unfold bind, set_p_df, _now_iso, get_p_df, ret.
  cbn [now now_calls backend p_df uuid4 uuid_calls].
  match goal with
  | |- context [_write_patients ?df ?w0] =>
      destruct (write_patients_columns df w0) as (b1 & E1 & Hl1); rewrite E1
  end.
  cbn [with_backend now now_calls backend p_df uuid4 uuid_calls] in *.
  match goal with
  | |- context [_append_audit ?d ?w0] =>
      destruct (append_audit_spec d w0) as (b2 & e & E2 & _ & _ & _ & _ & Hl2);
      rewrite E2
  end.
  cbn [with_backend now now_calls backend p_df uuid4 uuid_calls] in *.
  intros Hrun. inversion Hrun; subst res w'. clear Hrun.
  cbn [with_backend backend p_df]. rewrite Hl2. apply Hl1; assumption.
Qed.

Lemma upsert_reloaded (record : gmap string pystr) (role initials : pystr)
  (w : World) :
  store_ready w ->
  forall c, c ∈ PATIENT_COLUMNS -> c <> "Last Updated" ->
    values c (load_data (backend (upsert_patient record role initials w).2)).1
    = map (medium_cell (backend w))
        (values c (p_df (upsert_patient record role initials w).2)).
Proof.
  intros [Hcols Hb] c Hc Hlu.
  destruct (upsert_patient record role initials w) as [res w'] eqn:Hrun.
  cbn [snd]. revert Hrun.
  unfold upsert_patient, bind at 1. rewrite resolve_uid_step.
  unfold bind at 1, _now_iso at 1. cbn [now now_calls backend p_df uuid4 uuid_calls].
  set (rec := fold_left _ PATIENT_COLUMNS _). clearbody rec.
  unfold bind at 1, get_p_df at 1. cbn [now now_calls backend p_df uuid4 uuid_calls].
  destruct (negb (empty (p_df w)) && isin (Str (getitem rec "uid")) (values "uid" (p_df w)))
    eqn:Hbranch.
  - apply andb_true_iff in Hbranch as [_ Hin].
    apply isin_first_index in Hin as [idx Hidx]. rewrite Hidx.
    unfold bind, set_p_df, get_p_df, _now_iso, ret.
    cbn [now now_calls backend p_df uuid4 uuid_calls].
    match goal with
    | |- context [_write_patients ?df ?w0] =>
        destruct (write_patients_columns df w0) as (b1 & E1 & Hl1); rewrite E1
    end.
    cbn [with_backend now now_calls backend p_df uuid4 uuid_calls] in *.
    match goal with
    | |- context [_append_audit ?d ?w0] =>
        destruct (append_audit_spec d w0) as (b2 & e & E2 & _ & _ & _ & _ & Hl2);
        rewrite E2
    end.
    cbn [with_backend now now_calls backend p_df uuid4 uuid_calls] in *.
    intros Hrun. inversion Hrun; subst res w'. clear Hrun.
    cbn [with_backend backend p_df]. rewrite Hl2.
    apply Hl1; [exact Hb | | exact Hc | exact Hlu].
    rewrite loc_set_many_columns. exact Hcols.
  - unfold bind, set_p_df, get_p_df, _now_iso, ret.
    cbn [now now_calls backend p_df uuid4 uuid_calls].
    match goal with
    | |- context [_write_patients ?df ?w0] =>
        destruct (write_patients_columns df w0) as (b1 & E1 & Hl1); rewrite E1
    end.
    cbn [with_backend now now_calls backend p_df uuid4 uuid_calls] in *.
    match goal with
    | |- context [_append_audit ?d ?w0] =>
        destruct (append_audit_spec d w0) as (b2 & e & E2 & _ & _ & _ & _ & Hl2);
        rewrite E2
    end.
    cbn [with_backend now now_calls backend p_df uuid4 uuid_calls] in *.
    intros Hrun. inversion Hrun; subst res w'. clear Hrun.
    cbn [with_backend backend p_df]. rewrite Hl2.
    apply Hl1; [exact Hb | | exact Hc | exact Hlu].
    unfold concat. cbn [columns DataFrame_of_records]. rewrite Hcols. reflexivity.
Qed.

(** Row by row: the row a reload reads at a position holds the cells of
    the row written at that position, and there are as many rows. *)
Lemma reloaded_row (b : Backend) (df df' : DataFrame) (i : nat) (r' : row) :
  (forall c, c ∈ PATIENT_COLUMNS -> c <> "Last Updated" ->
             values c df' = map (medium_cell b) (values c df)) ->
  rows df' !! i = Some r' ->
  exists r,
    rows df !! i = Some r
    /\ forall c, c ∈ PATIENT_COLUMNS -> c <> "Last Updated" ->
                 cell r' c = medium_cell b (cell r c).
Proof.
  intros H Hr'.
  assert (is_Some (rows df !! i)) as [r Hr].
  { apply lookup_lt_is_Some. apply lookup_lt_Some in Hr'.
    pose proof (H "uid" ltac:(in_columns) ltac:(discriminate)) as E.
    apply (f_equal (@length value)) in E. unfold values in E.
    rewrite !length_map in E. lia. }
  exists r. split; [exact Hr|]. intros c Hc Hlu.
  pose proof (H c Hc Hlu) as E. apply (f_equal (fun l => l !! i)) in E.
  unfold values in E. rewrite !list_lookup_fmap, Hr, Hr' in E.
  cbn in E. inversion E. reflexivity.
Qed.

Lemma reloaded_row_of (b : Backend) (df df' : DataFrame) (i : nat) (r : row) :
  (forall c, c ∈ PATIENT_COLUMNS -> c <> "Last Updated" ->
             values c df' = map (medium_cell b) (values c df)) ->
  rows df !! i = Some r ->
  exists r',
    rows df' !! i = Some r'
    /\ forall c, c ∈ PATIENT_COLUMNS -> c <> "Last Updated" ->
                 cell r' c = medium_cell b (cell r c).
Proof.
  intros H Hr.
  assert (is_Some (rows df' !! i)) as [r' Hr'].
  { apply lookup_lt_is_Some. apply lookup_lt_Some in Hr.
    pose proof (H "uid" ltac:(in_columns) ltac:(discriminate)) as E.
    apply (f_equal (@length value)) in E. unfold values in E.
    rewrite !length_map in E. lia. }
  exists r'. split; [exact Hr'|].
  destruct (reloaded_row b df df' i r' H Hr') as (r0 & Hr0 & Hcells).
  rewrite Hr in Hr0. inversion Hr0; subst r0. exact Hcells.
Qed.

(** ** The filters and the board *)

Lemma filter_if_In {A} (b : bool) (f : A -> bool) (l : list A) x :
  In x (if b then List.filter f l else l) -> In x l /\ (b = true -> f x = true).
Proof.
  destruct b; [|intros H; split; [exact H | discriminate]].
  intros H. apply filter_In in H as [H1 H2]. auto.
Qed.

Lemma filtered_view_active q priority_filter ward_filter df r :
  In r (filtered_view q true priority_filter ward_filter df) ->
  In r (rows df) /\ is_active (cell r "Status") = true.
Proof.
  unfold filtered_view. intros H.
  apply filter_if_In in H as [H _].
  assert (In r (List.filter (fun r => is_active (cell r "Status"))
                  (if Py.truthy q
                   then List.filter (matches_query (str_lower q)) (rows df)
                   else rows df))) as H'.
  { destruct priority_filter; [exact H|]. apply filter_In in H as [H _]. exact H. }
  apply filter_In in H' as [H1 H2]. split; [|exact H2].
  apply filter_if_In in H1 as [H1 _]. exact H1.
Qed.

Lemma lower_Discharged : str_lower (py "Discharged") = py "discharged".
Proof. rewrite str_lower_ascii; [reflexivity | repeat constructor]. Qed.

Lemma lower_Active : str_lower (py "Active") = py "active".
Proof. rewrite str_lower_ascii; [reflexivity | repeat constructor]. Qed.

Lemma no_active_row_with_uid (df : DataFrame) (uid : pystr) (idx : nat) :
  (forall j r, rows df !! j = Some r -> cell r "uid" = Str uid -> j = idx) ->
  (forall r, rows df !! idx = Some r -> cell r "Status" = Str (py "Discharged")) ->
  forall q priority_filter ward_filter r,
    In r (filtered_view q true priority_filter ward_filter df) ->
    cell r "uid" <> Str uid.
Proof.
  intros Honly Hstatus q priority_filter ward_filter r Hr Huid.
  apply filtered_view_active in Hr as [Hin Hact].
  apply list_elem_of_In, list_elem_of_lookup in Hin as [j Hj].
  pose proof (Honly j r Hj Huid) as ->.
  rewrite (Hstatus r Hj) in Hact. cbn [is_active] in Hact.
  rewrite lower_Discharged in Hact.
  apply bool_decide_eq_true in Hact. discriminate.
Qed.

(** X4: once [discharge_patient] has returned [True] for a uid, no row
    with that uid is left in a view restricted to active patients, whatever
    the other filters: neither in the table in memory nor in the table the
    next run loads from the medium. *)
Theorem discharged_patient_leaves_the_active_view
  (w : World) (uid role initials q : pystr) (priority_filter : list pystr)
  (ward_filter : pystr) :
  store_ready w ->
  uids_ok (p_df w) ->
  (discharge_patient uid role initials w).1 = Ok true ->
  forall df,
    df = p_df (discharge_patient uid role initials w).2
    \/ df = (load_data (backend (discharge_patient uid role initials w).2)).1 ->
    forall r,
      In r (filtered_view q true priority_filter ward_filter df) ->
      cell r "uid" <> Str uid.
Proof.
  intros Hready [Huniq Hstr] Htrue df Hdf.
  destruct (with_uid uid (p_df w)) as [|r0 rs] eqn:Hw.
  { rewrite (discharge_unknown w uid role initials Hw) in Htrue. discriminate. }
  assert (with_uid uid (p_df w) <> []) as Hne by (rewrite Hw; discriminate).
  pose proof (discharge_reloaded w uid role initials Hready Hne) as Hload.
  destruct (discharge_spec w uid role initials Hready Hne)
    as (idx & r1 & w' & Hrun & Hr1 & Hr1uid & _ & Hr' & Hothers & _).
  rewrite Hrun in Hdf, Hload. cbn [snd] in Hdf, Hload.
  assert (forall j r, rows (p_df w') !! j = Some r -> cell r "uid" = Str uid ->
                      j = idx) as Honly.
  { intros j r Hj Huid. destruct (decide (j = idx)) as [->|Hneq]; [reflexivity|].
    rewrite Hothers in Hj by exact Hneq.
    apply (Huniq j idx (cell r "uid") (cell r1 "uid")).
    - unfold values. rewrite list_lookup_fmap, Hj. reflexivity.
    - unfold values. rewrite list_lookup_fmap, Hr1. reflexivity.
    - rewrite Huid, Hr1uid. apply value_eqb_Str. reflexivity. }
  assert (forall j r, rows (p_df w') !! j = Some r -> is_str (cell r "uid") = true)
    as Hstr'.
  { intros j r Hj. rewrite Forall_forall in Hstr. apply Hstr.
    destruct (decide (j = idx)) as [->|Hneq].
    - rewrite Hr' in Hj. inversion Hj; subst r.
      unfold cell at 1. rewrite !lookup_insert_ne by discriminate.
      fold (cell r1 "uid"). apply (list_elem_of_lookup_2 _ idx).
      unfold values. rewrite list_lookup_fmap, Hr1. reflexivity.
    - rewrite Hothers in Hj by exact Hneq. apply (list_elem_of_lookup_2 _ j).
      unfold values. rewrite list_lookup_fmap, Hj. reflexivity. }
  apply (no_active_row_with_uid df uid idx).
  - destruct Hdf as [->| ->]; [exact Honly|].
    intros j r Hj Huid.
    destruct (reloaded_row _ _ _ j r Hload Hj) as (r2 & Hr2 & Hcells).
    apply (Honly j r2 Hr2).
    rewrite Hcells in Huid by (try discriminate; in_columns).
    rewrite medium_cell_str in Huid by (apply (Hstr' j), Hr2). exact Huid.
  - assert (forall r, rows (p_df w') !! idx = Some r ->
                      cell r "Status" = Str (py "Discharged")) as Hmem.
    { intros r Hr. rewrite Hr' in Hr. inversion Hr; subst r.
      unfold cell. rewrite lookup_insert_ne by discriminate.
      rewrite lookup_insert_eq. reflexivity. }
    destruct Hdf as [->| ->]; [exact Hmem|].
    intros r Hr.
    destruct (reloaded_row _ _ _ idx r Hload Hr) as (r2 & Hr2 & Hcells).
    rewrite Hcells by (try discriminate; in_columns).
    rewrite (Hmem r2 Hr2). apply medium_cell_str. reflexivity.
Qed.

(** ** Quick add *)

(** What the quick-add handler does with a name that is not blank. *)
Lemma quick_add_spec (w : World)
  (qa_name qa_hosp qa_nhs qa_dob qa_reason role initials : pystr) :
  store_ready w ->
  Py.strip qa_name <> [] ->
  Py.truthy (uuid4 w (uuid_calls w)) = true ->
  with_uid (uuid4 w (uuid_calls w)) (p_df w) = [] ->
  exists w' r' e,
    quick_add_submitted qa_name qa_hosp qa_nhs qa_dob qa_reason role initials w
    = (Ok (st_success (py "Patient added.")), w')
    /\ rows (p_df w') = rows (p_df w) ++ [r']
    /\ uuid_calls w' = S (uuid_calls w)
    /\ now_calls w' = S (S (S (now_calls w)))
    /\ cell r' "uid" = Str (uuid4 w (uuid_calls w))
    /\ cell r' "Patient Name" = Str (Py.strip qa_name)
    /\ cell r' "Hospital Number" = Str (Py.strip qa_hosp)
    /\ cell r' "NHS Number" = Str (Py.strip qa_nhs)
    /\ cell r' "Date of Birth" = Str qa_dob
    /\ cell r' "Reason for Admission" = Str (Py.strip qa_reason)
    /\ cell r' "Priority" = Str (py "Medium")
    /\ cell r' "Status" = Str (py "Active")
    /\ cell r' "Last Updated" = Str (now w (S (now_calls w)))
    /\ (forall c, c ∈ ["Ward/Bed"; "PMH/PSH/DH"; "Progress"; "Jobs"; "Assigned To"] ->
                  cell r' c = Str (py ""))
    /\ audit_log (backend w') = audit_log (backend w) ++ [e]
    /\ cell e "action" = Str (py "create")
    /\ cell e "user_initials" = Str (initials_or_role initials role)
    /\ (forall c, c ∈ PATIENT_COLUMNS -> c <> "Last Updated" ->
                  values c (load_data (backend w')).1
                  = map (medium_cell (backend w)) (values c (p_df w'))).
Proof.
  intros [Hcols Hb] Hname Htruthy Hfresh.
  assert (columns (p_df w) <> []) as Hc by (rewrite Hcols; discriminate).
  unfold quick_add_submitted.
  replace (Py.truthy (Py.strip qa_name)) with true
    by (destruct (Py.strip qa_name); [congruence | reflexivity]).
  cbn [negb].
  unfold bind at 1, _new_uid at 1. unfold bind at 1, _now_iso at 1.
  cbn [now now_calls backend p_df uuid4 uuid_calls]. unfold bind at 1.
  match goal with
  | |- context [upsert_patient ?record ?role ?ini ?w1] =>
      destruct (upsert_spec record role ini w1 Hc)
        as (w' & action & r' & Hrun & Hcells & Hcase & _ & _ & _ & Hworld & _
            & e & Hlog & He);
      set (rec := record) in *
  end.
  assert (rec !! "uid" = Some (uuid4 w (uuid_calls w))) as Huid
    by (unfold rec; apply lookup_insert_eq).
  cbn [now now_calls backend p_df uuid4 uuid_calls] in *.
  rewrite (resolved_uid_given rec _ _ Huid Htruthy) in *.
  rewrite (with_uid_nil_first_index _ _ Hfresh) in Hcase.
  assert (Hcells' : forall c, c ∈ PATIENT_COLUMNS ->
            cell r' c
            = Str (getitem
                     (<["Last Updated" := now w (S (now_calls w))]>
                        (<["uid" := uuid4 w (uuid_calls w)]> rec)) c)).
  { intros c Hin. rewrite (Hcells c Hin).
    rewrite (with_uid_nil_first_index _ _ Hfresh). reflexivity. }
  clear Hcells. rename Hcells' into Hcells.
  destruct Hcase as (-> & Hrows & _).
  destruct Hworld as (Hnow & _ & _ & Hcalls).
  rewrite Huid in Hcalls. cbn [default from_option id] in Hcalls.
  rewrite Htruthy in Hcalls.
  cbn [Nat.add] in Hcalls.
  destruct (He Hb) as (_ & _ & Hini & Hact & _).
  match type of Hrun with
  | upsert_patient ?rc ?ro ?ini ?w1 = _ =>
      pose proof (upsert_reloaded rc ro ini w1 (conj Hcols Hb)) as Hre
  end.
  rewrite Hrun in Hre. cbn [snd backend] in Hre.
  rewrite Hrun. exists w', r', e.
  split; [reflexivity|]. split; [exact Hrows|]. split; [exact Hcalls|].
  split; [exact Hnow|].
  split; [rewrite Hcells by in_columns; reflexivity|].
  split; [rewrite Hcells by in_columns; reflexivity|].
  split; [rewrite Hcells by in_columns; reflexivity|].
  split; [rewrite Hcells by in_columns; reflexivity|].
  split; [rewrite Hcells by in_columns; reflexivity|].
  split; [rewrite Hcells by in_columns; reflexivity|].
  split; [rewrite Hcells by in_columns; reflexivity|].
  split; [rewrite Hcells by in_columns; reflexivity|].
  split; [rewrite Hcells by in_columns; reflexivity|].
  split.
  { intros c Hin.
    repeat (apply elem_of_cons in Hin as [->|Hin];
            [rewrite Hcells by in_columns; reflexivity|]).
    inversion Hin. }
  split; [exact Hlog|]. split; [exact Hact|]. split; [exact Hini | exact Hre].
Qed.

(** X5: a quick add with a name that is not blank draws one identifier
    and, that identifier being new to the store, appends exactly one row:
    stripped name and numbers, priority Medium, status Active, the other
    text columns empty; the audit log gains one [create] row.  A blank
    name changes nothing at all. *)
Theorem quick_add_appends_a_default_record (w : World)
  (qa_name qa_hosp qa_nhs qa_dob qa_reason role initials : pystr) :
  store_ready w ->
  Py.truthy (uuid4 w (uuid_calls w)) = true ->
  with_uid (uuid4 w (uuid_calls w)) (p_df w) = [] ->
  (Py.strip qa_name = [] ->
   quick_add_submitted qa_name qa_hosp qa_nhs qa_dob qa_reason role initials w
   = (Ok (st_error (py "Name is required.")), w))
  /\ (Py.strip qa_name <> [] ->
      exists w' r' e,
        quick_add_submitted qa_name qa_hosp qa_nhs qa_dob qa_reason role initials w
        = (Ok (st_success (py "Patient added.")), w')
        /\ rows (p_df w') = rows (p_df w) ++ [r']
        /\ uuid_calls w' = S (uuid_calls w)
        /\ cell r' "uid" = Str (uuid4 w (uuid_calls w))
        /\ cell r' "Patient Name" = Str (Py.strip qa_name)
        /\ cell r' "Hospital Number" = Str (Py.strip qa_hosp)
        /\ cell r' "NHS Number" = Str (Py.strip qa_nhs)
        /\ cell r' "Date of Birth" = Str qa_dob
        /\ cell r' "Reason for Admission" = Str (Py.strip qa_reason)
        /\ cell r' "Priority" = Str (py "Medium")
        /\ cell r' "Status" = Str (py "Active")
        /\ (forall c,
              c ∈ ["Ward/Bed"; "PMH/PSH/DH"; "Progress"; "Jobs"; "Assigned To"] ->
              cell r' c = Str (py ""))
        /\ audit_log (backend w') = audit_log (backend w) ++ [e]
        /\ cell e "action" = Str (py "create")).
Proof.
  intros Hready Htruthy Hfresh. split.
  - intros Hname. unfold quick_add_submitted. rewrite Hname. reflexivity.
  - intros Hname.
    destruct (quick_add_spec w qa_name qa_hosp qa_nhs qa_dob qa_reason role
                initials Hready Hname Htruthy Hfresh)
      as (w' & r' & e & H1 & H2 & H3 & _ & H5 & H6 & H7 & H8 & H9 & H10 & H11
          & H12 & _ & H14 & H15 & H16 & _).
    exists w', r', e. repeat (split; [assumption|]). assumption.
Qed.

Lemma board_without_ward (q : pystr) (only_active : bool)
  (priority_filter : list pystr) (df : DataFrame) :
  board q only_active priority_filter (py "") df
  = Ok (stable_sort (filtered_view q only_active priority_filter (py "") df)).
Proof. reflexivity. Qed.

Lemma default_filters_pass (df : DataFrame) (r : row) :
  In r (rows df) ->
  cell r "Status" = Str (py "Active") ->
  cell r "Priority" = Str (py "Medium") ->
  In r (filtered_view (py "") true [py "High"; py "Medium"; py "Low"] (py "") df).
Proof.
  intros Hin Hstatus Hprio. unfold filtered_view.
  change (Py.truthy (py "")) with false. cbn iota.
  apply filter_In. split.
  - apply filter_In. split; [exact Hin|].
    rewrite Hstatus. cbn [is_active]. rewrite lower_Active.
    apply bool_decide_eq_true. reflexivity.
  - rewrite Hprio. cbn [priority_isin]. apply bool_decide_eq_true.
    apply elem_of_cons. right. constructor.
Qed.

(** X6: the patient a quick add has just appended passes the default
    filters (active only, the three priorities, no search text, no ward) of
    the view computed later in the same run; and at the next run, which
    reloads the table from the medium, the board is drawn without error
    and holds a row with the new uid. *)
Theorem quick_added_patient_is_on_the_default_board (w : World)
  (qa_name qa_hosp qa_nhs qa_dob qa_reason role initials : pystr) :
  store_ready w ->
  Py.strip qa_name <> [] ->
  Py.truthy (uuid4 w (uuid_calls w)) = true ->
  with_uid (uuid4 w (uuid_calls w)) (p_df w) = [] ->
  (exists r',
     In r' (filtered_view (py "") true [py "High"; py "Medium"; py "Low"] (py "")
              (p_df (quick_add_submitted qa_name qa_hosp qa_nhs qa_dob qa_reason
                       role initials w).2))
     /\ cell r' "uid" = Str (uuid4 w (uuid_calls w))
     /\ cell r' "Patient Name" = Str (Py.strip qa_name))
  /\ (exists out r'',
        board (py "") true [py "High"; py "Medium"; py "Low"] (py "")
          (load_data
             (backend (quick_add_submitted qa_name qa_hosp qa_nhs qa_dob qa_reason
                         role initials w).2)).1
        = Ok out
        /\ In r'' out
        /\ cell r'' "uid" = Str (uuid4 w (uuid_calls w))).
Proof.
  intros Hready Hname Htruthy Hfresh.
  destruct (quick_add_spec w qa_name qa_hosp qa_nhs qa_dob qa_reason role
              initials Hready Hname Htruthy Hfresh)
    as (w' & r' & e & Hrun & Hrows & _ & _ & Huid & Hnm & _ & _ & _ & _ & Hprio
        & Hstatus & _ & _ & _ & _ & _ & Hre).
  rewrite Hrun. cbn [snd].
  assert (rows (p_df w') !! length (rows (p_df w)) = Some r') as Hlast.
  { rewrite Hrows, lookup_app_r by lia. rewrite Nat.sub_diag. reflexivity. }
  split.
  - exists r'. split; [|split; assumption].
    apply default_filters_pass; [|assumption..].
    apply list_elem_of_In. eapply list_elem_of_lookup_2. exact Hlast.
  - destruct (reloaded_row_of _ _ _ _ _ Hre Hlast) as (r'' & Hr'' & Hcells).
    rewrite board_without_ward. eexists _, r''. split; [reflexivity|].
    split.
    + eapply Permutation_in; [apply stable_sort_Permutation|].
      apply default_filters_pass.
      * apply list_elem_of_In. eapply list_elem_of_lookup_2. exact Hr''.
      * rewrite Hcells by (try discriminate; in_columns). rewrite Hstatus. 
        apply medium_cell_str. reflexivity.
      * rewrite Hcells by (try discriminate; in_columns). rewrite Hprio.
        apply medium_cell_str. reflexivity.
    + rewrite Hcells by (try discriminate; in_columns). rewrite Huid.
      apply medium_cell_str. reflexivity.
Qed.

(** ** The open jobs of the whole view *)

(** X8: the loop over the view lists the open jobs row by row in the order
    of the view, and within a row in the order of the lines, provided the
    Jobs cell of every row is a string; a single row whose Jobs cell is a
    missing value (or anything but a string) makes the whole loop raise
    [AttributeError], whatever the other rows hold. *)
Theorem pending_loop_over_the_view (view pending : list row) :
  (Forall (fun r => is_str (cell r "Jobs") = true) view ->
   pending_loop pending view
   = Ok (pending
         ++ flat_map
              (fun r =>
                 match cell r "Jobs" with
                 | Str jtxt =>
                     map (fun line => pending_entry r (task_of_line line))
                       (List.filter is_open_line (Py.splitlines jtxt))
                 | _ => []
                 end) view))
  /\ (Exists (fun r => is_str (cell r "Jobs") = false) view ->
      pending_loop pending view = Raise AttributeError).
Proof.
  split; [apply pending_loop_open_lines|].
  intros H. revert pending.
  induction view as [|r view IH]; intros pending; [inversion H|].
  cbn [pending_loop]. unfold pending_of_row.
  destruct (cell r "Jobs") as [jtxt| | |] eqn:E; try reflexivity.
  apply IH. inversion H as [? ? Hr | ? ? Hv]; subst; [|exact Hv].
  rewrite E in Hr. discriminate.
Qed.

(** ** Discharging again *)

Lemma discharge_clock (w : World) (uid role initials : pystr) :
  with_uid uid (p_df w) <> [] ->
  columns (p_df w) <> [] ->
  now_calls (discharge_patient uid role initials w).2 = S (S (now_calls w))
  /\ now (discharge_patient uid role initials w).2 = now w
  /\ uuid_calls (discharge_patient uid role initials w).2 = uuid_calls w
  /\ uuid4 (discharge_patient uid role initials w).2 = uuid4 w.
Proof.
  intros Hu Hcols.
  destruct (with_uid_first_index _ _ Hu) as (idx & r & Hidx & _).
  assert (empty (p_df w) = false) as Hne
    by (apply (not_empty_with_uid uid); assumption).
  assert (isin (Str uid) (values "uid" (p_df w)) = true) as Hin
    by (apply isin_first_index; rewrite Hidx; eauto).
  destruct (discharge_patient uid role initials w) as [res w'] eqn:Hrun.
  cbn [snd]. revert Hrun.
  unfold discharge_patient, bind at 1, get_p_df at 1.
  rewrite Hne, Hin, Hidx. cbn [orb negb].
  unfold bind, set_p_df, _now_iso, get_p_df, ret.
  cbn [now now_calls backend p_df uuid4 uuid_calls].
  match goal with
  | |- context [_write_patients ?df ?w0] =>
      destruct (write_patients_spec df w0) as (b1 & E1 & _); rewrite E1
  end.
  cbn [with_backend now now_calls backend p_df uuid4 uuid_calls] in *.
  match goal with
  | |- context [_append_audit ?d ?w0] =>
      destruct (append_audit_spec d w0) as (b2 & e & E2 & _); rewrite E2
  end.
  intros Hrun. inversion Hrun; subst res w'. clear Hrun.
  cbn [with_backend now now_calls backend p_df uuid4 uuid_calls].
  split; [reflexivity|]. split; [reflexivity|]. split; reflexivity.
Qed.

(** X9: [discharge_patient] does not look at the status: discharging a
    patient a second time returns [True] again, reads the clock again for
    Last Updated (stored as a timestamp in a datetime column, as the ISO
    string otherwise), leaves every other cell of the row and every other
    row as they were before the first call, and adds a second [discharge]
    event to the audit log. *)
Theorem discharge_again_is_recorded_again
  (w : World) (uid role initials role' initials' : pystr) :
  store_ready w ->
  with_uid uid (p_df w) <> [] ->
  exists idx r r2 e1 e2 w2,
    discharge_patient uid role' initials'
      (discharge_patient uid role initials w).2 = (Ok true, w2)
    /\ rows (p_df w) !! idx = Some r
    /\ rows (p_df w2) !! idx = Some r2
    /\ cell r2 "Status" = Str (py "Discharged")
    /\ (Forall (fun r => is_datetime (cell r "Last Updated") = true)
          (rows (p_df w)) ->
        forall t1 t2,
          pd_Timestamp (now w (now_calls w)) = Some t1 ->
          pd_Timestamp (now w (S (S (now_calls w)))) = Some t2 ->
          cell r2 "Last Updated" = Timestamp t2)
    /\ (~ Forall (fun r => is_datetime (cell r "Last Updated") = true)
            (rows (p_df w)) ->
        cell r2 "Last Updated" = Str (now w (S (S (now_calls w)))))
    /\ (forall c, c <> "Status" -> c <> "Last Updated" -> cell r2 c = cell r c)
    /\ (forall j, j <> idx -> rows (p_df w2) !! j = rows (p_df w) !! j)
    /\ audit_log (backend w2) = audit_log (backend w) ++ [e1; e2]
    /\ cell e1 "action" = Str (py "discharge")
    /\ cell e2 "action" = Str (py "discharge")
    /\ cell e1 "user_initials" = Str initials
    /\ cell e2 "user_initials" = Str initials'.
Proof.
  intros Hready Hu.
  assert (columns (p_df w) <> []) as Hc
    by (destruct Hready as [-> _]; discriminate).
  destruct (discharge_clock w uid role initials Hu Hc) as (Hn & Hnow & _).
  destruct (discharge_step uid role initials w Hready) as (Hready1 & _).
  destruct (discharge_spec w uid role initials Hready Hu)
    as (idx & r & w1 & Hrun & Hr & Hruid & Hfirst & Hr1 & Hothers & _ & _ & _
        & e1 & Hlog1 & Hact1 & _ & _ & _ & _ & Hini1 & _).
  rewrite Hrun in *. cbn [snd] in *.
  set (lu1 := clock_cell (p_df w) (now w (now_calls w))) in *.
  set (r1 := <["Last Updated" := lu1]>
               (<["Status" := Str (py "Discharged")]> r)) in *.
  assert (cell r1 "uid" = Str uid) as Hr1uid.
  { unfold cell, r1. rewrite !lookup_insert_ne by discriminate. exact Hruid. }
  assert (with_uid uid (p_df w1) <> []) as Hu1.
  { unfold with_uid. intros E.
    assert (r1 ∈ filter (fun r => value_eqb (cell r "uid") (Str uid) = true)
                   (rows (p_df w1))) as Hin.
    { apply list_elem_of_filter. split.
      - rewrite Hr1uid. apply value_eqb_Str. reflexivity.
      - eapply list_elem_of_lookup_2. exact Hr1. }
    rewrite E in Hin. inversion Hin. }
  destruct (discharge_spec w1 uid role' initials' Hready1 Hu1)
    as (idx' & r1' & w2 & Hrun2 & Hr1' & Hr1'uid & Hfirst' & Hr2 & Hothers' & _ & _ & _
        & e2 & Hlog2 & Hact2 & _ & _ & _ & _ & Hini2 & _).
  assert (idx' = idx) as ->.
  { destruct (Nat.lt_trichotomy idx' idx) as [Hlt|[Heq|Hgt]]; [|exact Heq|].
    - exfalso. rewrite Hothers in Hr1' by lia.
      exact (Hfirst idx' r1' Hlt Hr1' Hr1'uid).
    - exfalso. exact (Hfirst' idx r1 Hgt Hr1 Hr1uid). }
  rewrite Hr1 in Hr1'. inversion Hr1'; subst r1'.
  assert (rows (p_df w) <> []) as Hne
    by (intros E; rewrite E in Hr; discriminate).
  assert (rows (p_df w1) <> []) as Hne1
    by (intros E; rewrite E in Hr1; discriminate).
  destruct (clock_cell_cases (p_df w) (now w (now_calls w)) Hne) as (K1 & _ & K3).
  destruct (clock_cell_cases (p_df w1) (now w1 (now_calls w1)) Hne1) as (L1 & _ & L3).
  rewrite Hnow, Hn in L1, L3, Hr2.
  eexists idx, r, _, e1, e2, w2.
  split; [exact Hrun2|]. split; [exact Hr|]. split; [exact Hr2|].
  split; [unfold cell; rewrite lookup_insert_ne by discriminate;
          rewrite lookup_insert_eq; reflexivity|].
  split.
  { intros Hall t1 t2 E1 E2. unfold cell. rewrite lookup_insert_eq. cbn.
    apply L1; [|exact E2].
    apply Forall_lookup. intros j x Hj. destruct (decide (j = idx)) as [->|Hj'].
    - rewrite Hr1 in Hj. inversion Hj; subst x.
      unfold cell, r1. rewrite lookup_insert_eq. cbn. unfold lu1.
      rewrite (K1 Hall t1 E1). reflexivity.
    - rewrite Hothers in Hj by exact Hj'.
      rewrite Forall_lookup in Hall. exact (Hall j x Hj). }
  split.
  { intros Hmixed. unfold cell. rewrite lookup_insert_eq. cbn.
    apply L3. intros Hall1. apply Hmixed.
    rewrite Forall_lookup in Hall1.
    pose proof (Hall1 idx r1 Hr1) as Hidx.
    unfold cell, r1 in Hidx. rewrite lookup_insert_eq in Hidx. cbn in Hidx.
    unfold lu1 in Hidx.
    destruct (decide (Forall (fun r => is_datetime (cell r "Last Updated") = true)
                        (rows (p_df w)))) as [Hall|Hnot]; [exact Hall|].
    rewrite (K3 Hnot) in Hidx. discriminate Hidx. }
  split.
  { intros c H1 H2. unfold cell, r1. rewrite !lookup_insert_ne by congruence.
    reflexivity. }
  split; [intros j Hj; rewrite Hothers', Hothers by exact Hj; reflexivity|].
  split; [rewrite Hlog2, Hlog1, <- app_assoc; reflexivity|].
  repeat (split; [assumption|]). assumption.
Qed.

(** ** The record opened for editing *)

(** X7: the record the edit form opens for a name is the first row of the
    table with that name: no row with another name stands before it, so a
    later namesake is never the one opened.  A name no row carries raises. *)
Theorem selected_record_is_the_first_namesake (selection : pystr) (df : DataFrame) :
  (forall r,
     selected_record selection df = Ok r ->
     exists i,
       rows df !! i = Some r
       /\ cell r "Patient Name" = Str selection
       /\ forall j r0, j < i -> rows df !! j = Some r0 ->
                       cell r0 "Patient Name" <> Str selection)
  /\ (selected_record selection df = Raise IndexError <->
      forall r, In r (rows df) -> cell r "Patient Name" <> Str selection).
Proof.
  unfold selected_record.
  induction (rows df) as [|r0 rs [IH1 IH2]]; cbn [List.filter].
  - split; [discriminate|]. split; [intros _ r []| reflexivity].
  - destruct (value_eqb (cell r0 "Patient Name") (Str selection)) eqn:E.
    + split.
      * intros r H. inversion H; subst r. exists 0.
        split; [reflexivity|]. split; [apply value_eqb_true; exact E|].
        intros j r1 Hj. lia.
      * split; [discriminate|]. intros H. exfalso.
        apply (H r0); [left; reflexivity | apply value_eqb_true; exact E].
    + assert (cell r0 "Patient Name" <> Str selection) as Hne.
      { intros Heq. rewrite Heq in E. cbn in E.
        rewrite bool_decide_eq_true_2 in E by reflexivity. discriminate. }
      split.
      * intros r H. destruct (IH1 r H) as (i & Hi & Hn & Hfirst).
        exists (S i). split; [exact Hi|]. split; [exact Hn|].
        intros [|j] r1 Hj Hl; cbn in Hl.
        -- inversion Hl; subst r1. exact Hne.
        -- apply (Hfirst j); [lia | exact Hl].
      * rewrite IH2. split.
        -- intros H r [<-|Hr]; [exact Hne | apply H, Hr].
        -- intros H r Hr. apply H. right. exact Hr.
Qed.

(** ** No row is ever removed *)

(** X10: no operation of a run removes a patient: any sequence of upserts
    and discharges leaves the uid column of the table as it was, followed
    by the uids of the rows created since.  A discharge only flags its
    row, an update overwrites it in place; the table never gets shorter. *)
Theorem no_operation_removes_a_patient (w : World) (os : list op) :
  store_ready w ->
  one_run os ->
  (exists new,
     values "uid" (p_df (run_ops os w)) = values "uid" (p_df w) ++ new)
  /\ length (rows (p_df w)) <= length (rows (p_df (run_ops os w))).
Proof.
  intros Hready Hrun.
  destruct (one_run_steps os w Hready Hrun) as (_ & [new Hnew] & _).
  split; [exists new; exact Hnew|].
  apply (f_equal (@length value)) in Hnew. unfold values in Hnew.
  rewrite length_app, !length_map in Hnew. lia.
Qed.

(** ** The backend the script starts with *)

Lemma get_or_create_ws_spec (sh : gmap string Worksheet) (title : string)
  (header : list string) :
  header_calls title = CallsReturn ->
  ws_header (get_or_create_ws sh title header) = header
  /\ ws_body (get_or_create_ws sh title header)
     = default [] (ws_body <$> sh !! title).
Proof.
  intros Hok. unfold get_or_create_ws. rewrite Hok.
  destruct (sh !! title) as [ws|]; cbn [default from_option fmap option_fmap option_map id].
  - destruct (bool_decide (ws_header ws = header)) eqn:E.
    + apply bool_decide_eq_true in E. split; [exact E | reflexivity].
    + split; reflexivity.
  - rewrite bool_decide_eq_true_2 by reflexivity. split; reflexivity.
Qed.

(** X11: [_init_backend] returns worksheets only when the optional
    imports succeed, the service account and the spreadsheet URL are both
    true values and the spreadsheet opens; without the imports, with no
    spreadsheet URL in the secrets or in the environment, or when the
    spreadsheet does not open, it falls back to the two local CSV files.
    When it returns worksheets and the calls of the header check return
    for both, the two worksheets carry the patient and the audit header
    and keep the rows they had below their first row; a header check that
    raises is passed over, and nothing is then known of the first row. *)
Theorem init_backend_selects_and_repairs (gspread : bool)
  (secrets : option (gmap pystr (pyvalue pyobj)))
  (environ : gmap pystr pystr) (LOCAL_PATIENTS_CSV LOCAL_AUDIT_CSV : CsvFile) :
  let creds_info := load_service_account_from_sources secrets environ in
  let sheet_url := safe_get_secret secrets environ (py "SPREADSHEET_URL") PyNone in
  let b :=
    _init_backend gspread secrets environ LOCAL_PATIENTS_CSV LOCAL_AUDIT_CSV in
  (forall p_ws a_ws,
     b = sheets p_ws a_ws ->
     gspread = true /\ truthy creds_info = true /\ truthy sheet_url = true
     /\ exists sh,
          open_by_url creds_info sheet_url = Some sh
          /\ (header_calls "patients" = CallsReturn ->
              ws_header p_ws = PATIENT_COLUMNS
              /\ ws_body p_ws = default [] (ws_body <$> sh !! "patients"))
          /\ (header_calls "audit_log" = CallsReturn ->
              ws_header a_ws = AUDIT_COLUMNS
              /\ ws_body a_ws = default [] (ws_body <$> sh !! "audit_log"))
          /\ (header_calls "patients" = CheckRaises ->
              forall ws, sh !! "patients" = Some ws -> p_ws = ws))
  /\ (gspread = false -> b = csv LOCAL_PATIENTS_CSV LOCAL_AUDIT_CSV)
  /\ (open_by_url creds_info sheet_url = None ->
      b = csv LOCAL_PATIENTS_CSV LOCAL_AUDIT_CSV)
  /\ ((forall st_secrets, secrets = Some st_secrets ->
                          st_secrets !! py "SPREADSHEET_URL" = None) ->
      environ !! py "SPREADSHEET_URL" = None ->
      environ !! str_upper (py "SPREADSHEET_URL") = None ->
      b = csv LOCAL_PATIENTS_CSV LOCAL_AUDIT_CSV).
Proof.
  intros creds_info sheet_url b. unfold b, _init_backend.
  fold creds_info. fold sheet_url.
  split; [|split; [|split]].
  - intros p_ws a_ws H.
    destruct gspread; [|discriminate].
    split; [reflexivity|].
    destruct (truthy creds_info); [|discriminate].
    destruct (truthy sheet_url); [|discriminate].
    split; [reflexivity|]. split; [reflexivity|].
    cbn [andb] in H.
    destruct (open_by_url creds_info sheet_url) as [sh|]; [|discriminate].
    exists sh. split; [reflexivity|].
    inversion H.
    split; [intros Hok; apply get_or_create_ws_spec; exact Hok|].
    split; [intros Hok; apply get_or_create_ws_spec; exact Hok|].
    intros Hraise ws Hws. unfold get_or_create_ws. rewrite Hraise, Hws.
    reflexivity.
  - intros ->. reflexivity.
  - intros ->. destruct (gspread && truthy creds_info && truthy sheet_url);
      reflexivity.
  - intros Hs He Hu.
    assert (sheet_url = PyNone) as ->.
    { unfold sheet_url, safe_get_secret.
      assert (match secrets with
              | Some st_secrets => st_secrets !! py "SPREADSHEET_URL"
              | None => None
              end = None) as ->
        by (destruct secrets as [st|]; [apply Hs|]; reflexivity).
      rewrite He, Hu. reflexivity. }
    cbn [truthy]. rewrite andb_false_r. reflexivity.
Qed.

(** X13: with no secrets store, the two environment variables alone
    select the worksheets: a service-account JSON that parses to a true
    value, a spreadsheet URL that is not empty, and a spreadsheet that
    opens.  An entry for the URL in the secrets, even an empty one, hides
    the environment variable: the backend is then the local CSV files. *)
Theorem environment_alone_selects_the_sheets
  (environ : gmap pystr pystr) (json url : pystr) (creds : pyvalue pyobj)
  (sh : gmap string Worksheet) (LOCAL_PATIENTS_CSV LOCAL_AUDIT_CSV : CsvFile) :
  environ !! py "GCP_SERVICE_ACCOUNT_JSON" = Some json ->
  Py.truthy json = true ->
  json_loads json = Some creds ->
  truthy creds = true ->
  environ !! py "SPREADSHEET_URL" = Some url ->
  Py.truthy url = true ->
  open_by_url creds (PyStr url) = Some sh ->
  _init_backend true None environ LOCAL_PATIENTS_CSV LOCAL_AUDIT_CSV
  = sheets (get_or_create_ws sh "patients" PATIENT_COLUMNS)
      (get_or_create_ws sh "audit_log" AUDIT_COLUMNS)
  /\ forall st_secrets,
       st_secrets !! py "SPREADSHEET_URL" = Some (PyStr (py "")) ->
       _init_backend true (Some st_secrets) environ
         LOCAL_PATIENTS_CSV LOCAL_AUDIT_CSV
       = csv LOCAL_PATIENTS_CSV LOCAL_AUDIT_CSV.
Proof.
  intros Hjson Htj Hloads Htc Hurl Htu Hopen. split.
  - unfold _init_backend, load_service_account_from_sources, safe_get_secret.
    rewrite Hjson, Htj, Hloads, Hurl. cbn [getenv_or]. rewrite Htu, Htc.
    cbn [truthy andb]. rewrite Htu, Hopen. reflexivity.
  - intros st_secrets Hs.
    unfold _init_backend, safe_get_secret. rewrite Hs.
    cbn [truthy]. change (Py.truthy (py "")) with false.
    rewrite andb_false_r. reflexivity.
Qed.

End Store.

(** * The properties on concrete stores *)

Lemma no_dates_length (series : list value) :
  length (Example.no_dates series) = length series.
Proof. apply length_map. Qed.

Lemma no_dates_coerce (series : list value) :
  Forall (fun v => is_datetime v = true) (Example.no_dates series).
Proof. unfold Example.no_dates. apply Forall_fmap, Forall_true. reflexivity. Qed.

Lemma load_data_fills_missing_columns_witness :
  (forall series, length (Example.no_dates series) = length series)
  /\ (forall series,
        Forall (fun v => is_datetime v = true) (Example.no_dates series))
  /\ Forall2
       (fun r r' =>
          (forall c, c ∈ PATIENT_COLUMNS -> c <> "Last Updated" ->
             cell r' c = if bool_decide (c ∈ columns Example.old_table)
                         then cell r c else Str (py ""))
          /\ is_datetime (cell r' "Last Updated") = true)
       (rows Example.old_table)
       (rows (load_data Example.no_dates
                (csv (Table Example.old_table) Absent)).1).
Proof.
  split; [exact no_dates_length|]. split; [exact no_dates_coerce|].
  apply (load_data_fills_missing_columns Example.no_dates
           no_dates_length no_dates_coerce Example.old_table Absent
           (mkWorksheet [] []) (mkWorksheet [] [])).
Defined.

Lemma discharge_unknown_uid_witness :
  with_uid (py "nope") (p_df Example.with_ann) = []
  /\ discharge_patient Example.stamp Example.isoparse (py "nope") (py "Doctor") (py "AB")
       Example.with_ann
     = (Ok false, Example.with_ann).
Proof.
  assert (with_uid (py "nope") (p_df Example.with_ann) = []) as H
    by (vm_compute; reflexivity).
  split; [exact H|].
  apply (discharge_unknown_uid Example.no_dates Example.stamp Example.isoparse
           Example.with_ann (py "nope") (py "Doctor") (py "AB") H).
Defined.

Lemma discharge_known_uid_witness :
  store_ready Example.with_ann_on_sheets
  /\ with_uid (py "u1") (p_df Example.with_ann_on_sheets) <> []
  /\ exists w' r' line,
       discharge_patient Example.isoformat Example.isoparse (py "u1") (py "Nurse")
         (py "CD") Example.with_ann_on_sheets
       = (Ok true, w')
       /\ rows (p_df w') = [r']
       /\ cell r' "Status" = Str (py "Discharged")
       /\ cell r' "Last Updated" = Timestamp 1714557600
       /\ cell r' "Patient Name" = Str (py "Ann")
       /\ stored_patients (backend w') = [line]
       /\ line !! 12 = Some (Str (py "Discharged"))
       /\ line !! 13 = Some (Str (py "2024-05-01 10:00:00"))
       /\ length (audit_log Example.no_dates (backend w')) = 1.
Proof.
  assert (store_ready Example.with_ann_on_sheets) as Hready
    by (split; [reflexivity | split; reflexivity]).
  assert (with_uid (py "u1") (p_df Example.with_ann_on_sheets) <> []) as Hin
    by (apply with_uid_not_nil; vm_compute; reflexivity).
  split; [exact Hready|]. split; [exact Hin|].
  destruct (discharge_known_uid Example.no_dates Example.isoformat Example.isoparse
              Example.with_ann_on_sheets (py "u1") (py "Nurse") (py "CD")
              Hready Hin)
    as (idx & r & lu & w' & Hrun & Hr & _ & _ & Hr' & K1 & _ & _ & _ & Hlen & _
        & Hstored & e & Hlog & _).
  destruct idx as [|idx]; [|destruct idx; discriminate Hr].
  injection Hr as <-.
  assert (lu = Timestamp 1714557600) as ->.
  { apply K1; [|vm_compute; reflexivity].
    constructor; [vm_compute; reflexivity | constructor]. }
  change (length (rows (p_df Example.with_ann_on_sheets))) with 1 in Hlen.
  assert (rows (p_df w')
          = [<["Last Updated" := Timestamp 1714557600]>
               (<["Status" := Str (py "Discharged")]> Example.ann)]) as Hrows.
  { destruct (rows (p_df w')) as [|x [|y l]];
      [discriminate Hr' | injection Hr' as ->; reflexivity | discriminate Hlen]. }
  eexists w', _, _. split; [exact Hrun|]. split; [exact Hrows|].
  split; [vm_compute; reflexivity|]. split; [vm_compute; reflexivity|].
  split; [vm_compute; reflexivity|].
  split; [rewrite Hstored, Hrows; cbn [map]; reflexivity|].
  split; [vm_compute; reflexivity|]. split; [vm_compute; reflexivity|].
  rewrite Hlog. vm_compute. reflexivity.
Defined.


Lemma upsert_unknown_uid_creates_witness :
  store_ready Example.with_ann
  /\ Example.with_uid_x9 !! "uid" = Some (py "x9")
  /\ Py.truthy (py "x9") = true
  /\ with_uid (py "x9") (p_df Example.with_ann) = []
  /\ exists w' r',
       upsert_patient Example.stamp Example.isoparse Example.with_uid_x9 (py "Doctor") (py "AB")
         Example.with_ann
       = (Ok (py "x9"), w')
       /\ uuid_calls w' = 0
       /\ rows (p_df w') = [Example.ann; r']
       /\ cell r' "uid" = Str (py "x9").
Proof.
  assert (store_ready Example.with_ann) as H1 by (split; [reflexivity | exact I]).
  assert (Example.with_uid_x9 !! "uid" = Some (py "x9")) as H2
    by (vm_compute; reflexivity).
  assert (Py.truthy (py "x9") = true) as H3 by reflexivity.
  assert (with_uid (py "x9") (p_df Example.with_ann) = []) as H4
    by (vm_compute; reflexivity).
  repeat (split; [assumption|]).
  destruct (upsert_unknown_uid_creates Example.no_dates Example.stamp Example.isoparse
              Example.with_ann Example.with_uid_x9 (py "Doctor") (py "AB") (py "x9")
              H1 H2 H3 H4)
    as (w' & r' & e & Hrun & Hcalls & Hrows & Huid & _).
  exists w', r'. repeat split; assumption.
Defined.


Lemma audit_log_append_only_witness :
  store_ready Example.fresh
  /\ (exists uid,
        (upsert_patient Example.stamp Example.isoparse Example.named (py "Doctor") (py "AB")
           Example.fresh).1 = Ok uid
        /\ length (audit_log Example.no_dates
                     (backend (upsert_patient Example.stamp Example.isoparse Example.named
                                 (py "Doctor") (py "AB") Example.fresh).2)) = 1)
  /\ length (audit_log Example.no_dates (backend Example.fresh))
     <= length (audit_log Example.no_dates
                  (backend (run_ops Example.no_dates Example.stamp Example.isoparse
                              [ Upsert Example.named (py "Doctor") (py "AB");
                                Discharge (py "uuid-0") (py "Nurse") (py "CD");
                                Reload ]
                              Example.fresh))).
Proof.
  assert (store_ready Example.fresh) as H0 by (split; [reflexivity | exact I]).
  split; [exact H0|].
  destruct (audit_log_append_only Example.no_dates Example.stamp Example.isoparse Example.fresh H0)
    as (Hup & _ & Hops).
  split.
  - destruct (Hup Example.named (py "Doctor") (py "AB")) as (uid & e & Hok & _ & Hlen).
    exists uid. split; [exact Hok | exact Hlen].
  - destruct (Hops [ Upsert Example.named (py "Doctor") (py "AB");
                     Discharge (py "uuid-0") (py "Nurse") (py "CD");
                     Reload ]) as (es & _ & Hle).
    exact Hle.
Defined.

Lemma name_is_required_by_the_form_witness :
  store_ready Example.fresh
  /\ edit_form_submitted Example.stamp Example.isoparse ∅ (py "   ") (py "") (py "") (py "")
       (py "") (py "") (py "Medium") (py "Active") (py "") (py "") (py "")
       (py "") (py "Doctor") (py "AB") Example.fresh
     = (Ok (st_error (py "Patient name is required.")), Example.fresh)
  /\ exists w' r',
       edit_form_submitted Example.stamp Example.isoparse ∅ (py " Dee ") (py "") (py "") (py "")
         (py "") (py "") (py "Medium") (py "Active") (py "") (py "") (py "")
         (py "") (py "Doctor") (py "AB") Example.fresh
       = (Ok (st_success (py "Saved.")), w')
       /\ r' ∈ rows (p_df w')
       /\ cell r' "Patient Name" = Str (py "Dee").
Proof.
  assert (store_ready Example.fresh) as H0 by (split; [reflexivity | exact I]).
  split; [exact H0|].
  destruct (name_is_required_by_the_form Example.no_dates Example.stamp Example.isoparse
              Example.fresh H0) as (_ & Hreject & Haccept).
  split.
  - apply Hreject. vm_compute. reflexivity.
  - destruct (Haccept ∅ (py " Dee ") (py "") (py "") (py "") (py "") (py "")
                (py "Medium") (py "Active") (py "") (py "") (py "") (py "")
                (py "Doctor") (py "AB"))
      as (w' & r' & e & Hrun & Hin & Hname & _);
      [vm_compute; discriminate|].
    exists w', r'. split; [exact Hrun|]. split; [exact Hin|].
    rewrite Hname. vm_compute. reflexivity.
Defined.

Lemma view_is_sorted_stably_witness :
  exists out,
    sort_values Example.stamp
      [Example.ann; Example.bob; Example.cyd; Example.dee] = Ok out
    /\ Permutation [Example.ann; Example.bob; Example.cyd; Example.dee] out
    /\ map (fun r => cell r "Patient Name") out
       = [Str (py "Dee"); Str (py "Bob"); Str (py "Cyd"); Str (py "Ann")].
Proof.
  destruct (view_is_sorted_stably Example.stamp
              [Example.ann; Example.bob; Example.cyd; Example.dee])
    as (out & Hrun & Hperm & _).
  exists out. split; [exact Hrun|]. split; [exact Hperm|].
  apply (f_equal (fun res => match res with
                             | Ok o => map (fun r => cell r "Patient Name") o
                             | Raise _ => []
                             end)) in Hrun.
  rewrite <- Hrun. vm_compute. reflexivity.
Defined.

Lemma pending_jobs_are_the_open_lines_witness :
  cell Example.with_jobs "Jobs" = Str Example.checklist
  /\ pending_of_row [] Example.with_jobs
     = Ok [pending_entry Example.with_jobs (py "open task")].
Proof.
  assert (cell Example.with_jobs "Jobs" = Str Example.checklist) as H
    by (vm_compute; reflexivity).
  split; [exact H|].
  destruct (pending_jobs_are_the_open_lines Example.with_jobs Example.checklist [] H)
    as (Hrun & _).
  rewrite Hrun.
  replace (List.filter is_open_line (Py.splitlines Example.checklist))
    with [py "- [ ] open task"] by (vm_compute; reflexivity).
  cbn [map app]. replace (task_of_line (py "- [ ] open task")) with (py "open task")
    by (vm_compute; reflexivity).
  reflexivity.
Defined.

(** ** Further properties on concrete stores *)

Lemma lower_ascii (s : pystr) :
  Forall (fun c => Py.is_ascii c = true) s ->
  Example.lower s = map Py.ascii_lower s.
Proof. reflexivity. Qed.

Lemma parse_jobs_ignores_blanks_around_witness :
  Forall (fun c => Py.islinebreak c = false) (py "- [ ] call GP")
  /\ Forall (fun c => Py.isspace c = true /\ Py.islinebreak c = false) (py "  ")
  /\ Forall (fun c => Py.isspace c = true /\ Py.islinebreak c = false) (py " ")
  /\ parse_jobs (py "  " ++ py "- [ ] call GP" ++ py " ")
     = parse_jobs (py "- [ ] call GP").
Proof.
  assert (Forall (fun c => Py.islinebreak c = false) (py "- [ ] call GP")) as H1
    by (repeat constructor).
  assert (Forall (fun c => Py.isspace c = true /\ Py.islinebreak c = false)
            (py "  ")) as H2 by (repeat constructor).
  assert (Forall (fun c => Py.isspace c = true /\ Py.islinebreak c = false)
            (py " ")) as H3 by (repeat constructor).
  split; [exact H1|]. split; [exact H2|]. split; [exact H3|].
  exact (parse_jobs_ignores_blanks_around _ _ _ H1 H2 H3).
Defined.

Lemma selected_record_is_the_first_namesake_witness :
  selected_record (py "Ann") Example.namesakes = Ok Example.ann
  /\ exists i,
       rows Example.namesakes !! i = Some Example.ann
       /\ forall j r0, j < i -> rows Example.namesakes !! j = Some r0 ->
                       cell r0 "Patient Name" <> Str (py "Ann").
Proof.
  assert (selected_record (py "Ann") Example.namesakes = Ok Example.ann) as H.
  { unfold selected_record, Example.namesakes. cbn [rows List.filter].
    replace (value_eqb (cell Example.ann "Patient Name") (Str (py "Ann")))
      with true by (vm_compute; reflexivity).
    reflexivity. }
  split; [exact H|].
  destruct (proj1 (selected_record_is_the_first_namesake (py "Ann")
                     Example.namesakes) Example.ann H) as (i & Hi & _ & Hfirst).
  exists i. split; [exact Hi | exact Hfirst].
Defined.

Lemma discharged_patient_leaves_the_active_view_witness :
  store_ready Example.with_ann_on_sheets
  /\ uids_ok (p_df Example.with_ann_on_sheets)
  /\ (discharge_patient Example.stamp Example.isoparse (py "u1") (py "Nurse") (py "CD")
        Example.with_ann_on_sheets).1 = Ok true
  /\ forall r,
       In r (filtered_view Example.stamp Example.lower Example.any_ward
               (py "") true [] (py "")
               (load_data Example.no_dates
                  (backend
                     (discharge_patient Example.stamp Example.isoparse (py "u1") (py "Nurse")
                        (py "CD") Example.with_ann_on_sheets).2)).1) ->
       cell r "uid" <> Str (py "u1").
Proof.
  assert (store_ready Example.with_ann_on_sheets) as Hready
    by (split; [reflexivity | split; reflexivity]).
  assert (with_uid (py "u1") (p_df Example.with_ann_on_sheets) <> []) as Hin
    by (apply with_uid_not_nil; vm_compute; reflexivity).
  assert (uids_ok (p_df Example.with_ann_on_sheets)) as Hok
    by (split; [apply distinct_singleton | repeat constructor]).
  assert ((discharge_patient Example.stamp Example.isoparse (py "u1") (py "Nurse") (py "CD")
             Example.with_ann_on_sheets).1 = Ok true) as Htrue.
  { destruct (discharge_spec Example.no_dates Example.stamp Example.isoparse
                Example.with_ann_on_sheets (py "u1") (py "Nurse") (py "CD")
                Hready Hin) as (idx & r & w' & Hrun & _).
    rewrite Hrun. reflexivity. }
  split; [exact Hready|]. split; [exact Hok|]. split; [exact Htrue|].
  exact (discharged_patient_leaves_the_active_view Example.no_dates
           Example.stamp Example.isoparse Example.lower Example.any_ward lower_ascii
           Example.with_ann_on_sheets (py "u1") (py "Nurse") (py "CD") (py "")
           [] (py "") Hready Hok Htrue _ (or_intror eq_refl)).
Defined.

Lemma quick_add_appends_a_default_record_witness :
  store_ready Example.fresh
  /\ Py.truthy (uuid4 Example.fresh (uuid_calls Example.fresh)) = true
  /\ with_uid (uuid4 Example.fresh (uuid_calls Example.fresh))
       (p_df Example.fresh) = []
  /\ Py.strip (py " Dee ") <> []
  /\ exists w' r',
       quick_add_submitted Example.stamp Example.isoparse (py " Dee ") (py "H1") (py "")
         (py "01/02/1950") (py "epistaxis") (py "Doctor") (py "AB") Example.fresh
       = (Ok (st_success (py "Patient added.")), w')
       /\ rows (p_df w') = [r']
       /\ cell r' "uid" = Str (py "uuid-0")
       /\ cell r' "Patient Name" = Str (Py.strip (py " Dee "))
       /\ cell r' "Priority" = Str (py "Medium")
       /\ cell r' "Status" = Str (py "Active").
Proof.
  assert (store_ready Example.fresh) as H0 by (split; [reflexivity | exact I]).
  assert (Py.truthy (uuid4 Example.fresh (uuid_calls Example.fresh)) = true)
    as H1 by (vm_compute; reflexivity).
  assert (with_uid (uuid4 Example.fresh (uuid_calls Example.fresh))
            (p_df Example.fresh) = []) as H2 by reflexivity.
  assert (Py.strip (py " Dee ") <> []) as H3
    by (intros H; vm_compute in H; discriminate H).
  split; [exact H0|]. split; [exact H1|]. split; [exact H2|]. split; [exact H3|].
  destruct (proj2 (quick_add_appends_a_default_record Example.no_dates
                     Example.stamp Example.isoparse Example.fresh (py " Dee ") (py "H1") (py "")
                     (py "01/02/1950") (py "epistaxis") (py "Doctor") (py "AB")
                     H0 H1 H2) H3)
    as (w' & r' & e & Hrun & Hrows & _ & Huid & Hname & _ & _ & _ & _ & Hprio
        & Hstatus & _).
  exists w', r'. split; [exact Hrun|]. split; [exact Hrows|].
  split; [exact Huid|]. split; [exact Hname|]. split; [exact Hprio | exact Hstatus].
Defined.

Lemma quick_added_patient_is_on_the_default_board_witness :
  store_ready Example.fresh
  /\ Py.strip (py " Dee ") <> []
  /\ Py.truthy (uuid4 Example.fresh (uuid_calls Example.fresh)) = true
  /\ with_uid (uuid4 Example.fresh (uuid_calls Example.fresh))
       (p_df Example.fresh) = []
  /\ exists out r'',
       board Example.stamp Example.lower Example.any_ward (py "") true
         [py "High"; py "Medium"; py "Low"] (py "")
         (load_data Example.no_dates
            (backend
               (quick_add_submitted Example.stamp Example.isoparse (py " Dee ") (py "H1") (py "")
                  (py "01/02/1950") (py "epistaxis") (py "Doctor") (py "AB")
                  Example.fresh).2)).1
       = Ok out
       /\ In r'' out
       /\ cell r'' "uid" = Str (py "uuid-0").
Proof.
  assert (store_ready Example.fresh) as H0 by (split; [reflexivity | exact I]).
  assert (Py.truthy (uuid4 Example.fresh (uuid_calls Example.fresh)) = true)
    as H1 by (vm_compute; reflexivity).
  assert (with_uid (uuid4 Example.fresh (uuid_calls Example.fresh))
            (p_df Example.fresh) = []) as H2 by reflexivity.
  assert (Py.strip (py " Dee ") <> []) as H3
    by (intros H; vm_compute in H; discriminate H).
  split; [exact H0|]. split; [exact H3|]. split; [exact H1|]. split; [exact H2|].
  exact (proj2 (quick_added_patient_is_on_the_default_board Example.no_dates
                  Example.stamp Example.isoparse Example.lower
                  Example.any_ward lower_ascii Example.fresh (py " Dee ")
                  (py "H1") (py "") (py "01/02/1950") (py "epistaxis")
                  (py "Doctor") (py "AB") H0 H3 H1 H2)).
Defined.

Lemma discharge_again_is_recorded_again_witness :
  store_ready Example.with_ann_on_sheets
  /\ with_uid (py "u1") (p_df Example.with_ann_on_sheets) <> []
  /\ exists w2 r2,
       discharge_patient Example.isoformat Example.isoparse (py "u1")
         (py "Doctor") (py "AB")
         (discharge_patient Example.isoformat Example.isoparse (py "u1")
            (py "Nurse") (py "CD") Example.with_ann_on_sheets).2
       = (Ok true, w2)
       /\ rows (p_df w2) !! 0 = Some r2
       /\ cell r2 "Status" = Str (py "Discharged")
       /\ cell r2 "Last Updated" = Timestamp 1714557602
       /\ length (audit_log Example.no_dates (backend w2)) = 2.
Proof.
  assert (store_ready Example.with_ann_on_sheets) as Hready
    by (split; [reflexivity | split; reflexivity]).
  assert (with_uid (py "u1") (p_df Example.with_ann_on_sheets) <> []) as Hin
    by (apply with_uid_not_nil; vm_compute; reflexivity).
  split; [exact Hready|]. split; [exact Hin|].
  destruct (discharge_again_is_recorded_again Example.no_dates Example.isoformat
              Example.isoparse Example.with_ann_on_sheets (py "u1") (py "Nurse")
              (py "CD") (py "Doctor") (py "AB") Hready Hin)
    as (idx & r & r2 & e1 & e2 & w2 & Hrun & Hr & Hr2 & Hst & Hlu & _ & _ & _
        & Hlog & _).
  destruct idx as [|idx]; [|destruct idx; discriminate Hr].
  exists w2, r2. split; [exact Hrun|]. split; [exact Hr2|].
  split; [exact Hst|]. split.
  - apply (Hlu ltac:(constructor; [vm_compute; reflexivity | constructor])
             1714557600%Z);
      vm_compute; reflexivity.
  - rewrite Hlog. reflexivity.
Defined.

Lemma no_operation_removes_a_patient_witness :
  store_ready Example.with_ann
  /\ one_run [ Upsert Example.named (py "Doctor") (py "AB");
               Discharge (py "u1") (py "Nurse") (py "CD");
               Upsert Example.with_uid_u1 (py "Doctor") (py "AB") ]
  /\ (exists new,
        values "uid"
          (p_df (run_ops Example.no_dates Example.isoformat Example.isoparse
                   [ Upsert Example.named (py "Doctor") (py "AB");
                     Discharge (py "u1") (py "Nurse") (py "CD");
                     Upsert Example.with_uid_u1 (py "Doctor") (py "AB") ]
                   Example.with_ann))
        = Str (py "u1") :: new)
  /\ 1 <= length
            (rows
               (p_df (run_ops Example.no_dates Example.isoformat Example.isoparse
                        [ Upsert Example.named (py "Doctor") (py "AB");
                          Discharge (py "u1") (py "Nurse") (py "CD");
                          Upsert Example.with_uid_u1 (py "Doctor") (py "AB") ]
                        Example.with_ann))).
Proof.
  assert (store_ready Example.with_ann) as Hready
    by (split; [reflexivity | exact I]).
  assert (one_run [ Upsert Example.named (py "Doctor") (py "AB");
                    Discharge (py "u1") (py "Nurse") (py "CD");
                    Upsert Example.with_uid_u1 (py "Doctor") (py "AB") ]) as Hrun
    by (repeat (constructor; [discriminate|]); constructor).
  split; [exact Hready|]. split; [exact Hrun|].
  destruct (no_operation_removes_a_patient Example.no_dates Example.isoformat
              Example.isoparse Example.with_ann _ Hready Hrun) as [[new Hnew] Hlen].
  split; [exists new; exact Hnew | exact Hlen].
Defined.

Lemma environment_alone_selects_the_sheets_witness :
  Example.remote_env !! py "GCP_SERVICE_ACCOUNT_JSON" = Some Example.creds_json
  /\ Py.truthy Example.creds_json = true
  /\ Example.json_is_a_dict Example.creds_json = Some Example.a_dict
  /\ truthy bool id Example.a_dict = true
  /\ Example.remote_env !! py "SPREADSHEET_URL" = Some (py "https://sheet")
  /\ Py.truthy (py "https://sheet") = true
  /\ _init_backend bool id id Example.json_is_a_dict Example.upper
       (fun _ _ => Some Example.spreadsheet) Example.calls_return
       Example.blank_keys true None Example.remote_env
       Absent Absent
     = sheets
         (mkWorksheet PATIENT_COLUMNS [[Str (py "Ann"); Str (py "B2")]])
         (mkWorksheet AUDIT_COLUMNS []).
Proof.
  assert (Example.remote_env !! py "GCP_SERVICE_ACCOUNT_JSON"
          = Some Example.creds_json) as H1 by (vm_compute; reflexivity).
  assert (Py.truthy Example.creds_json = true) as H2 by reflexivity.
  assert (Example.json_is_a_dict Example.creds_json = Some Example.a_dict) as H3
    by reflexivity.
  assert (truthy bool id Example.a_dict = true) as H4 by reflexivity.
  assert (Example.remote_env !! py "SPREADSHEET_URL" = Some (py "https://sheet"))
    as H5 by (vm_compute; reflexivity).
  assert (Py.truthy (py "https://sheet") = true) as H6 by (vm_compute; reflexivity).
  split; [exact H1|]. split; [exact H2|]. split; [exact H3|]. split; [exact H4|].
  split; [exact H5|]. split; [exact H6|].
  rewrite (proj1 (environment_alone_selects_the_sheets bool id id
                    Example.json_is_a_dict Example.upper
                    (fun _ _ => Some Example.spreadsheet) Example.calls_return
                    Example.blank_keys Example.remote_env
                    Example.creds_json (py "https://sheet") Example.a_dict
                    Example.spreadsheet Absent Absent H1 H2 H3 H4 H5 H6 eq_refl)).
  vm_compute. reflexivity.
Defined.

(** * Where the code departs from the specification *)

(** [upsert_patient] on a record whose name is empty does not fail: it
    returns a uid, appends the row, writes the table and adds an audit
    row. *)
Lemma upsert_accepts_an_empty_name :
  Example.unnamed !! "Patient Name" = Some (py "")
  /\ exists w',
       upsert_patient Example.stamp Example.isoparse Example.unnamed (py "Doctor") (py "AB")
         Example.fresh
       = (Ok (py "uuid-0"), w')
       /\ length (rows (p_df w')) = 1
       /\ length (stored_patients (backend w')) = 1
       /\ length (audit_log Example.no_dates (backend w')) = 1.
Proof.
  split; [vm_compute; reflexivity|].
  assert (columns (p_df Example.fresh) <> []) as Hc by discriminate.
  destruct (upsert_spec Example.no_dates Example.stamp Example.isoparse Example.unnamed
              (py "Doctor") (py "AB") Example.fresh Hc)
    as (w' & action & r' & Hrun & _ & Hcase & Hstored & _ & _ & _ & _ & e & Hlog & _).
  change (rows (p_df Example.fresh)) with (@nil row) in Hcase.
  cbn [first_index] in Hcase. destruct Hcase as (_ & Hrows & _).
  exists w'. split.
  - rewrite Hrun.
    replace (resolved_uid Example.unnamed Example.fresh) with (py "uuid-0")
      by (vm_compute; reflexivity).
    reflexivity.
  - split; [rewrite Hrows; reflexivity|]. split.
    + rewrite Hstored, length_map, Hrows. reflexivity.
    + rewrite Hlog, length_app. vm_compute. reflexivity.
Qed.

(** A CSV table without the Priority and Status columns is loaded with
    the empty string in both, not with Medium and Active. *)
Lemma load_data_has_no_priority_default :
  let loaded :=
    (load_data Example.no_dates (csv (Table Example.old_table) Absent)).1 in
  values "Priority" loaded = [Str (py "")]
  /\ values "Priority" loaded <> [Str DEFAULT_PRIORITY]
  /\ values "Status" loaded = [Str (py "")]
  /\ values "Status" loaded <> [Str DEFAULT_STATUS].
Proof.
  vm_compute. repeat split; try reflexivity; discriminate.
Qed.
